(** * Fitness calculators: the BMI and TDEE components

    A shallow embedding of [BMICalculator.tsx] and of the TDEE component
    ([FitnessCalculator]), with the part of the JavaScript runtime that the
    two components call: binary64 numbers, [Math.round], [Math.floor], the
    remainder operator, [Number] on the strings the input pattern admits,
    and JSON values as [localStorage] hands them back.

    JavaScript numbers are IEEE 754 binary64 values; they are modelled by
    the primitive type [float], whose operations are the processor's.
    Statements on all numbers of a range, rather than on one input, go
    through the rational values of the numbers and the rounding error of
    each operation. *)

From Stdlib Require Import ZArith QArith Qabs Qpower List String Ascii Bool Lia Lqa.
From Stdlib Require Import Floats.
From stdpp Require Import base option strings gmap.

Set Warnings "-inexact-float,-register-all".

Local Open Scope Z_scope.

(* ===================================================================== *)
(** ** The runtime: numbers *)
(* ===================================================================== *)

Module Js.

(** A JavaScript Number. *)
Definition number := float.

(** The integer [n] as a number (exact when [|n| <= 2^53]). *)
Definition Z2number (n : Z) : number :=
  SF2Prim (binary_normalize prec emax n 0 false).

(** [Math.floor]: NaN, the infinities, the zeros and integral values are
    returned as they are; otherwise the value is [m * 2^e] with [e < 0] and
    the result is the integer below it. *)
Definition Math_floor (x : number) : number :=
  match Prim2SF x with
  | S754_finite s m e =>
      if 0 <=? e then x
      else Z2number (Z.shiftr (cond_Zopp s (Zpos m)) (- e))
  | _ => x
  end.

(** [Math.round]: the closest integer, ties going towards +infinity; a
    negative argument that rounds to zero gives -0. *)
Definition Math_round (x : number) : number :=
  match Prim2SF x with
  | S754_finite s m e =>
      if 0 <=? e then x
      else
        let n := Z.shiftr (2 * cond_Zopp s (Zpos m) + 2 ^ (- e)) (1 - e) in
        if n =? 0 then (if s then neg_zero else zero) else Z2number n
  | _ => x
  end.

(** The remainder operator [n % d] on numbers: truncated, with the sign of
    the dividend, and always exact. *)
Definition rem (n d : number) : number :=
  match Prim2SF n, Prim2SF d with
  | S754_nan, _ | _, S754_nan => nan
  | S754_infinity _, _ => nan
  | _, S754_zero _ => nan
  | _, S754_infinity _ => n
  | S754_zero _, _ => n
  | S754_finite sn mn en, S754_finite _ md ed =>
      let e := Z.min en ed in
      let N := Z.shiftl (Zpos mn) (en - e) in
      let D := Z.shiftl (Zpos md) (ed - e) in
      SF2Prim (binary_normalize prec emax (cond_Zopp sn (N mod D)) e sn)
  end.

(** The number closest to [N / 10^k], for a natural [N]: what reading the
    decimal numeral with digits [N] and [k] digits after the point gives. *)
Definition decimal (N : Z) (k : nat) : number :=
  match N with
  | Zpos p =>
      SF2Prim (SFdiv prec emax (S754_finite false p 0)
                 (S754_finite false (Z.to_pos (10 ^ Z.of_nat k)) 0))
  | _ => zero
  end.

(* ===================================================================== *)
(** ** The runtime: the input pattern and [Number] *)
(* ===================================================================== *)

Definition is_digit (c : ascii) : bool :=
  let n := N_of_ascii c in ((48 <=? n) && (n <=? 57))%N.

Definition digit_value (c : ascii) : Z := Z.of_N (N_of_ascii c) - 48.

(** Reads the longest prefix of decimal digits of [s]: its value on top of
    [acc], the number of digits read on top of [n], and what follows. *)
Fixpoint digits (s : string) (acc : Z) (n : nat) : Z * nat * string :=
  match s with
  | String c r =>
      if is_digit c then digits r (10 * acc + digit_value c) (S n)
      else (acc, n, s)
  | EmptyString => (acc, n, s)
  end.

(** [/^[0-9]*\.?[0-9]*$/.test(s)]: digits, at most one point, digits, and
    then the end of the string. The three parts are over disjoint
    characters, so the greedy scan decides the match. *)
Definition numericPattern_test (s : string) : bool :=
  let '(_, _, r) := digits s 0 0 in
  let r := match r with String "."%char r' => r' | _ => r end in
  let '(_, _, r) := digits r 0 0 in
  match r with EmptyString => true | _ => false end.

(** [Number(s)] on the strings the pattern admits (the only ones the
    components pass to it): the empty string is 0, a numeral without any
    digit (a lone point) is NaN, and digits with an optional point are read
    as a decimal numeral. Signs, exponents, white space and the other
    forms of a numeric string never reach [Number] in this program; on
    them the definition answers NaN and is not meant to be used. *)
Definition Number (s : string) : number :=
  let '(i, ni, r) := digits s 0 0 in
  match r with
  | EmptyString => if ni is O then zero else decimal i 0
  | String "."%char r' =>
      let '(f, nf, r'') := digits r' 0 0 in
      match r'' with
      | EmptyString =>
          if (ni + nf)%nat is O then nan
          else decimal (i * 10 ^ Z.of_nat nf + f) nf
      | _ => nan
      end
  | _ => nan
  end.

(* ===================================================================== *)
(** ** The runtime: values, JSON and localStorage *)
(* ===================================================================== *)

(** The values [JSON.parse] can build, and [undefined] for the read of a
    property an object does not have. *)
Inductive value :=
  | VUndefined
  | VNull
  | VBool (b : bool)
  | VNum (x : number)
  | VStr (s : string)
  | VArr (l : list value)
  | VObj (o : list (string * value)).

(** [typeof v === 'object' && v !== null] *)
Definition is_object (v : value) : bool :=
  match v with VArr _ | VObj _ => true | _ => false end.

Fixpoint assoc (k : string) (o : list (string * value)) : value :=
  match o with
  | [] => VUndefined
  | (k', v) :: o' => if String.eqb k k' then v else assoc k o'
  end.

(** [v.k] for a named (non-index, non-[length]) key [k] of a parsed JSON
    value: an own property of an object, [undefined] otherwise. *)
Definition prop (v : value) (k : string) : value :=
  match v with VObj o => assoc k o | _ => VUndefined end.

(** [v ?? d] *)
Definition nullish (v d : value) : value :=
  match v with VUndefined | VNull => d | _ => v end.

(** [v === s] for a string literal [s]. *)
Definition is_string (v : value) (s : string) : bool :=
  match v with VStr s' => String.eqb s' s | _ => false end.

(** What [JSON.parse (JSON.stringify v)] returns for a value stored in an
    object or an array: a number that is not finite is written as [null],
    the negative zero is written as ["0"], [undefined] is dropped from an
    object and written as [null] in an array, and every other number and
    string is read back as it was written. *)
Fixpoint rewritten (v : value) : value :=
  match v with
  | VNum x =>
      if is_finite x then (if is_zero x then VNum zero else VNum x)
      else VNull
  | VArr l =>
      VArr (map (fun e => match e with VUndefined => VNull | _ => rewritten e end) l)
  | VObj o =>
      VObj ((fix props (o : list (string * value)) :=
               match o with
               | [] => []
               | (k, VUndefined) :: o' => props o'
               | (k, e) :: o' => (k, rewritten e) :: props o'
               end) o)
  | _ => v
  end.

(** [Object.is] on values read from storage or set by a handler (an array
    or an object of the state is never rebuilt, so comparing the contents
    is comparing the references). *)
Fixpoint same_value (a b : value) : bool :=
  match a, b with
  | VUndefined, VUndefined | VNull, VNull => true
  | VBool x, VBool y => Bool.eqb x y
  | VNum x, VNum y => PrimFloat.Leibniz.eqb x y
  | VStr x, VStr y => String.eqb x y
  | VArr x, VArr y =>
      (fix all2 (x y : list value) : bool :=
         match x, y with
         | [], [] => true
         | a :: x', b :: y' => same_value a b && all2 x' y'
         | _, _ => false
         end) x y
  | VObj x, VObj y =>
      (fix all2 (x y : list (string * value)) : bool :=
         match x, y with
         | [], [] => true
         | (k, a) :: x', (k', b) :: y' => String.eqb k k' && same_value a b && all2 x' y'
         | _, _ => false
         end) x y
  | _, _ => false
  end.

Section ToString.

(** [Number::toString], the decimal form of a number, is not modelled: it
    is a parameter of the conversion of a value to a string. *)
Variable Number_toString : number -> string.

(** [ToString], which is also how a value used as a property key is
    turned into the key: an array joins the strings of its elements with
    commas, [null] and [undefined] elements giving the empty string. *)
Fixpoint ToString (v : value) : string :=
  match v with
  | VUndefined => "undefined"
  | VNull => "null"
  | VBool b => if b then "true" else "false"
  | VNum x => Number_toString x
  | VStr s => s
  | VArr l =>
      (fix join (l : list value) : string :=
         match l with
         | [] => ""
         | e :: l' =>
             let s := match e with VUndefined | VNull => "" | _ => ToString e end in
             match l' with [] => s | _ => s ++ "," ++ join l' end
         end)%string l
  | VObj _ => "[object Object]"
  end.

End ToString.

(** An item of [localStorage] as [JSON.parse] sees it: text it rejects
    (it throws), or the value it returns. *)
Inductive item :=
  | Garbled
  | Json (v : value).

(** [localStorage]: the items by key, and whether [setItem] succeeds
    (it throws when the quota is exceeded or storage is disabled). *)
Record Storage := { items : gmap string item; writable : bool }.

Definition getItem (ls : Storage) (key : string) : option item :=
  items ls !! key.

(** [setItem]: [None] when it throws. *)
Definition setItem (ls : Storage) (key : string) (i : item) : option Storage :=
  if writable ls then Some {| items := <[key := i]> (items ls); writable := true |}
  else None.

End Js.

(* ===================================================================== *)
(** ** What the two components share *)
(* ===================================================================== *)

(** Both components declare the same unit type, the same conversion
    factors and the same five input slots, and carry textually identical
    copies of the canonical values, of the input handler and of the unit
    conversion; they are embedded once. *)
Module Form.
Import Js.
Local Open Scope float_scope.

Inductive Units := metric | imperial.

Definition LBS_TO_KG : number := 0.453592.
Definition KG_TO_LBS : number := 2.20462.
Definition IN_TO_CM : number := 2.54.
Definition CM_TO_IN : number := 0.393701.
Definition FT_TO_IN : number := 12.

(** The type [number | '']: [None] is the empty string. *)
Definition field := option number.

(** The [useState] slots of the form. *)
Record Inputs := {
  units : Units;
  weightInput : field;
  heightCmInput : field;
  heightFtInput : field;
  heightInInput : field;
}.

Definition setUnits (u : Units) (i : Inputs) : Inputs :=
  {| units := u; weightInput := weightInput i; heightCmInput := heightCmInput i;
     heightFtInput := heightFtInput i; heightInInput := heightInInput i |}.
Definition setWeightInput (v : field) (i : Inputs) : Inputs :=
  {| units := units i; weightInput := v; heightCmInput := heightCmInput i;
     heightFtInput := heightFtInput i; heightInInput := heightInInput i |}.
Definition setHeightCmInput (v : field) (i : Inputs) : Inputs :=
  {| units := units i; weightInput := weightInput i; heightCmInput := v;
     heightFtInput := heightFtInput i; heightInInput := heightInInput i |}.
Definition setHeightFtInput (v : field) (i : Inputs) : Inputs :=
  {| units := units i; weightInput := weightInput i; heightCmInput := heightCmInput i;
     heightFtInput := v; heightInInput := heightInInput i |}.
Definition setHeightInInput (v : field) (i : Inputs) : Inputs :=
  {| units := units i; weightInput := weightInput i; heightCmInput := heightCmInput i;
     heightFtInput := heightFtInput i; heightInInput := v |}.

(** The memo [weightKg]: the weight in kilograms whatever the units. *)
Definition weightKg (i : Inputs) : field :=
  match weightInput i with
  | None => None
  | Some w => Some (match units i with metric => w | imperial => w * LBS_TO_KG end)
  end.

(** The memo [heightCm]: the height in centimetres whatever the units. *)
Definition heightCm (i : Inputs) : field :=
  match units i with
  | metric => heightCmInput i
  | imperial =>
      match heightFtInput i, heightInInput i with
      | None, None => None
      | ft, inches =>
          let ft := default 0 ft in
          let inches := default 0 inches in
          Some ((ft * FT_TO_IN + inches) * IN_TO_CM)
      end
  end.

(** [handleInputChange(setter)(e)], on the state [S] of the component that
    owns it, with [value = e.target.value]. *)
Definition handleInputChange {S : Type} (setShowResult : bool -> S -> S)
    (setter : field -> S -> S) (value : string) (st : S) : S :=
  let st :=
    if String.eqb value "" || numericPattern_test value
    then setter (if String.eqb value "" then None else Some (Number value)) st
    else st in
  setShowResult false st.

(** The body of [toggleUnits] up to its last statement: the new units and
    the conversion of the values. Every read is of the slots as they were
    when the handler started, as in a React closure. *)
Definition toggleUnits (i : Inputs) : Inputs :=
  let newUnits := match units i with metric => imperial | imperial => metric end in
  let st := setUnits newUnits i in
  match newUnits with
  | imperial =>
      let st :=
        match weightInput i with
        | Some w => setWeightInput (Some (Math_round (w * KG_TO_LBS * 10) / 10)) st
        | None => st
        end in
      match heightCmInput i with
      | Some h =>
          let totalInches := h * CM_TO_IN in
          let feet := Math_floor (totalInches / FT_TO_IN) in
          let inches := Math_round (rem totalInches FT_TO_IN * 10) / 10 in
          setHeightCmInput None (setHeightInInput (Some inches) (setHeightFtInput (Some feet) st))
      | None => st
      end
  | metric =>
      let st :=
        match weightInput i with
        | Some w => setWeightInput (Some (Math_round (w * LBS_TO_KG * 10) / 10)) st
        | None => st
        end in
      let ft := default 0 (heightFtInput i) in
      let inches := default 0 (heightInInput i) in
      if (0 <? ft) || (0 <? inches) then
        let totalCm := (ft * FT_TO_IN + inches) * IN_TO_CM in
        setHeightInInput None (setHeightFtInput None (setHeightCmInput (Some (Math_round totalCm)) st))
      else st
  end.

(** A slot as it is written into the persisted record, and read back from
    it when the record holds a value of type [number | '']. *)
Definition value_of_field (f : field) : value :=
  match f with None => VStr "" | Some x => VNum x end.

Definition field_of_value (v : value) : option field :=
  match v with
  | VNum x => Some (Some x)
  | VStr s => if String.eqb s "" then Some None else None
  | _ => None
  end.

Definition value_of_units (u : Units) : value :=
  VStr (match u with metric => "metric" | imperial => "imperial" end).

(** [Object.is] on two slots, which decides whether a memo is run again. *)
Definition same_field (a b : field) : bool :=
  match a, b with
  | None, None => true
  | Some x, Some y => PrimFloat.Leibniz.eqb x y
  | _, _ => false
  end.

End Form.

(* ===================================================================== *)
(** ** BMICalculator.tsx *)
(* ===================================================================== *)

Module BMICalculator.
Import Js Form.
Local Open Scope float_scope.

Definition LOCAL_STORAGE_KEY_BMI : string := "bmiCalculatorState_v2".

(** [interface BMICalculatorState], with the values its fields hold at run
    time: [loadBMIState] copies whatever the stored record has. *)
Module Saved.
Record BMICalculatorState := {
  weight : value;
  heightCm : value;
  heightFt : value;
  heightIn : value;
  units : Units;
}.
End Saved.
Abbreviation BMICalculatorState := Saved.BMICalculatorState.

Definition defaultBMIState : BMICalculatorState :=
  {| Saved.weight := VStr ""; Saved.heightCm := VStr ""; Saved.heightFt := VStr "";
     Saved.heightIn := VStr ""; Saved.units := metric |}.

Definition loadBMIState (ls : Storage) : BMICalculatorState :=
  match getItem ls LOCAL_STORAGE_KEY_BMI with
  | None => defaultBMIState
  | Some Garbled => defaultBMIState
  | Some (Json parsedState) =>
      if is_object parsedState then
        {| Saved.weight := nullish (prop parsedState "weight") (VStr "");
           Saved.heightCm := nullish (prop parsedState "heightCm") (VStr "");
           Saved.heightFt := nullish (prop parsedState "heightFt") (VStr "");
           Saved.heightIn := nullish (prop parsedState "heightIn") (VStr "");
           Saved.units :=
             if is_string (prop parsedState "units") "imperial" then imperial else metric |}
      else defaultBMIState
  end.

(** [saveBMIState]: the storage afterwards; a [setItem] that throws is
    caught and leaves the storage as it was. *)
Definition saveBMIState (state : BMICalculatorState) (ls : Storage) : Storage :=
  let serializedState :=
    Json (rewritten (VObj [("weight", Saved.weight state);
                           ("heightCm", Saved.heightCm state);
                           ("heightFt", Saved.heightFt state);
                           ("heightIn", Saved.heightIn state);
                           ("units", value_of_units (Saved.units state))])) in
  match setItem ls LOCAL_STORAGE_KEY_BMI serializedState with
  | Some ls' => ls'
  | None => ls
  end.

(** The state of the component: the input slots and what it displays. *)
Record State := {
  inputs : Inputs;
  bmi : option number;
  bmiCategoryKey : option string;
  showResult : bool;
}.

Definition setInputs (f : Inputs -> Inputs) (st : State) : State :=
  {| inputs := f (inputs st); bmi := bmi st; bmiCategoryKey := bmiCategoryKey st;
     showResult := showResult st |}.
Definition setShowResult (b : bool) (st : State) : State :=
  {| inputs := inputs st; bmi := bmi st; bmiCategoryKey := bmiCategoryKey st;
     showResult := b |}.

(** [setBmi(null); setBmiCategoryKey(null); setShowResult(false)] *)
Definition noResult (st : State) : State :=
  {| inputs := inputs st; bmi := None; bmiCategoryKey := None; showResult := false |}.

Definition calculateBMI (st : State) : State :=
  match weightKg (inputs st), heightCm (inputs st) with
  | Some weightKg, Some heightCm =>
      if heightCm =? 0 then noResult st
      else
        let heightInMeters := heightCm / 100 in
        let calculatedBmi := weightKg / (heightInMeters * heightInMeters) in
        let roundedBmi := Math_round (calculatedBmi * 10) / 10 in
        {| inputs := inputs st;
           bmi := Some roundedBmi;
           bmiCategoryKey :=
             Some (if roundedBmi <? 18.5 then "underweight"%string
                   else if roundedBmi <? 25 then "normalWeight"%string
                   else if roundedBmi <? 30 then "overweight"%string
                   else "obesity"%string);
           showResult := true |}
  | _, _ => noResult st
  end.

(** The callback of the memo that recalculates on [weightKg, heightCm]. *)
Definition recalculate (st : State) : State :=
  match weightKg (inputs st), heightCm (inputs st) with
  | Some _, Some heightCm => if heightCm =? 0 then noResult st else calculateBMI st
  | _, _ => noResult st
  end.

Definition handleInputChange (setter : field -> Inputs -> Inputs) (value : string)
    (st : State) : State :=
  Form.handleInputChange setShowResult (fun v => setInputs (setter v)) value st.

Definition toggleUnits (st : State) : State :=
  setShowResult false (setInputs Form.toggleUnits st).

(** The state written by the effect that persists the form. *)
Definition currentState (st : State) : BMICalculatorState :=
  {| Saved.weight := value_of_field (weightInput (inputs st));
     Saved.heightCm := value_of_field (heightCmInput (inputs st));
     Saved.heightFt := value_of_field (heightFtInput (inputs st));
     Saved.heightIn := value_of_field (heightInInput (inputs st));
     Saved.units := Form.units (inputs st) |}.

(** What the user can do. The centimetre input is rendered in metric
    units only, the feet and inches inputs in imperial units only. *)
Inductive Event :=
  | ChangeWeight (value : string)
  | ChangeHeightCm (value : string)
  | ChangeHeightFt (value : string)
  | ChangeHeightIn (value : string)
  | ClickUnits
  | SubmitForm.

Definition handle (e : Event) (st : State) : option State :=
  match e, Form.units (inputs st) with
  | ChangeWeight v, _ => Some (handleInputChange setWeightInput v st)
  | ChangeHeightCm v, metric => Some (handleInputChange setHeightCmInput v st)
  | ChangeHeightFt v, imperial => Some (handleInputChange setHeightFtInput v st)
  | ChangeHeightIn v, imperial => Some (handleInputChange setHeightInInput v st)
  | ClickUnits, _ => Some (toggleUnits st)
  | SubmitForm, _ => Some (calculateBMI st)
  | _, _ => None
  end.

(** The render that follows an event runs the memo again when one of its
    dependencies is not the same as before. *)
Definition render (old new : State) : State :=
  if same_field (weightKg (inputs old)) (weightKg (inputs new))
     && same_field (heightCm (inputs old)) (heightCm (inputs new))
  then new else recalculate new.

Definition step (e : Event) (st : State) : option State :=
  render st <$> handle e st.

(** The first render: the slots start from the loaded record (when it
    holds values of the slots' type) and the memo runs. *)
Definition mount (ls : Storage) : option State :=
  let initialBMIState := loadBMIState ls in
  w ← field_of_value (Saved.weight initialBMIState);
  cm ← field_of_value (Saved.heightCm initialBMIState);
  ft ← field_of_value (Saved.heightFt initialBMIState);
  inch ← field_of_value (Saved.heightIn initialBMIState);
  Some (recalculate
          {| inputs := {| Form.units := Saved.units initialBMIState; weightInput := w;
                          heightCmInput := cm; heightFtInput := ft; heightInInput := inch |};
             bmi := None; bmiCategoryKey := None; showResult := false |}).

(** The state of a first visit: nothing stored. *)
Definition initial : State :=
  {| inputs := {| Form.units := metric; weightInput := None; heightCmInput := None;
                  heightFtInput := None; heightInInput := None |};
     bmi := None; bmiCategoryKey := None; showResult := false |}.

Inductive reachable : State -> Prop :=
  | reachable_initial : reachable initial
  | reachable_step st e st' : reachable st -> step e st = Some st' -> reachable st'.

(** The state after a sequence of events, when each of them is possible. *)
Fixpoint run (es : list Event) (st : State) : option State :=
  match es with
  | [] => Some st
  | e :: es' => st' ← step e st; run es' st'
  end.

End BMICalculator.

(* ===================================================================== *)
(** ** FitnessCalculator (the TDEE component) *)
(* ===================================================================== *)

Module FitnessCalculator.
Import Js Form.
Local Open Scope float_scope.

Definition LOCAL_STORAGE_KEY : string := "tdeeCalculatorState".

(** [const activityFactors: Record<ActivityLevel, number>] *)
Definition activityFactors : gmap string number :=
  list_to_map [("sedentary", 1.2); ("light", 1.375); ("moderate", 1.55);
               ("active", 1.725); ("extra", 1.9)]%string.

(** [interface FitnessCalculatorState], with the values its fields hold at
    run time. *)
Module Saved.
Record FitnessCalculatorState := {
  age : value;
  gender : value;
  weight : value;
  height : value;
  activityLevel : value;
  units : Units;
  heightIn : value;
  heightFt : value;
}.
End Saved.
Abbreviation FitnessCalculatorState := Saved.FitnessCalculatorState.

Definition defaultState : FitnessCalculatorState :=
  {| Saved.age := VStr ""; Saved.gender := VStr "male"; Saved.weight := VStr "";
     Saved.height := VStr ""; Saved.activityLevel := VStr "sedentary";
     Saved.units := metric; Saved.heightIn := VStr ""; Saved.heightFt := VStr "" |}.

Definition loadState (ls : Storage) : FitnessCalculatorState :=
  match getItem ls LOCAL_STORAGE_KEY with
  | None => defaultState
  | Some Garbled => defaultState
  | Some (Json parsedState) =>
      if is_object parsedState then
        {| Saved.age := nullish (prop parsedState "age") (VStr "");
           Saved.gender := nullish (prop parsedState "gender") (VStr "male");
           Saved.weight := nullish (prop parsedState "weight") (VStr "");
           Saved.height := nullish (prop parsedState "height") (VStr "");
           Saved.activityLevel :=
             nullish (prop parsedState "activityLevel") (VStr "sedentary");
           Saved.units :=
             if is_string (prop parsedState "units") "imperial" then imperial else metric;
           Saved.heightIn := nullish (prop parsedState "heightIn") (VStr "");
           Saved.heightFt := nullish (prop parsedState "heightFt") (VStr "") |}
      else defaultState
  end.

Definition saveState (state : FitnessCalculatorState) (ls : Storage) : Storage :=
  let serializedState :=
    Json (rewritten (VObj [("age", Saved.age state);
                           ("gender", Saved.gender state);
                           ("weight", Saved.weight state);
                           ("height", Saved.height state);
                           ("activityLevel", Saved.activityLevel state);
                           ("units", value_of_units (Saved.units state));
                           ("heightIn", Saved.heightIn state);
                           ("heightFt", Saved.heightFt state)])) in
  match setItem ls LOCAL_STORAGE_KEY serializedState with
  | Some ls' => ls'
  | None => ls
  end.

(** The state of the component. [gender] and [activityLevel] start from
    whatever value the stored record has, so they are values. *)
Record State := {
  age : field;
  gender : value;
  inputs : Inputs;
  activityLevel : value;
  tdee : option number;
  showResult : bool;
}.

Definition setAge (v : field) (st : State) : State :=
  {| age := v; gender := gender st; inputs := inputs st;
     activityLevel := activityLevel st; tdee := tdee st; showResult := showResult st |}.
Definition setGender (v : value) (st : State) : State :=
  {| age := age st; gender := v; inputs := inputs st;
     activityLevel := activityLevel st; tdee := tdee st; showResult := showResult st |}.
Definition setActivityLevel (v : value) (st : State) : State :=
  {| age := age st; gender := gender st; inputs := inputs st;
     activityLevel := v; tdee := tdee st; showResult := showResult st |}.
Definition setInputs (f : Inputs -> Inputs) (st : State) : State :=
  {| age := age st; gender := gender st; inputs := f (inputs st);
     activityLevel := activityLevel st; tdee := tdee st; showResult := showResult st |}.
Definition setShowResult (b : bool) (st : State) : State :=
  {| age := age st; gender := gender st; inputs := inputs st;
     activityLevel := activityLevel st; tdee := tdee st; showResult := b |}.

(** [setTdee(null); setShowResult(false)] *)
Definition noResult (st : State) : State :=
  {| age := age st; gender := gender st; inputs := inputs st;
     activityLevel := activityLevel st; tdee := None; showResult := false |}.

Definition handleInputChange (setter : field -> State -> State) (value : string)
    (st : State) : State :=
  Form.handleInputChange setShowResult setter value st.

Definition handleSelectChange (setter : value -> State -> State) (value : string)
    (st : State) : State :=
  setShowResult false (setter (VStr value) st).

Definition toggleUnits (st : State) : State :=
  setShowResult false (setInputs Form.toggleUnits st).

Definition currentState (st : State) : FitnessCalculatorState :=
  {| Saved.age := value_of_field (age st);
     Saved.gender := gender st;
     Saved.weight := value_of_field (weightInput (inputs st));
     Saved.height := value_of_field (heightCmInput (inputs st));
     Saved.activityLevel := activityLevel st;
     Saved.units := Form.units (inputs st);
     Saved.heightIn := value_of_field (heightInInput (inputs st));
     Saved.heightFt := value_of_field (heightFtInput (inputs st)) |}.

Inductive Event :=
  | ChangeAge (value : string)
  | SelectGender (value : string)
  | ChangeWeight (value : string)
  | ChangeHeightCm (value : string)
  | ChangeHeightFt (value : string)
  | ChangeHeightIn (value : string)
  | SelectActivityLevel (value : string)
  | ClickUnits
  | SubmitForm.

Definition initial : State :=
  {| age := None; gender := VStr "male";
     inputs := {| Form.units := metric; weightInput := None; heightCmInput := None;
                  heightFtInput := None; heightInInput := None |};
     activityLevel := VStr "sedentary"; tdee := None; showResult := false |}.

Section Runtime.

Variable Number_toString : number -> string.

(** [activityFactors[activityLevel]] as the factor of a product: the
    number under the key when it is one of the five own keys; for any other
    key the read gives [undefined] or a member inherited from
    [Object.prototype] (a function or an object), which a product converts
    to NaN. *)
Definition activityFactor (level : value) : number :=
  default nan (activityFactors !! ToString Number_toString level).

Definition calculateTDEE (st : State) : State :=
  match age st, weightKg (inputs st), heightCm (inputs st) with
  | Some age', Some weightKg, Some heightCm =>
      let bmr :=
        if is_string (gender st) "male"
        then 10 * weightKg + 6.25 * heightCm - 5 * age' + 5
        else 10 * weightKg + 6.25 * heightCm - 5 * age' - 161 in
      let calculatedTdee := bmr * activityFactor (activityLevel st) in
      {| age := age st; gender := gender st; inputs := inputs st;
         activityLevel := activityLevel st;
         tdee := Some (Math_round calculatedTdee); showResult := true |}
  | _, _, _ => noResult st
  end.

(** The callback of the memo on
    [age, gender, weightKg, heightCm, activityLevel]. *)
Definition recalculate (st : State) : State :=
  match age st, weightKg (inputs st), heightCm (inputs st) with
  | Some _, Some _, Some _ => calculateTDEE st
  | _, _, _ => noResult st
  end.

Definition handle (e : Event) (st : State) : option State :=
  match e, Form.units (inputs st) with
  | ChangeAge v, _ => Some (handleInputChange setAge v st)
  | SelectGender v, _ => Some (handleSelectChange setGender v st)
  | ChangeWeight v, _ =>
      Some (handleInputChange (fun x => setInputs (setWeightInput x)) v st)
  | ChangeHeightCm v, metric =>
      Some (handleInputChange (fun x => setInputs (setHeightCmInput x)) v st)
  | ChangeHeightFt v, imperial =>
      Some (handleInputChange (fun x => setInputs (setHeightFtInput x)) v st)
  | ChangeHeightIn v, imperial =>
      Some (handleInputChange (fun x => setInputs (setHeightInInput x)) v st)
  | SelectActivityLevel v, _ => Some (handleSelectChange setActivityLevel v st)
  | ClickUnits, _ => Some (toggleUnits st)
  | SubmitForm, _ => Some (calculateTDEE st)
  | _, _ => None
  end.

Definition render (old new : State) : State :=
  if same_field (age old) (age new)
     && same_value (gender old) (gender new)
     && same_field (weightKg (inputs old)) (weightKg (inputs new))
     && same_field (heightCm (inputs old)) (heightCm (inputs new))
     && same_value (activityLevel old) (activityLevel new)
  then new else recalculate new.

Definition step (e : Event) (st : State) : option State :=
  render st <$> handle e st.

Definition mount (ls : Storage) : option State :=
  let initialState := loadState ls in
  a ← field_of_value (Saved.age initialState);
  w ← field_of_value (Saved.weight initialState);
  cm ← field_of_value (Saved.height initialState);
  ft ← field_of_value (Saved.heightFt initialState);
  inch ← field_of_value (Saved.heightIn initialState);
  Some (recalculate
          {| age := a; gender := Saved.gender initialState;
             inputs := {| Form.units := Saved.units initialState; weightInput := w;
                          heightCmInput := cm; heightFtInput := ft; heightInInput := inch |};
             activityLevel := Saved.activityLevel initialState;
             tdee := None; showResult := false |}).

Inductive reachable : State -> Prop :=
  | reachable_initial : reachable initial
  | reachable_step st e st' : reachable st -> step e st = Some st' -> reachable st'.

Fixpoint run (es : list Event) (st : State) : option State :=
  match es with
  | [] => Some st
  | e :: es' => st' ← step e st; run es' st'
  end.

End Runtime.

End FitnessCalculator.

(* ===================================================================== *)
(** ** What the components display *)
(* ===================================================================== *)

(** The part of the two render functions that decides what is shown below
    the form: the result block, the prompt to fill the fields, the class of
    the category line. The markup around them and the texts that [t] looks
    up are not modelled. *)
Module BMIView.
Import Js Form BMICalculator.
Local Open Scope float_scope.

(** [weightKg !== '' && heightCm !== '' && heightCm !== 0] *)
Definition isFormComplete (st : State) : bool :=
  match weightKg (inputs st), heightCm (inputs st) with
  | Some _, Some heightCm => negb (heightCm =? 0)
  | _, _ => false
  end.

Definition getCategoryColor (categoryKey : option string) : string :=
  match categoryKey with
  | Some k =>
      if String.eqb k "underweight" then "text-blue-600"
      else if String.eqb k "normalWeight" then "text-green-600"
      else if String.eqb k "overweight" then "text-yellow-600"
      else if String.eqb k "obesity" then "text-red-600"
      else "text-gray-800"
  | None => "text-gray-800"
  end.

(** The result block, rendered when
    [showResult && bmi !== null && bmiCategoryKey !== null]: the number, the
    class of the category line and the key whose text is shown. *)
Definition resultBlock (st : State) : option (number * string * string) :=
  if showResult st then
    match bmi st, bmiCategoryKey st with
    | Some b, Some k => Some (b, getCategoryColor (Some k), k)
    | _, _ => None
    end
  else None.

(** The prompt, rendered when [!isFormComplete && !showResult]. *)
Definition promptBlock (st : State) : bool :=
  negb (isFormComplete st) && negb (showResult st).

(** The states of a visit that starts with the storage [ls]. *)
Inductive visited (ls : Storage) : State -> Prop :=
  | visited_mount st : mount ls = Some st -> visited ls st
  | visited_step st e st' : visited ls st -> step e st = Some st' -> visited ls st'.

End BMIView.

Module TDEEView.
Import Js Form FitnessCalculator.
Local Open Scope float_scope.

(** [age !== '' && weightKg !== '' && heightCm !== ''] *)
Definition isFormComplete (st : State) : bool :=
  match age st, weightKg (inputs st), heightCm (inputs st) with
  | Some _, Some _, Some _ => true
  | _, _, _ => false
  end.

(** The keys of [activityOptions], the options of the select. *)
Definition activityOptions : list string :=
  ["sedentary"; "light"; "moderate"; "active"; "extra"].

(** The values of the two radio inputs. *)
Definition genderRadios : list string := ["male"; "female"].

(** The result block, rendered when [showResult && tdee !== null]. *)
Definition resultBlock (st : State) : option number :=
  if showResult st then tdee st else None.

Definition promptBlock (st : State) : bool :=
  negb (isFormComplete st) && negb (showResult st).

Section Runtime.
Variable Number_toString : number -> string.

Inductive visited (ls : Storage) : State -> Prop :=
  | visited_mount st : mount Number_toString ls = Some st -> visited ls st
  | visited_step st e st' :
      visited ls st -> step Number_toString e st = Some st' -> visited ls st'.

End Runtime.

End TDEEView.

(* ===================================================================== *)
(** ** The selects of the TDEE form *)
(* ===================================================================== *)

Module TDEEPage.
Import Js Form FitnessCalculator.

(** The events the rendered form can send: a radio input sends its value,
    the select sends the key of one of its options; a text input sends any
    string. *)
Definition offered (e : Event) : bool :=
  match e with
  | SelectGender v => existsb (String.eqb v) TDEEView.genderRadios
  | SelectActivityLevel v => existsb (String.eqb v) TDEEView.activityOptions
  | _ => true
  end.

Section Runtime.
Variable Number_toString : number -> string.

(** The states of a first visit in which every event comes from the
    rendered form. *)
Inductive browsed : State -> Prop :=
  | browsed_initial : browsed initial
  | browsed_step st e st' :
      browsed st -> offered e = true -> step Number_toString e st = Some st' ->
      browsed st'.

End Runtime.
End TDEEPage.

(* ===================================================================== *)
(** ** App: the two components on one page, and the storage they share *)
(* ===================================================================== *)

(** [App] renders [FitnessCalculator] and then [BMICalculator]; both read
    [localStorage] when they mount and write it from an effect. The language
    switch of [App] goes through [i18n] and is not modelled. *)
Module App.
Import Js Form.

Definition same_units (a b : Units) : bool :=
  match a, b with
  | metric, metric | imperial, imperial => true
  | _, _ => false
  end.

(** The effect of [BMICalculator], with the dependencies
    [weightInput, heightCmInput, heightFtInput, heightInInput, units]: it
    runs after a render in which one of them is not the same as in the
    render before. *)
Definition bmiEffect (old new : BMICalculator.State) (ls : Storage) : Storage :=
  let o := BMICalculator.inputs old in
  let n := BMICalculator.inputs new in
  if same_field (weightInput o) (weightInput n)
     && same_field (heightCmInput o) (heightCmInput n)
     && same_field (heightFtInput o) (heightFtInput n)
     && same_field (heightInInput o) (heightInInput n)
     && same_units (units o) (units n)
  then ls
  else BMICalculator.saveBMIState (BMICalculator.currentState new) ls.

(** The effect of [FitnessCalculator], with the dependencies
    [age, gender, weightInput, heightCmInput, heightFtInput, heightInInput,
     activityLevel, units]. *)
Definition tdeeEffect (old new : FitnessCalculator.State) (ls : Storage) : Storage :=
  let o := FitnessCalculator.inputs old in
  let n := FitnessCalculator.inputs new in
  if same_field (FitnessCalculator.age old) (FitnessCalculator.age new)
     && same_value (FitnessCalculator.gender old) (FitnessCalculator.gender new)
     && same_field (weightInput o) (weightInput n)
     && same_field (heightCmInput o) (heightCmInput n)
     && same_field (heightFtInput o) (heightFtInput n)
     && same_field (heightInInput o) (heightInInput n)
     && same_value (FitnessCalculator.activityLevel old)
          (FitnessCalculator.activityLevel new)
     && same_units (units o) (units n)
  then ls
  else FitnessCalculator.saveState (FitnessCalculator.currentState new) ls.

(** The page: the state of each component and the storage. *)
Record Page := {
  fitnessCalculator : FitnessCalculator.State;
  bmiCalculator : BMICalculator.State;
  localStorage : Storage;
}.

Inductive Event :=
  | OnFitness (e : FitnessCalculator.Event)
  | OnBMI (e : BMICalculator.Event).

Section Runtime.
Variable Number_toString : number -> string.

(** The first render: both components load during the render, and their
    effects run after it, in the order of the components. *)
Definition mount (ls : Storage) : option Page :=
  t ← FitnessCalculator.mount Number_toString ls;
  b ← BMICalculator.mount ls;
  Some {| fitnessCalculator := t; bmiCalculator := b;
          localStorage :=
            BMICalculator.saveBMIState (BMICalculator.currentState b)
              (FitnessCalculator.saveState (FitnessCalculator.currentState t) ls) |}.

(** An event of one component: its handler, the render, its effect. *)
Definition step (e : Event) (p : Page) : option Page :=
  match e with
  | OnFitness e =>
      t ← FitnessCalculator.step Number_toString e (fitnessCalculator p);
      Some {| fitnessCalculator := t; bmiCalculator := bmiCalculator p;
              localStorage := tdeeEffect (fitnessCalculator p) t (localStorage p) |}
  | OnBMI e =>
      b ← BMICalculator.step e (bmiCalculator p);
      Some {| fitnessCalculator := fitnessCalculator p; bmiCalculator := b;
              localStorage := bmiEffect (bmiCalculator p) b (localStorage p) |}
  end.

(** The pages of a visit that starts with the storage [ls]. *)
Inductive visited (ls : Storage) : Page -> Prop :=
  | visited_mount p : mount ls = Some p -> visited ls p
  | visited_step p e p' : visited ls p -> step e p = Some p' -> visited ls p'.

Fixpoint run (es : list Event) (p : Page) : option Page :=
  match es with
  | [] => Some p
  | e :: es' => p' ← step e p; run es' p'
  end.

End Runtime.

(** A slot as it comes back from the storage: a number that is not finite
    is read as the empty slot, the negative zero as zero. *)
Definition kept (f : field) : field :=
  match f with
  | Some x => if is_finite x then Some (if is_zero x then zero else x) else None
  | None => None
  end.

Definition keptInputs (i : Inputs) : Inputs :=
  {| units := units i; weightInput := kept (weightInput i);
     heightCmInput := kept (heightCmInput i); heightFtInput := kept (heightFtInput i);
     heightInInput := kept (heightInInput i) |}.

End App.

(* ===================================================================== *)
(** ** Facts about the order of numbers *)
(* ===================================================================== *)

Module NumberFacts.
Import Js.
Local Open Scope float_scope.

Lemma SFcompare_antisym (x y : spec_float) :
  SFcompare y x = option_map CompOpp (SFcompare x y).
Proof.
  destruct x as [sx| sx | | sx mx ex], y as [sy | sy | | sy my ey]; simpl;
    try reflexivity;
    try (destruct sx; reflexivity); try (destruct sy; reflexivity);
    try (destruct sx, sy; reflexivity).
  destruct sx, sy; simpl; try reflexivity;
    rewrite (Z.compare_antisym ex ey); destruct (ex ?= ey)%Z; simpl;
    try reflexivity;
    change (Pos.compare_cont Eq my mx) with (my ?= mx)%positive;
    change (Pos.compare_cont Eq mx my) with (mx ?= my)%positive;
    rewrite (Pos.compare_antisym mx my); try reflexivity.
Qed.

(** [a <= b] excludes [b < a]. *)
Lemma leb_not_ltb (a b : number) : (a <=? b) = true -> (b <? a) = false.
Proof.
  rewrite FloatAxioms.leb_spec, FloatAxioms.ltb_spec. unfold SFleb, SFltb.
  rewrite (SFcompare_antisym (Prim2SF a) (Prim2SF b)).
  destruct (SFcompare (Prim2SF a) (Prim2SF b)) as [[]|]; simpl; congruence.
Qed.

Lemma SFleb_trans (a b c : spec_float) :
  SFleb a b = true -> SFleb b c = true -> SFleb a c = true.
Proof.
  unfold SFleb.
  destruct a as [sa | sa | | sa ma ea], b as [sb | sb | | sb mb eb],
    c as [sc | sc | | sc mc ec]; simpl;
    try discriminate; try reflexivity;
    try (destruct sa; try discriminate; try reflexivity);
    try (destruct sb; try discriminate; try reflexivity);
    try (destruct sc; try discriminate; try reflexivity);
    change (Pos.compare_cont Eq) with Pos.compare;
    repeat match goal with
      | |- context [(?x ?= ?y)%Z] => destruct (Z.compare_spec x y)
      | |- context [(?x ?= ?y)%positive] => destruct (Pos.compare_spec x y)
      end; simpl; try discriminate; try reflexivity; intros _ _; exfalso; subst; lia.
Qed.

Lemma leb_trans (a b c : number) :
  (a <=? b) = true -> (b <=? c) = true -> (a <=? c) = true.
Proof. rewrite !FloatAxioms.leb_spec. apply SFleb_trans. Qed.

(** [a < b] excludes [b <= a]. *)
Lemma ltb_not_leb (a b : number) : (a <? b) = true -> (b <=? a) = false.
Proof.
  intros H. destruct (b <=? a) eqn:E; [|reflexivity].
  apply leb_not_ltb in E. congruence.
Qed.

(** [a === b] excludes [b < a] and [a < b]. *)
Lemma eqb_not_ltb (a b : number) :
  (a =? b) = true -> (b <? a) = false /\ (a <? b) = false.
Proof.
  rewrite FloatAxioms.eqb_spec, !FloatAxioms.ltb_spec. unfold SFeqb, SFltb.
  rewrite (SFcompare_antisym (Prim2SF a) (Prim2SF b)).
  destruct (SFcompare (Prim2SF a) (Prim2SF b)) as [[]|]; simpl; try congruence.
  intros _. split; reflexivity.
Qed.

End NumberFacts.

(* ===================================================================== *)
(** ** Binary64 arithmetic: rounding and its error *)
(* ===================================================================== *)

(** The operations of [float] are specified by [SpecFloat]: each one
    computes on mantissas and exponents and rounds to nearest, ties to
    even. This part reads these definitions on rationals: the result of a
    product, a quotient or a sum of numbers that are zero or positive is
    within half a unit of its last place of the exact result. *)

Module Binary64.

(** Powers of two, as rationals. *)
Definition bpow (e : Z) : Q := (2 ^ e)%Q.

Lemma bpow_pos (e : Z) : (0 < bpow e)%Q.
Proof. apply Qpower_0_lt. reflexivity. Qed.

Lemma bpow_add (a b : Z) : (bpow (a + b) == bpow a * bpow b)%Q.
Proof. apply Qpower_plus. discriminate. Qed.

Lemma bpow_0 : (bpow 0 == 1)%Q.
Proof. reflexivity. Qed.

Lemma bpow_1 : (bpow 1 == 2)%Q.
Proof. reflexivity. Qed.

Lemma bpow_succ (e : Z) : (bpow (e + 1) == 2 * bpow e)%Q.
Proof. rewrite bpow_add, bpow_1. ring. Qed.

Lemma bpow_pred (e : Z) : (bpow e == 2 * bpow (e - 1))%Q.
Proof. rewrite <- bpow_succ. replace (e - 1 + 1) with e by lia. reflexivity. Qed.

Lemma bpow_Z (e : Z) : 0 <= e -> (bpow e == inject_Z (2 ^ e))%Q.
Proof. intros H. unfold bpow. rewrite Zpower_Qpower by assumption. reflexivity. Qed.

Lemma bpow_le (a b : Z) : a <= b -> (bpow a <= bpow b)%Q.
Proof.
  intros H. replace b with (a + (b - a)) by lia. rewrite bpow_add.
  assert (H1 : (1 <= bpow (b - a))%Q).
  { rewrite bpow_Z by lia. change 1%Q with (inject_Z 1). rewrite <- Zle_Qle.
    assert (0 < 2 ^ (b - a)) by (apply Z.pow_pos_nonneg; lia). lia. }
  pose proof (bpow_pos a). nra.
Qed.

Lemma bpow_lt (a b : Z) : a < b -> (bpow a < bpow b)%Q.
Proof.
  intros H. apply Qlt_le_trans with (bpow (a + 1)).
  - rewrite bpow_succ. pose proof (bpow_pos a). lra.
  - apply bpow_le. lia.
Qed.

Lemma bpow_lt_inv (a b : Z) : (bpow a < bpow b)%Q -> a < b.
Proof.
  intros H. destruct (Z_lt_le_dec a b) as [L|L]; [exact L|].
  apply bpow_le in L. lra.
Qed.

Lemma bpow_opp (e : Z) : (bpow e * bpow (- e) == 1)%Q.
Proof. rewrite <- bpow_add. replace (e + - e) with 0 by lia. reflexivity. Qed.

(** Hides the powers of two of the goal and of the hypotheses behind
    variables, for the linear solvers. *)
Ltac hide_pow :=
  repeat match goal with
    | |- context [Z.pow 2 ?e] =>
        let X := fresh "P" in
        set (X := Z.pow 2 e) in *; clearbody X
    | H : context [Z.pow 2 ?e] |- _ =>
        let X := fresh "P" in
        set (X := Z.pow 2 e) in *; clearbody X
    end.

(** Linear arithmetic over the rationals, through conjunctions. *)
Ltac qlra :=
  repeat match goal with
    | H : _ /\ _ |- _ => destruct H
    end;
  repeat match goal with
    | |- _ /\ _ => split
    end;
  lra.

(** ** The number of binary digits *)

Lemma digits2_size (p : positive) : digits2_pos p = Pos.size p.
Proof. induction p; simpl; congruence. Qed.

Lemma digits2_bounds (p : positive) :
  2 ^ (Zpos (digits2_pos p) - 1) <= Zpos p < 2 ^ Zpos (digits2_pos p).
Proof.
  induction p as [p IH|p IH|]; cbn [digits2_pos].
  - rewrite Pos2Z.inj_succ. change (Zpos p~1) with (2 * Zpos p + 1).
    replace (Z.succ (Zpos (digits2_pos p)) - 1) with (Zpos (digits2_pos p)) by lia.
    rewrite Z.pow_succ_r by lia.
    assert (E : 2 ^ Zpos (digits2_pos p) = 2 * 2 ^ (Zpos (digits2_pos p) - 1)).
    { rewrite <- Z.pow_succ_r by lia. f_equal. lia. }
    hide_pow. lia.
  - rewrite Pos2Z.inj_succ. change (Zpos p~0) with (2 * Zpos p).
    replace (Z.succ (Zpos (digits2_pos p)) - 1) with (Zpos (digits2_pos p)) by lia.
    rewrite Z.pow_succ_r by lia.
    assert (E : 2 ^ Zpos (digits2_pos p) = 2 * 2 ^ (Zpos (digits2_pos p) - 1)).
    { rewrite <- Z.pow_succ_r by lia. f_equal. lia. }
    hide_pow. lia.
  - simpl. lia.
Qed.

Lemma Zdigits2_bounds (m : Z) :
  0 < m -> 2 ^ (Zdigits2 m - 1) <= m < 2 ^ Zdigits2 m.
Proof. destruct m as [|p|p]; try lia. intros _. apply digits2_bounds. Qed.

Lemma Zdigits2_pos (m : Z) : 0 < m -> 0 < Zdigits2 m.
Proof. destruct m; simpl; lia. Qed.

(** The digits are determined by the bounds. *)
Lemma Zdigits2_unique (m d : Z) :
  0 < m -> 2 ^ (d - 1) <= m < 2 ^ d -> Zdigits2 m = d.
Proof.
  intros Hm [L U]. pose proof (Zdigits2_bounds m Hm) as [L' U'].
  pose proof (Zdigits2_pos m Hm) as Hd.
  assert (Hd' : 0 < d).
  { destruct (Z_lt_le_dec 0 d) as [|Hle]; [assumption|].
    assert (2 ^ d <= 1).
    { destruct (Z.eq_dec d 0) as [->|]; [simpl; lia|]. rewrite Z.pow_neg_r by lia. lia. }
    lia. }
  destruct (Z.lt_trichotomy (Zdigits2 m) d) as [H|[H|H]]; [|exact H|].
  - assert (2 ^ Zdigits2 m <= 2 ^ (d - 1)) by (apply Z.pow_le_mono_r; lia). lia.
  - assert (2 ^ d <= 2 ^ (Zdigits2 m - 1)) by (apply Z.pow_le_mono_r; lia). lia.
Qed.

(** ** Locations *)

(** [t], counted in units of the current exponent, lies where the
    mantissa [m] and the location [l] say. *)
Definition located (m : Z) (l : location) (t : Q) : Prop :=
  match l with
  | loc_Exact => (t == inject_Z m)%Q
  | loc_Inexact Lt => (inject_Z m < t /\ t < inject_Z m + (1 # 2))%Q
  | loc_Inexact Eq => (t == inject_Z m + (1 # 2))%Q
  | loc_Inexact Gt => (inject_Z m + (1 # 2) < t /\ t < inject_Z m + 1)%Q
  end.

Definition located_rec (mrs : shr_record) (t : Q) : Prop :=
  located (shr_m mrs) (loc_of_shr_record mrs) t.

Lemma located_ext (m : Z) (l : location) (t t' : Q) :
  (t == t')%Q -> located m l t -> located m l t'.
Proof.
  intros E. destruct l as [|[]]; unfold located; intros H; qlra.
Qed.

Lemma located_record (m : Z) (l : location) (t : Q) :
  located_rec (shr_record_of_loc m l) t <-> located m l t.
Proof. destruct l as [|[]]; reflexivity. Qed.

Lemma inj_xI (p : positive) : (inject_Z (Zpos p~1) == 2 * inject_Z (Zpos p) + 1)%Q.
Proof. unfold Qeq; simpl; lia. Qed.

Lemma inj_xO (p : positive) : (inject_Z (Zpos p~0) == 2 * inject_Z (Zpos p))%Q.
Proof. unfold Qeq; simpl; lia. Qed.

Lemma shr_1_spec (mrs : shr_record) (t : Q) :
  0 <= shr_m mrs -> located_rec mrs t ->
  located_rec (shr_1 mrs) (t * (1 # 2)) /\
  0 <= shr_m (shr_1 mrs) /\
  2 * shr_m (shr_1 mrs) <= shr_m mrs < 2 * (shr_m (shr_1 mrs) + 1).
Proof.
  destruct mrs as [m r s]. cbn [shr_m]. intros Hm.
  destruct m as [|p|p]; [| |lia].
  - unfold located_rec.
    destruct r, s; cbn [shr_1 shr_m shr_r shr_s loc_of_shr_record orb located];
      change (inject_Z 0) with 0%Q; intros H; (split; [qlra|lia]).
  - unfold located_rec.
    destruct p as [p|p|]; destruct r, s;
      cbn [shr_1 shr_m shr_r shr_s loc_of_shr_record orb located];
      try pose proof (inj_xI p) as EI; try pose proof (inj_xO p) as EO;
      change (inject_Z 0) with 0%Q; change (inject_Z 1) with 1%Q;
      intros H; (split; [qlra|lia]).
Qed.

Lemma iter_shr_1_spec (n : positive) (mrs : shr_record) (t t' : Q) :
  0 <= shr_m mrs -> located_rec mrs t -> (t == t' * bpow (Zpos n))%Q ->
  located_rec (SpecFloat.iter_pos shr_1 n mrs) t' /\
  0 <= shr_m (SpecFloat.iter_pos shr_1 n mrs) /\
  2 ^ Zpos n * shr_m (SpecFloat.iter_pos shr_1 n mrs) <= shr_m mrs
    < 2 ^ Zpos n * (shr_m (SpecFloat.iter_pos shr_1 n mrs) + 1).
Proof.
  revert mrs t t'. induction n as [n IH|n IH|]; intros mrs t t' Hm Ht E; cbn [SpecFloat.iter_pos].
  - destruct (shr_1_spec mrs t Hm Ht) as (L1 & P1 & B1).
    assert (E1 : (t * (1 # 2) == t' * bpow (Zpos n) * bpow (Zpos n))%Q).
    { rewrite E. replace (Zpos n~1) with (Zpos n + Zpos n + 1) by lia.
      rewrite !bpow_add, bpow_1. ring. }
    destruct (IH _ _ _ P1 L1 E1) as (L2 & P2 & B2).
    destruct (IH _ _ t' P2 L2 ltac:(reflexivity)) as (L3 & P3 & B3).
    split; [exact L3|split; [exact P3|]].
    replace (Zpos n~1) with (Zpos n + Zpos n + 1) by lia.
    rewrite !Z.pow_add_r by lia. change (2 ^ 1) with 2.
    assert (0 < 2 ^ Zpos n) by (apply Z.pow_pos_nonneg; lia).
    hide_pow. nia.
  - assert (E1 : (t == t' * bpow (Zpos n) * bpow (Zpos n))%Q).
    { rewrite E. replace (Zpos n~0) with (Zpos n + Zpos n) by lia. rewrite !bpow_add. ring. }
    destruct (IH _ _ _ Hm Ht E1) as (L2 & P2 & B2).
    destruct (IH _ _ t' P2 L2 ltac:(reflexivity)) as (L3 & P3 & B3).
    split; [exact L3|split; [exact P3|]].
    replace (Zpos n~0) with (Zpos n + Zpos n) by lia.
    rewrite !Z.pow_add_r by lia.
    assert (0 < 2 ^ Zpos n) by (apply Z.pow_pos_nonneg; lia).
    hide_pow. nia.
  - destruct (shr_1_spec mrs t Hm Ht) as (L1 & P1 & B1).
    split; [|split; [exact P1|]].
    + refine (located_ext _ _ _ _ _ L1). rewrite E, bpow_1. ring.
    + change (2 ^ 1) with 2. lia.
Qed.

(** ** Rounding to the format *)

Definition fexp64 (d : Z) : Z := SpecFloat.fexp prec emax d.

Lemma fexp64_eq (d : Z) : fexp64 d = Z.max (d - 53) (-1074).
Proof. reflexivity. Qed.

(** [y] counted in units of [2^e]. *)
Definition scaled (y : Q) (e : Z) : Q := (y * bpow (- e))%Q.

Lemma scaled_shift (y : Q) (e n : Z) :
  (scaled y e == scaled y (e + n) * bpow n)%Q.
Proof.
  unfold scaled. rewrite <- Qmult_assoc, <- bpow_add.
  replace (- (e + n) + n) with (- e) by lia. reflexivity.
Qed.

Lemma scaled_value (y : Q) (e : Z) : (y == scaled y e * bpow e)%Q.
Proof.
  unfold scaled. rewrite <- Qmult_assoc, <- bpow_add.
  replace (- e + e) with 0 by lia. rewrite bpow_0. ring.
Qed.

Lemma located_nonneg (m : Z) (l : location) (t : Q) :
  0 <= m -> located m l t -> (0 <= t)%Q.
Proof.
  intros Hm H.
  assert (0 <= inject_Z m)%Q by (change 0%Q with (inject_Z 0); rewrite <- Zle_Qle; exact Hm).
  destruct l as [|[]]; unfold located in H; qlra.
Qed.

(** The first shift of [binary_round_aux]. *)
Lemma shr_fexp_spec (m e : Z) (l : location) (y : Q) :
  0 < m -> located m l (scaled y e) ->
  exists mrs' e',
    shr_fexp prec emax m e l = (mrs', e') /\
    e' = Z.max e (fexp64 (Zdigits2 m + e)) /\
    located_rec mrs' (scaled y e') /\
    0 <= shr_m mrs' < 2 ^ 53 /\
    (shr_m mrs' = 0 -> e' = -1074) /\
    (fexp64 (Zdigits2 m + e) <= e -> mrs' = shr_record_of_loc m l).
Proof.
  intros Hm Hl. unfold shr_fexp, shr.
  fold (fexp64 (Zdigits2 m + e)).
  pose proof (Zdigits2_bounds m Hm) as [DL DU].
  pose proof (Zdigits2_pos m Hm) as Dpos.
  pose proof (fexp64_eq (Zdigits2 m + e)) as Ef.
  set (d := Zdigits2 m) in *. set (f := fexp64 (d + e)) in *.
  destruct (f - e) as [|n|n] eqn:En.
  - exists (shr_record_of_loc m l), e. split; [reflexivity|].
    split; [lia|]. split; [apply located_record; exact Hl|].
    assert (d <= 53) by lia.
    assert (2 ^ d <= 2 ^ 53) by (apply Z.pow_le_mono_r; lia).
    destruct l as [|[]]; cbn [shr_record_of_loc shr_m]; repeat split; try lia.
  - assert (Hrec : 0 <= shr_m (shr_record_of_loc m l))
      by (destruct l as [|[]]; cbn; lia).
    assert (Hloc : located_rec (shr_record_of_loc m l) (scaled y e))
      by (apply located_record; exact Hl).
    destruct (iter_shr_1_spec n _ _ (scaled y (e + Zpos n)) Hrec Hloc
                (scaled_shift y e (Zpos n))) as (L & P & B).
    exists (SpecFloat.iter_pos shr_1 n (shr_record_of_loc m l)), (e + Zpos n).
    split; [reflexivity|]. split; [lia|]. split; [exact L|].
    assert (Em : shr_m (shr_record_of_loc m l) = m) by (destruct l as [|[]]; reflexivity).
    rewrite Em in B.
    set (m' := shr_m (SpecFloat.iter_pos shr_1 n (shr_record_of_loc m l))) in *.
    assert (Hn : 0 < 2 ^ Zpos n) by (apply Z.pow_pos_nonneg; lia).
    split; [split; [exact P|]|split; [|lia]].
    + (* m' < 2^53 *)
      destruct (Z_lt_le_dec m' (2 ^ 53)) as [|Hge]; [assumption|exfalso].
      assert (2 ^ (Zpos n + 53) <= m).
      { rewrite Z.pow_add_r by lia. nia. }
      assert (2 ^ (Zpos n + 53) < 2 ^ d) by lia.
      apply Z.pow_lt_mono_r_iff in H0; lia.
    + (* m' = 0 gives the least exponent *)
      intros E0. rewrite E0 in B.
      assert (2 ^ (d - 1) < 2 ^ Zpos n) by lia.
      apply Z.pow_lt_mono_r_iff in H; lia.
  - exists (shr_record_of_loc m l), e. split; [reflexivity|].
    split; [lia|]. split; [apply located_record; exact Hl|].
    assert (d <= 53) by lia.
    assert (2 ^ d <= 2 ^ 53) by (apply Z.pow_le_mono_r; lia).
    destruct l as [|[]]; cbn [shr_record_of_loc shr_m]; repeat split; try lia.
Qed.

Lemma round_nearest_even_spec (m : Z) (l : location) (t : Q) :
  0 <= m -> located m l t ->
  (round_nearest_even m l = m \/ round_nearest_even m l = m + 1) /\
  (inject_Z (round_nearest_even m l) - t <= 1 # 2)%Q /\
  (t - inject_Z (round_nearest_even m l) <= 1 # 2)%Q /\
  (l = loc_Exact -> round_nearest_even m l = m).
Proof.
  intros Hm H.
  assert (E : (inject_Z (m + 1) == inject_Z m + 1)%Q)
    by (rewrite inject_Z_plus; reflexivity).
  destruct l as [|[]]; unfold located in H; cbn [round_nearest_even].
  - repeat split; try (left; reflexivity); qlra.
  - destruct (Z.even m); repeat split; auto; try discriminate; qlra.
  - repeat split; auto; try discriminate; qlra.
  - repeat split; auto; try discriminate; qlra.
Qed.

Lemma half_unit (a t B y : Q) :
  (0 < B)%Q -> (y == t * B)%Q -> (a - t <= 1 # 2)%Q -> (t - a <= 1 # 2)%Q ->
  (a * B - y <= (1 # 2) * B)%Q /\ (y - a * B <= (1 # 2) * B)%Q.
Proof. intros HB Ey H1 H2. split; nra. Qed.

(** What [binary_round_aux] returns for a positive mantissa with a
    location: zero for a value of at most [2^-1075], or a finite number
    within half a unit of its last place of the value. *)
Lemma binary_round_aux_spec (s : bool) (m e : Z) (l : location) (y : Q) :
  0 < m -> located m l (scaled y e) -> e <= 970 -> Zdigits2 m + e <= 1023 ->
  (binary_round_aux prec emax s m e l = S754_zero s /\
   (0 <= y)%Q /\ (y <= bpow (-1075))%Q) \/
  (exists m2 e2,
      binary_round_aux prec emax s m e l = S754_finite s m2 e2 /\
      e <= e2 /\
      (inject_Z (Zpos m2) * bpow e2 - y <= (1 # 2) * bpow e2)%Q /\
      (y - inject_Z (Zpos m2) * bpow e2 <= (1 # 2) * bpow e2)%Q /\
      (l = loc_Exact -> fexp64 (Zdigits2 m + e) <= e -> e2 = e /\ Zpos m2 = m)).
Proof.
  intros Hm Hl He Hd.
  destruct (shr_fexp_spec m e l y Hm Hl) as (mrs' & e' & E1 & Ee' & L1 & [P1 U1] & Z1 & X1).
  unfold binary_round_aux. rewrite E1.
  set (m' := shr_m mrs') in *. set (l' := loc_of_shr_record mrs') in *.
  destruct (round_nearest_even_spec m' l' (scaled y e') P1 L1) as (C1 & R1 & R2 & RX).
  set (m1 := round_nearest_even m' l') in *.
  pose proof (fexp64_eq (Zdigits2 m + e)) as Ef.
  assert (Hy : (0 <= y)%Q).
  { pose proof (located_nonneg _ _ _ (Z.lt_le_incl _ _ Hm) Hl) as H0.
    rewrite (scaled_value y e). pose proof (bpow_pos e). nra. }
  assert (He' : -1074 <= e' <= 970) by lia.
  pose proof (scaled_value y e') as Ey.
  pose proof (bpow_pos e') as Bp.
  (* the second shift *)
  unfold shr_fexp, shr. fold (fexp64 (Zdigits2 m1 + e')).
  cbn [shr_record_of_loc].
  destruct (Z.eq_dec m1 0) as [E0|N0].
  - (* rounded to zero *)
    left. rewrite E0. cbn [Zdigits2]. 
    replace (fexp64 (0 + e') - e') with (Z.max (e' - 53) (-1074) - e')
      by (rewrite fexp64_eq; f_equal; f_equal; lia).
    assert (Em' : m' = 0) by lia.
    specialize (Z1 Em'). clear X1 He'. rewrite Z1 in *.
    change (Z.max (-1074 - 53) (-1074) - -1074) with 0. cbn.
    split; [reflexivity|]. split; [exact Hy|].
    rewrite E0 in R2. change (inject_Z 0) with 0%Q in R2.
    assert (Eb : (bpow (-1075) == (1 # 2) * bpow (-1074))%Q).
    { rewrite (bpow_pred (-1074)). change (-1074 - 1) with (-1075). field. }
    rewrite Eb. nra.
  - right.
    assert (Hm1 : 0 < m1 <= 2 ^ 53) by lia.
    destruct Hm1 as [Hm1 Um1].
    pose proof (Zdigits2_bounds m1 Hm1) as [DL DU].
    pose proof (Zdigits2_pos m1 Hm1) as Dp.
    pose proof (fexp64_eq (Zdigits2 m1 + e')) as Ef1.
    destruct (Z.eq_dec m1 (2 ^ 53)) as [Ec|Nc].
    + (* a carry: one more shift, of an even mantissa *)
      assert (Ed : Zdigits2 m1 = 54).
      { apply Zdigits2_unique; [exact Hm1|]. rewrite Ec. cbn. lia. }
      rewrite Ed in *.
      replace (fexp64 (54 + e') - e') with 1 by lia.
      rewrite Ec. cbn -[bpow inject_Z Z.add].
      destruct (Z.leb_spec (e' + 1) (emax - prec)) as [_|Hbad];
        [|change (emax - prec) with 971 in Hbad; lia].
      exists 4503599627370496%positive, (e' + 1).
      split; [reflexivity|]. split; [lia|].
      assert (Ev : (inject_Z (Zpos 4503599627370496) * bpow (e' + 1)
                    == inject_Z m1 * bpow e')%Q).
      { rewrite bpow_succ, Ec.
        change (inject_Z (2 ^ 53)) with (2 * inject_Z (Zpos 4503599627370496))%Q.
        ring. }
      destruct (half_unit _ _ _ _ Bp Ey R1 R2) as [G1 G2].
      rewrite Ev. rewrite bpow_succ.
      split; [lra|]. split; [lra|].
      intros El Hf. exfalso.
      pose proof (X1 Hf) as Hrec.
      assert (Hl' : l' = loc_Exact) by (unfold l'; rewrite Hrec, El; reflexivity).
      specialize (RX Hl'). lia.
    + (* no carry *)
      assert (Ud : Zdigits2 m1 <= 53).
      { destruct (Z_le_gt_dec (Zdigits2 m1) 53) as [|Hgt]; [assumption|exfalso].
        assert (2 ^ 53 <= 2 ^ (Zdigits2 m1 - 1)) by (apply Z.pow_le_mono_r; lia).
        lia. }
      assert (Hn2 : fexp64 (Zdigits2 m1 + e') - e' <= 0) by lia.
      destruct m1 as [|p1|p1] eqn:Ep; [lia| |lia].
      assert (Esh : (match fexp64 (Zdigits2 (Zpos p1) + e') - e' with
                     | Zpos p => (SpecFloat.iter_pos shr_1 p (Build_shr_record (Zpos p1) false false),
                                  e' + (fexp64 (Zdigits2 (Zpos p1) + e') - e'))
                     | _ => (Build_shr_record (Zpos p1) false false, e')
                     end) = (Build_shr_record (Zpos p1) false false, e')).
      { destruct (fexp64 (Zdigits2 (Zpos p1) + e') - e'); try reflexivity. lia. }
      rewrite Esh. cbn [shr_m].
      destruct (Z.leb_spec e' (emax - prec)) as [_|Hbad];
        [|change (emax - prec) with 971 in Hbad; lia].
      exists p1, e'. split; [reflexivity|]. split; [lia|].
      destruct (half_unit _ _ _ _ Bp Ey R1 R2) as [G1 G2].
      split; [exact G1|]. split; [exact G2|].
      intros El Hf.
      assert (Hrec : mrs' = shr_record_of_loc m l) by (apply X1; exact Hf).
      split; [lia|]. rewrite <- Ep. unfold m1, m', l'. rewrite Hrec, El. reflexivity.
Qed.

(** ** Values *)

(** The value of a finite number with mantissa [m] and exponent [e]. *)
Definition F2Q (m e : Z) : Q := (inject_Z m * bpow e)%Q.

(** The value of a number (0 for one that is not finite). *)
Definition SFvalue (x : spec_float) : Q :=
  match x with
  | S754_finite s m e => F2Q (cond_Zopp s (Zpos m)) e
  | _ => 0%Q
  end.

Definition B2Q (x : float) : Q := SFvalue (Prim2SF x).

(** A number that is zero or finite and positive. *)
Definition nonneg (x : float) : Prop :=
  (exists s, Prim2SF x = S754_zero s) \/
  (exists m e, Prim2SF x = S754_finite false m e).

Lemma inject_Z_pow_le (m d : Z) :
  0 <= d -> 2 ^ d <= m -> (bpow d <= inject_Z m)%Q.
Proof. intros Hd H. rewrite bpow_Z by exact Hd. rewrite <- Zle_Qle. exact H. Qed.

Lemma inject_Z_pow_lt (m d : Z) :
  0 <= d -> m < 2 ^ d -> (inject_Z m < bpow d)%Q.
Proof. intros Hd H. rewrite bpow_Z by exact Hd. rewrite <- Zlt_Qlt. exact H. Qed.

(** The size of a positive value bounds the digits of its mantissa. *)
Lemma F2Q_bounds (m e : Z) :
  0 < m ->
  (bpow (Zdigits2 m - 1 + e) <= F2Q m e)%Q /\ (F2Q m e < bpow (Zdigits2 m + e))%Q.
Proof.
  intros Hm. pose proof (Zdigits2_bounds m Hm) as [L U].
  pose proof (Zdigits2_pos m Hm) as Hd. unfold F2Q. rewrite !bpow_add.
  pose proof (bpow_pos e).
  pose proof (inject_Z_pow_le m (Zdigits2 m - 1) ltac:(lia) L).
  pose proof (inject_Z_pow_lt m (Zdigits2 m) ltac:(lia) U).
  split; nra.
Qed.

Lemma F2Q_pos (m e : Z) : 0 < m -> (0 < F2Q m e)%Q.
Proof.
  intros Hm. unfold F2Q. pose proof (bpow_pos e).
  assert (0 < inject_Z m)%Q by (change 0%Q with (inject_Z 0); rewrite <- Zlt_Qlt; exact Hm).
  nra.
Qed.

(** What the validity of a finite number says of its mantissa and
    exponent. *)
Lemma valid_finite (x : float) (s : bool) (m : positive) (e : Z) :
  Prim2SF x = S754_finite s m e ->
  Zdigits2 (Zpos m) <= 53 /\
  (Zdigits2 (Zpos m) = 53 \/ e = -1074) /\
  -1074 <= e <= 971.
Proof.
  intros E. pose proof (Prim2SF_valid x) as H. rewrite E in H.
  unfold SpecFloat.valid_binary, bounded, canonical_mantissa in H.
  apply andb_prop in H. destruct H as [H1 H2].
  apply Z.eqb_eq in H1. apply Z.leb_le in H2.
  change (SpecFloat.fexp prec emax) with fexp64 in H1. rewrite fexp64_eq in H1.
  change (emax - prec) with 971 in H2. cbn [Zdigits2]. lia.
Qed.

(** Half a unit in the last place of a valid finite number is at most
    [2^-53] of its value, or it is [2^-1075]. *)
Lemma half_ulp_bound (x : float) (m : positive) (e : Z) :
  Prim2SF x = S754_finite false m e ->
  ((1 # 2) * bpow e <= (1 # 9007199254740992) * F2Q (Zpos m) e + bpow (-1075))%Q.
Proof.
  intros E. destruct (valid_finite x _ _ _ E) as (D & [D53 | Emin] & R).
  - pose proof (Zdigits2_bounds (Zpos m) ltac:(lia)) as [L _]. rewrite D53 in L.
    pose proof (inject_Z_pow_le _ 52 ltac:(lia) L) as L'.
    change (bpow 52) with (4503599627370496 # 1) in L'.
    pose proof (bpow_pos e). pose proof (bpow_pos (-1075)). unfold F2Q. nra.
  - subst e. pose proof (F2Q_pos (Zpos m) (-1074) ltac:(lia)).
    assert (Eb : (bpow (-1075) == (1 # 2) * bpow (-1074))%Q).
    { rewrite (bpow_pred (-1074)). change (-1074 - 1) with (-1075). field. }
    nra.
Qed.

(** ** The product *)

Lemma mul_finite (x y : float) (mx my : positive) (ex ey : Z) :
  Prim2SF x = S754_finite false mx ex ->
  Prim2SF y = S754_finite false my ey ->
  (F2Q (Zpos mx) ex * F2Q (Zpos my) ey < bpow 900)%Q ->
  (Prim2SF (x * y) = S754_zero false /\
   (F2Q (Zpos mx) ex * F2Q (Zpos my) ey <= bpow (-1075))%Q) \/
  (exists m2 e2,
      Prim2SF (x * y) = S754_finite false m2 e2 /\
      (F2Q (Zpos m2) e2 - F2Q (Zpos mx) ex * F2Q (Zpos my) ey <= (1 # 2) * bpow e2)%Q /\
      (F2Q (Zpos mx) ex * F2Q (Zpos my) ey - F2Q (Zpos m2) e2 <= (1 # 2) * bpow e2)%Q).
Proof.
  intros Ex Ey Hv.
  rewrite FloatAxioms.mul_spec, Ex, Ey. unfold SF64mul, SFmul. cbn [xorb].
  set (v := (F2Q (Zpos mx) ex * F2Q (Zpos my) ey)%Q) in *.
  assert (Ev : (v == F2Q (Zpos (mx * my)) (ex + ey))%Q).
  { unfold v, F2Q. rewrite Pos2Z.inj_mul, inject_Z_mult, bpow_add. ring. }
  assert (Hm : 0 < Zpos (mx * my)) by lia.
  pose proof (F2Q_bounds _ (ex + ey) Hm) as [BL _].
  pose proof (Zdigits2_pos _ Hm) as Dp.
  assert (Hd : Zdigits2 (Zpos (mx * my)) - 1 + (ex + ey) < 900).
  { apply bpow_lt_inv. rewrite <- Ev in BL. lra. }
  assert (Hl : located (Zpos (mx * my)) loc_Exact (scaled v (ex + ey))).
  { unfold located, scaled. rewrite Ev. unfold F2Q.
    rewrite <- Qmult_assoc, bpow_opp. ring. }
  destruct (binary_round_aux_spec false _ _ _ v Hm Hl ltac:(lia) ltac:(lia))
    as [(E0 & _ & H0) | (m2 & e2 & E2 & _ & H1 & H2 & _)].
  - left. split; assumption.
  - right. exists m2, e2. repeat split; assumption.
Qed.

Definition eps : Q := 1 # 9007199254740992.
Definition eta : Q := bpow (-1075).

Lemma eta_pos : (0 < eta)%Q.
Proof. apply bpow_pos. Qed.

Lemma eta_small : (eta <= 1 # 1000000000000000000000000000000)%Q.
Proof.
  unfold eta. apply Qle_trans with (bpow (-100)); [apply bpow_le; lia|].
  vm_compute. discriminate.
Qed.

Lemma nonneg_value (x : float) : nonneg x -> (0 <= B2Q x)%Q.
Proof.
  unfold B2Q. intros [[s E] | (m & e & E)]; rewrite E; cbn [SFvalue cond_Zopp].
  - lra.
  - pose proof (F2Q_pos (Zpos m) e ltac:(lia)). lra.
Qed.

(** The product of two numbers that are zero or positive, away from
    overflow: zero or positive, and within [eps] of its value and [eta] of
    the exact product. *)
Lemma mul_value (x y : float) :
  nonneg x -> nonneg y -> (B2Q x * B2Q y < bpow 900)%Q ->
  nonneg (x * y) /\
  (B2Q (x * y) - B2Q x * B2Q y <= eps * B2Q (x * y) + eta)%Q /\
  (B2Q x * B2Q y - B2Q (x * y) <= eps * B2Q (x * y) + eta)%Q.
Proof.
  intros Hx Hy Hv. pose proof eta_pos as Heta.
  destruct Hx as [[sx Ex] | (mx & ex & Ex)]; destruct Hy as [[sy Ey] | (my & ey & Ey)].
  - assert (Ez : Prim2SF (x * y) = S754_zero (xorb sx sy))
      by (rewrite FloatAxioms.mul_spec, Ex, Ey; reflexivity).
    unfold B2Q. rewrite Ez, Ex. cbn [SFvalue].
    split; [left; eexists; exact Ez|]. unfold eps. split; lra.
  - assert (Ez : Prim2SF (x * y) = S754_zero (xorb sx false))
      by (rewrite FloatAxioms.mul_spec, Ex, Ey; reflexivity).
    unfold B2Q. rewrite Ez, Ex. cbn [SFvalue].
    split; [left; eexists; exact Ez|]. unfold eps. split; lra.
  - assert (Ez : Prim2SF (x * y) = S754_zero (xorb false sy))
      by (rewrite FloatAxioms.mul_spec, Ex, Ey; reflexivity).
    unfold B2Q. rewrite Ez, Ey. cbn [SFvalue].
    split; [left; eexists; exact Ez|]. unfold eps. split; lra.
  - unfold B2Q in *. rewrite Ex, Ey in *. cbn [SFvalue cond_Zopp] in *.
    destruct (mul_finite x y _ _ _ _ Ex Ey Hv) as [(E0 & H0) | (m2 & e2 & E2 & H1 & H2)].
    + rewrite E0. cbn [SFvalue].
      split; [left; eexists; exact E0|].
      pose proof (F2Q_pos (Zpos mx) ex ltac:(lia)).
      pose proof (F2Q_pos (Zpos my) ey ltac:(lia)).
      unfold eps, eta. split; nra.
    + rewrite E2. cbn [SFvalue cond_Zopp].
      split; [right; eexists; eexists; exact E2|].
      pose proof (half_ulp_bound _ _ _ E2) as Hu. fold eta in Hu. fold eps in Hu.
      split; lra.
Qed.

(** ** The quotient *)

Lemma inject_Z_pos (m : Z) : 0 < m -> (0 < inject_Z m)%Q.
Proof. intros H. change 0%Q with (inject_Z 0). rewrite <- Zlt_Qlt. exact H. Qed.

Lemma new_location_spec (d r q : Z) (t : Q) :
  0 < d -> 0 <= r < d ->
  (t * inject_Z d == inject_Z q * inject_Z d + inject_Z r)%Q ->
  located q (new_location d r) t.
Proof.
  intros Hd [R0 Rd] E.
  pose proof (inject_Z_pos d Hd) as Dp.
  assert (Rn : (0 <= inject_Z r)%Q) by (change 0%Q with (inject_Z 0); rewrite <- Zle_Qle; exact R0).
  assert (Ru : (inject_Z r < inject_Z d)%Q) by (rewrite <- Zlt_Qlt; exact Rd).
  set (u := (t - inject_Z q)%Q).
  assert (Eu : (u * inject_Z d == inject_Z r)%Q) by (unfold u; lra).
  assert (Et : (t == inject_Z q + u)%Q) by (unfold u; lra).
  clearbody u.
  assert (E2 : (2 * inject_Z r == inject_Z (2 * r))%Q)
    by (rewrite inject_Z_mult; reflexivity).
  assert (E3 : (2 * inject_Z r + 1 == inject_Z (2 * r + 1))%Q)
    by (rewrite inject_Z_plus, inject_Z_mult; reflexivity).
  unfold new_location.
  destruct (Z.even d) eqn:Ev; unfold new_location_even, new_location_odd;
    destruct (Z.eqb_spec r 0) as [R0' | Rnz].
  - subst r. change (inject_Z 0) with 0%Q in Eu.
    assert (u == 0)%Q by (destruct (Qmult_integral _ _ Eu); lra).
    unfold located. lra.
  - assert (Rp : (0 < inject_Z r)%Q) by (apply inject_Z_pos; lia).
    assert (Up : (0 < u)%Q) by nra.
    destruct (Z.compare_spec (2 * r) d) as [C|C|C]; unfold located.
    + rewrite <- C in *. nra.
    + rewrite Zlt_Qlt in C. split; nra.
    + rewrite Zlt_Qlt in C. split; nra.
  - subst r. change (inject_Z 0) with 0%Q in Eu.
    assert (u == 0)%Q by (destruct (Qmult_integral _ _ Eu); lra).
    unfold located. lra.
  - assert (Rp : (0 < inject_Z r)%Q) by (apply inject_Z_pos; lia).
    assert (Up : (0 < u)%Q) by nra.
    assert (Hodd : 2 * r <> d).
    { intros <-. rewrite Z.even_mul in Ev. discriminate. }
    destruct (Z.compare_spec (2 * r + 1) d) as [C|C|C]; unfold located.
    + assert (C' : 2 * r < d) by lia. rewrite Zlt_Qlt in C'. split; nra.
    + assert (C' : 2 * r < d) by lia. rewrite Zlt_Qlt in C'. split; nra.
    + assert (C' : d < 2 * r) by lia. rewrite Zlt_Qlt in C'. split; nra.
Qed.

Lemma Zdigits2_le (m d : Z) : 0 < m -> m < 2 ^ d -> Zdigits2 m <= d.
Proof.
  intros Hm H. pose proof (Zdigits2_bounds m Hm) as [L _].
  pose proof (Zdigits2_pos m Hm).
  destruct (Z_le_gt_dec (Zdigits2 m) d) as [|G]; [assumption|exfalso].
  assert (2 ^ d <= 2 ^ (Zdigits2 m - 1)) by (apply Z.pow_le_mono_r; lia). lia.
Qed.

(** The quotient of two positive numbers with full mantissas, away from
    overflow and underflow: a finite number within half a unit of its last
    place of any [v] with [v * y = x]. *)
Lemma div_finite (x y : float) (mx my : positive) (ex ey : Z) (v : Q) :
  Prim2SF x = S754_finite false mx ex ->
  Prim2SF y = S754_finite false my ey ->
  Zdigits2 (Zpos mx) = 53 -> Zdigits2 (Zpos my) = 53 ->
  -900 <= ex - ey <= 900 ->
  (v * F2Q (Zpos my) ey == F2Q (Zpos mx) ex)%Q ->
  exists m2 e2,
    Prim2SF (x / y) = S754_finite false m2 e2 /\
    (F2Q (Zpos m2) e2 - v <= (1 # 2) * bpow e2)%Q /\
    (v - F2Q (Zpos m2) e2 <= (1 # 2) * bpow e2)%Q.
Proof.
  intros Ex Ey Dx Dy He Ev.
  rewrite FloatAxioms.div_spec, Ex, Ey. unfold SF64div, SFdiv. cbn [xorb].
  unfold SFdiv_core_binary. rewrite Dx, Dy.
  change (SpecFloat.fexp prec emax) with fexp64. rewrite fexp64_eq.
  replace (Z.min (Z.max (53 + ex - (53 + ey) - 53) (-1074)) (ex - ey))
    with (ex - ey - 53) by lia.
  replace (ex - ey - (ex - ey - 53)) with 53 by lia.
  cbv iota beta.
  rewrite Z.shiftl_mul_pow2 by lia.
  set (e' := ex - ey - 53).
  pose proof (Z_div_mod (Zpos mx * 2 ^ 53) (Zpos my) ltac:(lia)) as Hdm.
  destruct (Z.div_eucl (Zpos mx * 2 ^ 53) (Zpos my)) as [q r].
  destruct Hdm as [Edm Hr].
  pose proof (Zdigits2_bounds (Zpos mx) ltac:(lia)) as [Lx Ux]. rewrite Dx in Lx, Ux.
  pose proof (Zdigits2_bounds (Zpos my) ltac:(lia)) as [Ly Uy]. rewrite Dy in Ly, Uy.
  change (2 ^ (53 - 1)) with 4503599627370496 in *.
  change (2 ^ 53) with 9007199254740992 in *.
  assert (Hq : 0 < q) by nia.
  assert (Uq : q < 2 ^ 106).
  { change (2 ^ 106) with (9007199254740992 * 9007199254740992). nia. }
  pose proof (Zdigits2_le q 106 Hq Uq) as Dq.
  assert (Hl : located q (new_location (Zpos my) r) (scaled v e')).
  { apply new_location_spec; [lia|exact Hr|].
    rewrite <- inject_Z_mult, <- inject_Z_plus.
    replace (q * Zpos my + r) with (Zpos mx * 9007199254740992) by lia.
    unfold scaled, e'. unfold F2Q in Ev.
    replace (- (ex - ey - 53)) with (53 + - ex + ey) by lia.
    rewrite !bpow_add, inject_Z_mult. change (inject_Z 9007199254740992) with (bpow 53).
    pose proof (bpow_opp ex) as Eo.
    setoid_replace (v * (bpow 53 * bpow (- ex) * bpow ey) * inject_Z (Zpos my))%Q
      with ((v * (inject_Z (Zpos my) * bpow ey)) * (bpow 53 * bpow (- ex)))%Q
      using relation Qeq by ring.
    rewrite Ev.
    setoid_replace (inject_Z (Zpos mx) * bpow ex * (bpow 53 * bpow (- ex)))%Q
      with (inject_Z (Zpos mx) * bpow 53 * (bpow ex * bpow (- ex)))%Q
      using relation Qeq by ring.
    rewrite Eo. ring. }
  destruct (binary_round_aux_spec false q e' _ v Hq Hl ltac:(unfold e'; lia)
              ltac:(unfold e'; lia))
    as [(E0 & _ & H0) | (m2 & e2 & E2 & _ & H1 & H2 & _)].
  - exfalso.
    (* the value is at least one unit of [e'] *)
    assert (Hq1 : (1 <= inject_Z q)%Q)
      by (change 1%Q with (inject_Z 1); rewrite <- Zle_Qle; lia).
    pose proof (located_nonneg q _ _ (Z.lt_le_incl _ _ Hq) Hl) as Hs.
    assert (Hs1 : (inject_Z q <= scaled v e')%Q).
    { destruct (new_location (Zpos my) r) as [|[]]; unfold located in Hl; qlra. }
    pose proof (scaled_value v e') as Es.
    pose proof (bpow_pos e') as Bp.
    assert (Hlow : (bpow (-1075) < bpow e')%Q) by (apply bpow_lt; unfold e'; lia).
    nra.
  - exists m2, e2. repeat split; assumption.
Qed.

(** ** Exact mantissas: [binary_round] *)

Lemma iter_xO_value (m d : positive) :
  Zpos (Pos.iter xO m d) = Zpos m * 2 ^ Zpos d.
Proof.
  induction d as [|d IH] using Pos.peano_ind.
  - cbn [Pos.iter]. change (2 ^ 1) with 2. lia.
  - rewrite Pos.iter_succ, Pos2Z.inj_succ, Z.pow_succ_r by lia.
    change (Zpos (Pos.iter xO m d)~0) with (2 * Zpos (Pos.iter xO m d)).
    rewrite IH. ring.
Qed.

Lemma shl_align_spec (m : positive) (e e' : Z) :
  e' <= e ->
  shl_align m e e' = (fst (shl_align m e e'), e') /\
  Zpos (fst (shl_align m e e')) = Zpos m * 2 ^ (e - e').
Proof.
  intros H. unfold shl_align. destruct (e' - e) as [|d|d] eqn:E; try lia.
  - assert (e' = e) by lia. subst e'. cbn [fst]. rewrite Z.sub_diag. split; [reflexivity|].
    change (2 ^ 0) with 1. lia.
  - cbn [fst]. split; [reflexivity|]. rewrite iter_xO_value. f_equal. f_equal. lia.
Qed.

Lemma Zdigits2_shift (m k : Z) :
  0 < m -> 0 <= k -> Zdigits2 (m * 2 ^ k) = Zdigits2 m + k.
Proof.
  intros Hm Hk. pose proof (Zdigits2_bounds m Hm) as [L U].
  pose proof (Zdigits2_pos m Hm).
  assert (0 < 2 ^ k) by (apply Z.pow_pos_nonneg; lia).
  apply Zdigits2_unique; [nia|].
  replace (Zdigits2 m + k - 1) with (Zdigits2 m - 1 + k) by lia.
  rewrite !Z.pow_add_r by lia. split; nia.
Qed.

Lemma F2Q_shift (m e k : Z) :
  0 <= k -> (F2Q (m * 2 ^ k) (e - k) == F2Q m e)%Q.
Proof.
  intros Hk. unfold F2Q. rewrite inject_Z_mult, <- (bpow_Z k) by exact Hk.
  rewrite <- Qmult_assoc, <- bpow_add. replace (k + (e - k)) with e by lia. reflexivity.
Qed.

Lemma located_exact (m e : Z) : located m loc_Exact (scaled (F2Q m e) e).
Proof.
  unfold located, scaled, F2Q. rewrite <- Qmult_assoc, bpow_opp. ring.
Qed.

(** [binary_round] of a mantissa and an exponent, away from overflow: the
    value is rounded to within half a unit of the last place, and it is
    kept when the mantissa fits. *)
Lemma binary_round_spec (s : bool) (m : positive) (e : Z) :
  Zdigits2 (Zpos m) + e <= 1000 ->
  (binary_round prec emax s m e = S754_zero s /\
   (F2Q (Zpos m) e <= bpow (-1075))%Q) \/
  (exists m2 e2,
      binary_round prec emax s m e = S754_finite s m2 e2 /\
      (F2Q (Zpos m2) e2 - F2Q (Zpos m) e <= (1 # 2) * bpow e2)%Q /\
      (F2Q (Zpos m) e - F2Q (Zpos m2) e2 <= (1 # 2) * bpow e2)%Q /\
      (fexp64 (Zdigits2 (Zpos m) + e) <= e ->
       (F2Q (Zpos m2) e2 == F2Q (Zpos m) e)%Q /\
       e2 = fexp64 (Zdigits2 (Zpos m) + e) /\
       Zdigits2 (Zpos m2) + e2 = Zdigits2 (Zpos m) + e)).
Proof.
  intros Hd. unfold binary_round.
  change (SpecFloat.fexp prec emax) with fexp64.
  change (Zpos (digits2_pos m)) with (Zdigits2 (Zpos m)).
  set (d := Zdigits2 (Zpos m)) in *. set (f := fexp64 (d + e)).
  pose proof (fexp64_eq (d + e)) as Ef. fold f in Ef.
  pose proof (Zdigits2_pos (Zpos m) ltac:(lia)) as Dp. fold d in Dp.
  destruct (Z_le_gt_dec f e) as [Hfe | Hfe].
  - (* the mantissa fits: it is aligned on [f] and kept *)
    destruct (shl_align_spec m e f Hfe) as [Esh Ev].
    rewrite Esh. set (mz := fst (shl_align m e f)) in *.
    assert (Dz : Zdigits2 (Zpos mz) = d + (e - f)).
    { rewrite Ev. apply Zdigits2_shift; lia. }
    assert (Vz : (F2Q (Zpos mz) f == F2Q (Zpos m) e)%Q).
    { rewrite Ev. replace f with (e - (e - f)) at 2 by lia. apply F2Q_shift. lia. }
    pose proof (located_exact (Zpos mz) f) as Hl.
    destruct (binary_round_aux_spec s (Zpos mz) f loc_Exact (F2Q (Zpos mz) f)
                ltac:(lia) Hl ltac:(lia) ltac:(lia))
      as [(E0 & _ & H0) | (m2 & e2 & E2 & _ & H1 & H2 & HX)].
    + left. split; [exact E0|]. rewrite <- Vz. exact H0.
    + right. exists m2, e2. split; [exact E2|].
      destruct (HX eq_refl) as [Ee Em].
      { rewrite Dz. replace (d + (e - f) + f) with (d + e) by lia. fold f. lia. }
      subst e2. injection Em as ->.
      split; [rewrite <- Vz; exact H1|]. split; [rewrite <- Vz; exact H2|].
      intros _. split; [exact Vz|]. split; [reflexivity|]. lia.
  - (* more digits than the format has: rounded *)
    assert (Esh : shl_align m e f = (m, e)).
    { unfold shl_align. destruct (f - e) eqn:E; try reflexivity. lia. }
    rewrite Esh.
    pose proof (located_exact (Zpos m) e) as Hl.
    destruct (binary_round_aux_spec s (Zpos m) e loc_Exact (F2Q (Zpos m) e)
                ltac:(lia) Hl ltac:(lia) ltac:(fold d; lia))
      as [(E0 & _ & H0) | (m2 & e2 & E2 & _ & H1 & H2 & _)].
    + left. split; assumption.
    + right. exists m2, e2. split; [exact E2|]. split; [exact H1|]. split; [exact H2|].
      intros Hc. lia.
Qed.

(** ** The sum *)

Lemma nonneg_cases (x : float) :
  nonneg x ->
  (exists s, Prim2SF x = S754_zero s /\ (B2Q x == 0)%Q) \/
  (exists m e, Prim2SF x = S754_finite false m e /\ (B2Q x == F2Q (Zpos m) e)%Q).
Proof.
  unfold B2Q. intros [[s E] | (m & e & E)]; rewrite E; cbn [SFvalue cond_Zopp].
  - left. exists s. split; reflexivity.
  - right. exists m, e. split; reflexivity.
Qed.

(** The error bound of a result that is zero or positive, from the bound
    in units of its last place. *)
Lemma relative_error (z : float) (y : Q) :
  (Prim2SF z = S754_zero false /\ (0 <= y)%Q /\ (y <= bpow (-1075))%Q) \/
  (exists m2 e2,
      Prim2SF z = S754_finite false m2 e2 /\
      (F2Q (Zpos m2) e2 - y <= (1 # 2) * bpow e2)%Q /\
      (y - F2Q (Zpos m2) e2 <= (1 # 2) * bpow e2)%Q) ->
  nonneg z /\
  (B2Q z - y <= eps * B2Q z + eta)%Q /\
  (y - B2Q z <= eps * B2Q z + eta)%Q.
Proof.
  pose proof eta_pos as Heta. unfold B2Q.
  intros [(E0 & Hy & H0) | (m2 & e2 & E2 & H1 & H2)].
  - rewrite E0. cbn [SFvalue]. split; [left; eexists; exact E0|].
    unfold eps, eta in *. split; lra.
  - rewrite E2. cbn [SFvalue cond_Zopp]. split; [right; eexists; eexists; exact E2|].
    pose proof (half_ulp_bound _ _ _ E2) as Hu. fold eta in Hu. fold eps in Hu.
    split; lra.
Qed.

Lemma add_finite (x y : float) (mx my : positive) (ex ey : Z) :
  Prim2SF x = S754_finite false mx ex ->
  Prim2SF y = S754_finite false my ey ->
  (F2Q (Zpos mx) ex + F2Q (Zpos my) ey < bpow 900)%Q ->
  (Prim2SF (x + y) = S754_zero false /\
   (F2Q (Zpos mx) ex + F2Q (Zpos my) ey <= bpow (-1075))%Q) \/
  (exists m2 e2,
      Prim2SF (x + y) = S754_finite false m2 e2 /\
      (F2Q (Zpos m2) e2 - (F2Q (Zpos mx) ex + F2Q (Zpos my) ey) <= (1 # 2) * bpow e2)%Q /\
      (F2Q (Zpos mx) ex + F2Q (Zpos my) ey - F2Q (Zpos m2) e2 <= (1 # 2) * bpow e2)%Q).
Proof.
  intros Ex Ey Hv.
  rewrite FloatAxioms.add_spec, Ex, Ey. unfold SF64add, SFadd. cbn [cond_Zopp].
  set (ez := Z.min ex ey).
  destruct (shl_align_spec mx ex ez ltac:(unfold ez; lia)) as [_ Vx].
  destruct (shl_align_spec my ey ez ltac:(unfold ez; lia)) as [_ Vy].
  set (ax := fst (shl_align mx ex ez)) in *. set (ay := fst (shl_align my ey ez)) in *.
  change (Zpos ax + Zpos ay) with (Zpos (ax + ay)). cbn [binary_normalize].
  assert (Ev : (F2Q (Zpos (ax + ay)) ez == F2Q (Zpos mx) ex + F2Q (Zpos my) ey)%Q).
  { rewrite Pos2Z.inj_add, Vx, Vy. unfold F2Q at 1. rewrite inject_Z_plus.
    pose proof (F2Q_shift (Zpos mx) ex (ex - ez) ltac:(unfold ez; lia)) as Sx.
    pose proof (F2Q_shift (Zpos my) ey (ey - ez) ltac:(unfold ez; lia)) as Sy.
    replace (ex - (ex - ez)) with ez in Sx by lia.
    replace (ey - (ey - ez)) with ez in Sy by lia.
    unfold F2Q in Sx, Sy |- *. lra. }
  pose proof (F2Q_bounds (Zpos (ax + ay)) ez ltac:(lia)) as [BL _].
  assert (Hd : Zdigits2 (Zpos (ax + ay)) - 1 + ez < 900).
  { apply bpow_lt_inv. lra. }
  destruct (binary_round_spec false (ax + ay) ez ltac:(lia))
    as [(E0 & H0) | (m2 & e2 & E2 & H1 & H2 & _)].
  - left. split; [exact E0|]. lra.
  - right. exists m2, e2. split; [exact E2|]. split; lra.
Qed.

(** The sum of two numbers that are zero or positive, away from
    overflow. *)
Lemma add_value (x y : float) :
  nonneg x -> nonneg y -> (B2Q x + B2Q y < bpow 900)%Q ->
  nonneg (x + y) /\
  (B2Q (x + y) - (B2Q x + B2Q y) <= eps * B2Q (x + y) + eta)%Q /\
  (B2Q x + B2Q y - B2Q (x + y) <= eps * B2Q (x + y) + eta)%Q.
Proof.
  intros Hx Hy Hv. pose proof eta_pos as Heta.
  pose proof (nonneg_value _ Hx) as Px. pose proof (nonneg_value _ Hy) as Py.
  destruct (nonneg_cases x Hx) as [(sx & Ex & Vx) | (mx & ex & Ex & Vx)];
    destruct (nonneg_cases y Hy) as [(sy & Ey & Vy) | (my & ey & Ey & Vy)].
  - assert (Ez : exists s, Prim2SF (x + y) = S754_zero s).
    { rewrite FloatAxioms.add_spec, Ex, Ey. unfold SF64add, SFadd.
      destruct sx, sy; eexists; reflexivity. }
    destruct Ez as [s Ez]. split; [left; exists s; exact Ez|].
    assert (Evz : (B2Q (x + y) == 0)%Q) by (unfold B2Q; rewrite Ez; reflexivity).
    unfold eps. split; lra.
  - assert (Ez : Prim2SF (x + y) = Prim2SF y).
    { rewrite FloatAxioms.add_spec, Ex, Ey. reflexivity. }
    assert (Evz : B2Q (x + y) = B2Q y) by (unfold B2Q; rewrite Ez; reflexivity).
    split; [right; exists my, ey; rewrite Ez; exact Ey|].
    rewrite Evz. unfold eps. split; lra.
  - assert (Ez : Prim2SF (x + y) = Prim2SF x).
    { rewrite FloatAxioms.add_spec, Ex, Ey. reflexivity. }
    assert (Evz : B2Q (x + y) = B2Q x) by (unfold B2Q; rewrite Ez; reflexivity).
    split; [right; exists mx, ex; rewrite Ez; exact Ex|].
    rewrite Evz. unfold eps. split; lra.
  - assert (Hv' : (F2Q (Zpos mx) ex + F2Q (Zpos my) ey < bpow 900)%Q) by lra.
    pose proof (F2Q_pos (Zpos mx) ex ltac:(lia)).
    pose proof (F2Q_pos (Zpos my) ey ltac:(lia)).
    destruct (relative_error (x + y) (F2Q (Zpos mx) ex + F2Q (Zpos my) ey)) as (N & H1 & H2).
    { destruct (add_finite x y _ _ _ _ Ex Ey Hv') as [(E0 & B0) | (m2 & e2 & E2 & B1 & B2)].
      - left. split; [exact E0|]. split; lra.
      - right. exists m2, e2. split; [exact E2|]. split; assumption. }
    split; [exact N|]. split; lra.
Qed.

(** ** Integers as numbers *)

Lemma Prim2SF_SF2Prim_finite (s : bool) (m : positive) (e : Z) :
  fexp64 (Zdigits2 (Zpos m) + e) = e -> e <= 971 ->
  Prim2SF (SF2Prim (S754_finite s m e)) = S754_finite s m e.
Proof.
  intros Hc He. apply Prim2SF_SF2Prim.
  unfold SpecFloat.valid_binary, bounded, canonical_mantissa.
  change (SpecFloat.fexp prec emax) with fexp64.
  change (Zpos (digits2_pos m)) with (Zdigits2 (Zpos m)).
  rewrite Hc, Z.eqb_refl. cbn [andb]. apply Z.leb_le. exact He.
Qed.

(** A mantissa and an exponent that fit the format make a number of that
    value, with a full mantissa unless the exponent is the least one. *)
Lemma SF2Prim_binary_round (m : positive) (e : Z) :
  Zdigits2 (Zpos m) <= 53 -> -1074 <= e -> Zdigits2 (Zpos m) + e <= 1000 ->
  exists m2 e2,
    Prim2SF (SF2Prim (binary_round prec emax false m e)) = S754_finite false m2 e2 /\
    (F2Q (Zpos m2) e2 == F2Q (Zpos m) e)%Q /\
    e2 = fexp64 (Zdigits2 (Zpos m) + e) /\
    Zdigits2 (Zpos m2) + e2 = Zdigits2 (Zpos m) + e.
Proof.
  intros Hd He Hr.
  pose proof (fexp64_eq (Zdigits2 (Zpos m) + e)) as Ef.
  assert (Hfe : fexp64 (Zdigits2 (Zpos m) + e) <= e) by lia.
  destruct (binary_round_spec false m e Hr)
    as [(E0 & H0) | (m2 & e2 & E2 & _ & _ & HX)].
  - exfalso. pose proof (F2Q_bounds (Zpos m) e ltac:(lia)) as [BL _].
    pose proof (Zdigits2_pos (Zpos m) ltac:(lia)).
    assert (bpow (-1075) < bpow (Zdigits2 (Zpos m) - 1 + e))%Q by (apply bpow_lt; lia).
    lra.
  - destruct (HX Hfe) as (Ev & Ee & Ed).
    exists m2, e2. rewrite E2.
    rewrite Prim2SF_SF2Prim_finite; [| rewrite Ed; lia | lia].
    repeat split; assumption.
Qed.

End Binary64.

(* ===================================================================== *)
(** ** [Math.round], [Math.floor] and [%] on numbers that are zero or positive *)
(* ===================================================================== *)

Module MathFacts.
Import Js Binary64.

(** A positive number with a full mantissa: not below the least normal
    number. *)
Definition normal (x : float) : Prop :=
  exists m e, Prim2SF x = S754_finite false m e /\ Zdigits2 (Zpos m) = 53.

Lemma normal_nonneg (x : float) : normal x -> nonneg x.
Proof. intros (m & e & E & _). right. exists m, e. exact E. Qed.

(** An integer below [2^53] as a number. *)
Lemma Z2number_value (n : Z) :
  0 < n < 2 ^ 53 ->
  normal (Z2number n) /\ (B2Q (Z2number n) == inject_Z n)%Q.
Proof.
  intros [Hn Un]. destruct n as [|p|p]; try lia.
  unfold Z2number. cbn [binary_normalize].
  pose proof (Zdigits2_le (Zpos p) 53 ltac:(lia) Un) as Dp.
  pose proof (Zdigits2_pos (Zpos p) ltac:(lia)) as Dn.
  destruct (SF2Prim_binary_round p 0 Dp ltac:(lia) ltac:(lia))
    as (m2 & e2 & E & V & Ee & Ed).
  rewrite fexp64_eq in Ee.
  split.
  - exists m2, e2. split; [exact E|]. lia.
  - unfold B2Q. rewrite E. cbn [SFvalue cond_Zopp]. rewrite V.
    unfold F2Q. rewrite bpow_0. ring.
Qed.

Lemma Z2number_zero : Prim2SF (Z2number 0) = S754_zero false.
Proof. reflexivity. Qed.

Lemma bpow_neg_inject (e : Z) :
  e <= 0 -> (bpow e * inject_Z (2 ^ (- e)) == 1)%Q.
Proof.
  intros He. rewrite <- bpow_Z by lia. apply bpow_opp.
Qed.

(** [Math.round] of a number that is zero or positive and below [2^52]:
    the integer [n] with [n <= x + 1/2 < n + 1]. *)
Lemma Math_round_spec (x : float) :
  nonneg x -> (B2Q x < bpow 52)%Q ->
  exists n : Z,
    0 <= n /\
    (inject_Z n <= B2Q x + (1 # 2))%Q /\ (B2Q x + (1 # 2) < inject_Z n + 1)%Q /\
    (B2Q (Math_round x) == inject_Z n)%Q /\
    (n = 0 -> exists s, Prim2SF (Math_round x) = S754_zero s) /\
    (0 < n -> normal (Math_round x)).
Proof.
  intros Hx Hv.
  destruct (nonneg_cases x Hx) as [(s & E & V) | (m & e & E & V)].
  - assert (Em : Math_round x = x) by (unfold Math_round; rewrite E; reflexivity).
    exists 0. rewrite Em. change (inject_Z 0) with 0%Q.
    split; [lia|]. split; [lra|]. split; [lra|]. split; [exact V|].
    split; [intros _; exists s; exact E|lia].
  - destruct (valid_finite x _ _ _ E) as (D & Dc & Re).
    pose proof (Zdigits2_bounds (Zpos m) ltac:(lia)) as [Lm Um].
    destruct (Z.leb_spec 0 e) as [He | He].
    + (* an integer already *)
      assert (Em : Math_round x = x).
      { unfold Math_round. rewrite E. destruct (Z.leb_spec 0 e); [reflexivity|lia]. }
      rewrite Em.
      exists (Zpos m * 2 ^ e).
      assert (Hp : 0 < 2 ^ e) by (apply Z.pow_pos_nonneg; lia).
      assert (Ev : (B2Q x == inject_Z (Zpos m * 2 ^ e))%Q).
      { rewrite V. unfold F2Q. rewrite inject_Z_mult, bpow_Z by lia. reflexivity. }
      split; [nia|]. split; [lra|]. split; [lra|]. split; [exact Ev|].
      split; [intros H0; nia|].
      intros _. exists m, e. split; [exact E|]. lia.
    + (* a fraction: the integer is computed *)
      set (P := 2 ^ (- e)).
      assert (HP : 0 < P) by (apply Z.pow_pos_nonneg; lia).
      set (n := Z.shiftr (2 * Zpos m + P) (1 - e)).
      assert (Em : Math_round x = if n =? 0 then zero else Z2number n).
      { unfold Math_round. rewrite E. destruct (Z.leb_spec 0 e); [lia|reflexivity]. }
      rewrite Em.
      assert (En : n = (2 * Zpos m + P) / (2 * P)).
      { unfold n. rewrite Z.shiftr_div_pow2 by lia. f_equal.
        unfold P. replace (1 - e) with (1 + - e) by lia.
        rewrite Z.pow_add_r by lia. reflexivity. }
      pose proof (Z_div_mod (2 * Zpos m + P) (2 * P) ltac:(lia)) as Hdm.
      destruct (Z.div_eucl (2 * Zpos m + P) (2 * P)) as [q r] eqn:Edm.
      assert (Eq : n = q).
      { rewrite En. unfold Z.div. rewrite Edm. reflexivity. }
      destruct Hdm as [Hdm Hr].
      assert (Hn0 : 0 <= n) by (rewrite Eq; nia).
      (* in rationals *)
      pose proof (bpow_neg_inject e ltac:(lia)) as Eb. fold P in Eb.
      pose proof (bpow_pos e) as Bp.
      pose proof (inject_Z_pos P HP) as IPp.
      assert (Evm : (B2Q x * inject_Z P == inject_Z (Zpos m))%Q).
      { rewrite V. unfold F2Q. rewrite <- Qmult_assoc, Eb. ring. }
      assert (Elo : (2 * inject_Z P * inject_Z n <= 2 * inject_Z (Zpos m) + inject_Z P)%Q).
      { change 2%Q with (inject_Z 2). rewrite <- !inject_Z_mult, <- inject_Z_plus, <- Zle_Qle.
        rewrite Eq. nia. }
      assert (Ehi : (2 * inject_Z (Zpos m) + inject_Z P < 2 * inject_Z P * (inject_Z n + 1))%Q).
      { change 2%Q with (inject_Z 2). change 1%Q with (inject_Z 1).
        rewrite <- !inject_Z_plus, <- !inject_Z_mult, <- inject_Z_plus, <- Zlt_Qlt.
        rewrite Eq. nia. }
      assert (Glo : (inject_Z n <= B2Q x + (1 # 2))%Q) by nra.
      assert (Ghi : (B2Q x + (1 # 2) < inject_Z n + 1)%Q) by nra.
      assert (Un : n < 2 ^ 53).
      { assert (inject_Z n < inject_Z (2 ^ 53))%Q.
        { change (inject_Z (2 ^ 53)) with (bpow 53).
          change (bpow 52) with (4503599627370496 # 1) in Hv.
          change (bpow 53) with (9007199254740992 # 1). lra. }
        rewrite <- Zlt_Qlt in H. exact H. }
      exists n. split; [exact Hn0|]. split; [exact Glo|]. split; [exact Ghi|].
      destruct (Z.eqb_spec n 0) as [E0 | N0].
      * split; [rewrite E0; reflexivity|].
        split; [intros _; exists false; reflexivity|lia].
      * destruct (Z2number_value n ltac:(lia)) as [Nn Vn].
        split; [exact Vn|]. split; [lia|]. intros _. exact Nn.
Qed.

(** [Math.floor] of a number that is zero or positive and below [2^52]:
    the integer [n] with [n <= x < n + 1]. *)
Lemma Math_floor_spec (x : float) :
  nonneg x -> (B2Q x < bpow 52)%Q ->
  exists n : Z,
    0 <= n /\
    (inject_Z n <= B2Q x)%Q /\ (B2Q x < inject_Z n + 1)%Q /\
    (B2Q (Math_floor x) == inject_Z n)%Q /\
    (n = 0 -> exists s, Prim2SF (Math_floor x) = S754_zero s) /\
    (0 < n -> normal (Math_floor x)).
Proof.
  intros Hx Hv.
  destruct (nonneg_cases x Hx) as [(s & E & V) | (m & e & E & V)].
  - assert (Em : Math_floor x = x) by (unfold Math_floor; rewrite E; reflexivity).
    exists 0. rewrite Em. change (inject_Z 0) with 0%Q.
    split; [lia|]. split; [lra|]. split; [lra|]. split; [exact V|].
    split; [intros _; exists s; exact E|lia].
  - destruct (valid_finite x _ _ _ E) as (D & Dc & Re).
    pose proof (Zdigits2_bounds (Zpos m) ltac:(lia)) as [Lm Um].
    destruct (Z.leb_spec 0 e) as [He | He].
    + assert (Em : Math_floor x = x).
      { unfold Math_floor. rewrite E. destruct (Z.leb_spec 0 e); [reflexivity|lia]. }
      rewrite Em.
      exists (Zpos m * 2 ^ e).
      assert (Hp : 0 < 2 ^ e) by (apply Z.pow_pos_nonneg; lia).
      assert (Ev : (B2Q x == inject_Z (Zpos m * 2 ^ e))%Q).
      { rewrite V. unfold F2Q. rewrite inject_Z_mult, bpow_Z by lia. reflexivity. }
      split; [nia|]. split; [lra|]. split; [lra|]. split; [exact Ev|].
      split; [intros H0; nia|].
      intros _. exists m, e. split; [exact E|]. lia.
    + set (P := 2 ^ (- e)).
      assert (HP : 0 < P) by (apply Z.pow_pos_nonneg; lia).
      set (n := Z.shiftr (Zpos m) (- e)).
      assert (Em : Math_floor x = Z2number n).
      { unfold Math_floor. rewrite E. destruct (Z.leb_spec 0 e); [lia|reflexivity]. }
      rewrite Em.
      assert (En : n = Zpos m / P).
      { unfold n. rewrite Z.shiftr_div_pow2 by lia. reflexivity. }
      pose proof (Z_div_mod (Zpos m) P ltac:(lia)) as Hdm.
      destruct (Z.div_eucl (Zpos m) P) as [q r] eqn:Edm.
      assert (Eq : n = q).
      { rewrite En. unfold Z.div. rewrite Edm. reflexivity. }
      destruct Hdm as [Hdm Hr].
      assert (Hn0 : 0 <= n) by (rewrite Eq; nia).
      pose proof (bpow_neg_inject e ltac:(lia)) as Eb. fold P in Eb.
      pose proof (bpow_pos e) as Bp.
      pose proof (inject_Z_pos P HP) as IPp.
      assert (Evm : (B2Q x * inject_Z P == inject_Z (Zpos m))%Q).
      { rewrite V. unfold F2Q. rewrite <- Qmult_assoc, Eb. ring. }
      assert (Elo : (inject_Z P * inject_Z n <= inject_Z (Zpos m))%Q).
      { rewrite <- !inject_Z_mult, <- Zle_Qle. rewrite Eq. nia. }
      assert (Ehi : (inject_Z (Zpos m) < inject_Z P * (inject_Z n + 1))%Q).
      { change 1%Q with (inject_Z 1).
        rewrite <- !inject_Z_plus, <- !inject_Z_mult, <- Zlt_Qlt.
        rewrite Eq. nia. }
      assert (Glo : (inject_Z n <= B2Q x)%Q) by nra.
      assert (Ghi : (B2Q x < inject_Z n + 1)%Q) by nra.
      assert (Un : n < 2 ^ 53).
      { assert (inject_Z n < inject_Z (2 ^ 53))%Q.
        { change (inject_Z (2 ^ 53)) with (bpow 53).
          change (bpow 52) with (4503599627370496 # 1) in Hv.
          change (bpow 53) with (9007199254740992 # 1). lra. }
        rewrite <- Zlt_Qlt in H. exact H. }
      exists n. split; [exact Hn0|]. split; [exact Glo|]. split; [exact Ghi|].
      destruct (Z.eq_dec n 0) as [E0 | N0].
      * rewrite E0. split; [reflexivity|].
        split; [intros _; exists false; reflexivity|lia].
      * destruct (Z2number_value n ltac:(lia)) as [Nn Vn].
        split; [exact Vn|]. split; [lia|]. intros _. exact Nn.
Qed.

(** The remainder of two positive numbers: what is left of [x] once the
    whole multiples of [y] are taken away, exactly. *)
Lemma rem_spec (x y : float) (mn md : positive) (en ed : Z) :
  Prim2SF x = S754_finite false mn en ->
  Prim2SF y = S754_finite false md ed ->
  (B2Q y < bpow 900)%Q ->
  exists k : Z,
    0 <= k /\
    (B2Q (rem x y) == B2Q x - inject_Z k * B2Q y)%Q /\
    (0 <= B2Q (rem x y))%Q /\ (B2Q (rem x y) < B2Q y)%Q /\
    nonneg (rem x y).
Proof.
  intros Ex Ey Hy.
  destruct (valid_finite x _ _ _ Ex) as (Dx & _ & Rx).
  destruct (valid_finite y _ _ _ Ey) as (Dy & _ & Ry).
  pose proof (Zdigits2_bounds (Zpos mn) ltac:(lia)) as [_ Un].
  pose proof (Zdigits2_bounds (Zpos md) ltac:(lia)) as [_ Ud].
  assert (Un' : Zpos mn < 2 ^ 53).
  { apply Z.lt_le_trans with (2 ^ Zdigits2 (Zpos mn)); [lia|]. apply Z.pow_le_mono_r; lia. }
  assert (Ud' : Zpos md < 2 ^ 53).
  { apply Z.lt_le_trans with (2 ^ Zdigits2 (Zpos md)); [lia|]. apply Z.pow_le_mono_r; lia. }
  assert (Vx : (B2Q x == F2Q (Zpos mn) en)%Q) by (unfold B2Q; rewrite Ex; reflexivity).
  assert (Vy : (B2Q y == F2Q (Zpos md) ed)%Q) by (unfold B2Q; rewrite Ey; reflexivity).
  assert (Hed : ed < 900).
  { pose proof (F2Q_bounds (Zpos md) ed ltac:(lia)) as [BL _].
    pose proof (Zdigits2_pos (Zpos md) ltac:(lia)).
    assert (Zdigits2 (Zpos md) - 1 + ed < 900) by (apply bpow_lt_inv; lra). lia. }
  set (e := Z.min en ed).
  set (N := Zpos mn * 2 ^ (en - e)). set (D := Zpos md * 2 ^ (ed - e)).
  assert (Er : rem x y = SF2Prim (binary_normalize prec emax (N mod D) e false)).
  { unfold rem. rewrite Ex, Ey. cbn [cond_Zopp]. fold e.
    rewrite !Z.shiftl_mul_pow2 by (unfold e; lia). reflexivity. }
  assert (Hpn : 0 < 2 ^ (en - e)) by (apply Z.pow_pos_nonneg; unfold e; lia).
  assert (Hpd : 0 < 2 ^ (ed - e)) by (apply Z.pow_pos_nonneg; unfold e; lia).
  assert (HN : 0 < N) by (unfold N; nia).
  assert (HD : 0 < D) by (unfold D; nia).
  assert (VN : (F2Q N e == B2Q x)%Q).
  { rewrite Vx. unfold N. replace e with (en - (en - e)) at 2 by lia.
    apply F2Q_shift. unfold e; lia. }
  assert (VD : (F2Q D e == B2Q y)%Q).
  { rewrite Vy. unfold D. replace e with (ed - (ed - e)) at 2 by lia.
    apply F2Q_shift. unfold e; lia. }
  pose proof (Z_div_mod N D ltac:(lia)) as Hdm.
  destruct (Z.div_eucl N D) as [k r] eqn:Edm.
  assert (Ek : N mod D = r) by (unfold Z.modulo; rewrite Edm; reflexivity).
  destruct Hdm as [Hdm Hr].
  assert (Hk : 0 <= k) by nia.
  assert (Ur : r < 2 ^ 53).
  { destruct (Z_le_gt_dec ed en) as [C|C].
    - assert (ED : D = Zpos md).
      { unfold D. replace (ed - e) with 0 by (unfold e; lia). change (2 ^ 0) with 1. lia. }
      lia.
    - assert (EN : N = Zpos mn).
      { unfold N. replace (en - e) with 0 by (unfold e; lia). change (2 ^ 0) with 1. lia. }
      assert (r <= N) by nia. lia. }
  assert (Vr : (F2Q r e == B2Q x - inject_Z k * B2Q y)%Q).
  { rewrite <- VN, <- VD. unfold F2Q. rewrite Hdm, inject_Z_plus, inject_Z_mult. ring. }
  assert (Br : (0 <= F2Q r e)%Q /\ (F2Q r e < B2Q y)%Q).
  { rewrite <- VD. unfold F2Q. pose proof (bpow_pos e).
    assert (0 <= inject_Z r)%Q by (change 0%Q with (inject_Z 0); rewrite <- Zle_Qle; lia).
    assert (inject_Z r < inject_Z D)%Q by (rewrite <- Zlt_Qlt; lia).
    split; nra. }
  exists k. split; [exact Hk|]. rewrite Er, Ek.
  destruct r as [|p|p]; [| |lia].
  - cbn [binary_normalize SF2Prim].
    assert (V0 : (B2Q zero == F2Q 0 e)%Q) by (unfold F2Q; cbn; ring).
    rewrite V0. split; [exact Vr|]. split; [tauto|]. split; [tauto|].
    left. exists false. reflexivity.
  - cbn [binary_normalize].
    pose proof (Zdigits2_le (Zpos p) 53 ltac:(lia) Ur) as Dp.
    destruct (SF2Prim_binary_round p e Dp ltac:(unfold e; lia) ltac:(unfold e; lia))
      as (m2 & e2 & E2 & V2 & _).
    assert (Vz : (B2Q (SF2Prim (binary_round prec emax false p e)) == F2Q (Zpos p) e)%Q).
    { unfold B2Q. rewrite E2. cbn [SFvalue cond_Zopp]. exact V2. }
    rewrite Vz. split; [exact Vr|]. split; [tauto|]. split; [tauto|].
    right. exists m2, e2. exact E2.
Qed.

End MathFacts.

(* ===================================================================== *)
(** ** The metric engines *)
(* ===================================================================== *)

Module Engine.
Import Js Form.
Local Open Scope float_scope.

(** A form in metric units with the given weight and height. *)
Definition metricForm (w h : field) : Inputs :=
  {| units := metric; weightInput := w; heightCmInput := h;
     heightFtInput := None; heightInInput := None |}.

Definition bmiOf (i : Inputs) : BMICalculator.State :=
  {| BMICalculator.inputs := i; BMICalculator.bmi := None;
     BMICalculator.bmiCategoryKey := None; BMICalculator.showResult := false |}.

Definition tdeeOf (a : field) (g level : value) (i : Inputs) : FitnessCalculator.State :=
  {| FitnessCalculator.age := a; FitnessCalculator.gender := g;
     FitnessCalculator.inputs := i; FitnessCalculator.activityLevel := level;
     FitnessCalculator.tdee := None; FitnessCalculator.showResult := false |}.

(** A stand-in for [Number::toString] where no number is ever turned into
    a string. *)
Definition noNumeral (x : number) : string := "".

(** The examples of the specification: 70 kg and 175 cm; age 30, male,
    80 kg, 180 cm, moderate activity. *)
Definition exampleBMI : BMICalculator.State :=
  bmiOf (metricForm (Some 70) (Some 175)).

Definition exampleTDEE : FitnessCalculator.State :=
  tdeeOf (Some 30) (VStr "male") (VStr "moderate") (metricForm (Some 80) (Some 180)).

End Engine.

Section BMI.
Import Js Form BMICalculator Engine NumberFacts.
Local Open Scope float_scope.

(** C1. In the BMI component, when [weightKg] and [heightCm] are present
    and [heightCm] is not zero, the displayed BMI is
    [round(weightKg / (heightCm/100)^2 * 10) / 10] and the category key is
    [underweight] below 18.5, [normalWeight] from 18.5 (included) to 25,
    [overweight] from 25 (included) to 30 and [obesity] from 30 (included)
    on; 70 kg and 175 cm give 22.9 and [normalWeight]. *)
Theorem C1_bmi_value_and_category :
  (forall (st : State) (w h : number),
      weightKg (inputs st) = Some w ->
      heightCm (inputs st) = Some h ->
      (h =? 0) = false ->
      let b := Math_round (w / (h / 100 * (h / 100)) * 10) / 10 in
      bmi (calculateBMI st) = Some b /\
      showResult (calculateBMI st) = true /\
      ((b <? 18.5) = true ->
         bmiCategoryKey (calculateBMI st) = Some "underweight"%string) /\
      ((18.5 <=? b) = true -> (b <? 25) = true ->
         bmiCategoryKey (calculateBMI st) = Some "normalWeight"%string) /\
      ((25 <=? b) = true -> (b <? 30) = true ->
         bmiCategoryKey (calculateBMI st) = Some "overweight"%string) /\
      ((30 <=? b) = true ->
         bmiCategoryKey (calculateBMI st) = Some "obesity"%string)) /\
  (bmi (calculateBMI exampleBMI) = Some 22.9 /\
   bmiCategoryKey (calculateBMI exampleBMI) = Some "normalWeight"%string).
Proof.
  split; [|vm_compute; split; reflexivity].
  intros st w h Hw Hh Hz b. unfold calculateBMI. rewrite Hw, Hh, Hz. cbn.
  fold b. repeat split.
  - intros ->. reflexivity.
  - intros H1 H2. rewrite (leb_not_ltb _ _ H1), H2. reflexivity.
  - intros H1 H2.
    rewrite (leb_not_ltb 18.5 b), (leb_not_ltb _ _ H1), H2; [reflexivity|].
    now apply (leb_trans 18.5 25 b).
  - intros H1.
    rewrite (leb_not_ltb 18.5 b), (leb_not_ltb 25 b), (leb_not_ltb _ _ H1);
      [reflexivity| |]; now apply (leb_trans _ 30 b).
Qed.

(** The instance of C1 at the example of the specification. *)
Lemma C1_bmi_value_and_category_witness :
  weightKg (inputs exampleBMI) = Some 70 /\
  heightCm (inputs exampleBMI) = Some 175 /\
  (175 =? 0) = false /\
  bmi (calculateBMI exampleBMI)
  = Some (Math_round (70 / (175 / 100 * (175 / 100)) * 10) / 10).
Proof.
  repeat (split; [reflexivity|]).
  exact (proj1 (proj1 C1_bmi_value_and_category exampleBMI 70 175
                  eq_refl eq_refl eq_refl)).
Defined.

End BMI.

Section TDEE.
Import Js Form FitnessCalculator Engine.
Local Open Scope float_scope.

(** The factors as the specification lists them. *)
Definition listedFactors : list (string * number) :=
  [("sedentary", 1.2); ("light", 1.375); ("moderate", 1.55);
   ("active", 1.725); ("extra", 1.9)]%string.

Lemma activityFactor_listed nts (level : string) (f : number) :
  In (level, f) listedFactors -> activityFactor nts (VStr level) = f.
Proof.
  unfold listedFactors, activityFactor. cbn [In ToString].
  intros H. repeat (destruct H as [H|H]; [injection H as <- <-; vm_compute; reflexivity|]).
  destruct H.
Qed.

(** C2. In the TDEE component, when [age], [weightKg] and [heightCm] are
    present, the basal rate is [10*weightKg + 6.25*heightCm - 5*age + 5]
    for the gender [male] and [... - 161] for [female], and the displayed
    value is [round(BMR * factor)] with the factor of the activity level:
    1.2, 1.375, 1.55, 1.725, 1.9; age 30, male, 80 kg, 180 cm and a
    moderate activity give 2759. *)
Theorem C2_tdee_value :
  (forall (nts : number -> string) (st : State) (a w h : number)
          (level : string) (f : number),
      age st = Some a ->
      weightKg (inputs st) = Some w ->
      heightCm (inputs st) = Some h ->
      activityLevel st = VStr level ->
      In (level, f) listedFactors ->
      showResult (calculateTDEE nts st) = true /\
      (gender st = VStr "male" ->
         tdee (calculateTDEE nts st)
         = Some (Math_round ((10 * w + 6.25 * h - 5 * a + 5) * f))) /\
      (gender st = VStr "female" ->
         tdee (calculateTDEE nts st)
         = Some (Math_round ((10 * w + 6.25 * h - 5 * a - 161) * f)))) /\
  (forall nts : number -> string,
      tdee (calculateTDEE nts exampleTDEE) = Some 2759).
Proof.
  split; [|intros nts; vm_compute; reflexivity].
  intros nts st a w h level f Ha Hw Hh Hl Hf.
  unfold calculateTDEE. rewrite Ha, Hw, Hh, Hl. cbn [tdee showResult].
  rewrite (activityFactor_listed nts level f Hf).
  repeat split; intros ->; reflexivity.
Qed.

(** The instance of C2 at the example of the specification. *)
Lemma C2_tdee_value_witness :
  age exampleTDEE = Some 30 /\
  In ("moderate"%string, 1.55) listedFactors /\
  tdee (calculateTDEE noNumeral exampleTDEE)
  = Some (Math_round ((10 * 80 + 6.25 * 180 - 5 * 30 + 5) * 1.55)).
Proof.
  split; [reflexivity|].
  assert (Hin : In ("moderate"%string, 1.55) listedFactors)
    by (cbn; right; right; left; reflexivity).
  split; [exact Hin|].
  refine (proj1 (proj2 (proj1 C2_tdee_value noNumeral exampleTDEE 30 80 180 "moderate"%string
                          1.55 eq_refl eq_refl eq_refl eq_refl Hin)) eq_refl).
Defined.

End TDEE.

Section AbsentResult.
Import Js Form Engine NumberFacts.
Local Open Scope float_scope.

(** The states of the examples: 70 kg without a height and 70 kg with a
    height of 0 cm in the BMI component; in the TDEE component, no age, and
    age 30, male, 80 kg, moderate activity with a height of 0 cm. *)
Definition noHeightBMI : BMICalculator.State := bmiOf (metricForm (Some 70) None).
Definition zeroHeightBMI : BMICalculator.State := bmiOf (metricForm (Some 70) (Some 0)).
Definition noAgeTDEE : FitnessCalculator.State :=
  tdeeOf None (VStr "male") (VStr "moderate") (metricForm (Some 80) (Some 180)).
Definition zeroHeightTDEE : FitnessCalculator.State :=
  tdeeOf (Some 30) (VStr "male") (VStr "moderate") (metricForm (Some 80) (Some 0)).

(** C3, as stated, fails in the TDEE component: with a height of zero
    [calculateTDEE] computes and shows a result. *)
Lemma C3_tdee_zero_height_shows_result :
  Form.heightCm (FitnessCalculator.inputs zeroHeightTDEE) = Some 0 /\
  FitnessCalculator.tdee (FitnessCalculator.calculateTDEE noNumeral zeroHeightTDEE)
  = Some 1015 /\
  FitnessCalculator.showResult (FitnessCalculator.calculateTDEE noNumeral zeroHeightTDEE)
  = true.
Proof. vm_compute. repeat split; reflexivity. Qed.

(** C3, amended. When a required input is absent ([weightKg] or
    [heightCm] for the BMI, [age], [weightKg] or [heightCm] for the TDEE)
    no result is displayed, by a submit as by the memo, and the functions
    are total; a height of zero is treated as an absent one in the BMI
    component (the TDEE component has no such guard). *)
Theorem C3_absent_input_gives_no_result :
  forall (nts : number -> string) (b : BMICalculator.State) (t : FitnessCalculator.State),
    (Form.weightKg (BMICalculator.inputs b) = None \/
     Form.heightCm (BMICalculator.inputs b) = None \/
     (exists h, Form.heightCm (BMICalculator.inputs b) = Some h /\ (h =? 0) = true) ->
     BMICalculator.calculateBMI b = BMICalculator.noResult b /\
     BMICalculator.recalculate b = BMICalculator.noResult b) /\
    (FitnessCalculator.age t = None \/
     Form.weightKg (FitnessCalculator.inputs t) = None \/
     Form.heightCm (FitnessCalculator.inputs t) = None ->
     FitnessCalculator.calculateTDEE nts t = FitnessCalculator.noResult t /\
     FitnessCalculator.recalculate nts t = FitnessCalculator.noResult t).
Proof.
  intros nts b t. split.
  - unfold BMICalculator.calculateBMI, BMICalculator.recalculate.
    intros [H | [H | (h & H & Hz)]]; rewrite H.
    + split; reflexivity.
    + destruct (weightKg (BMICalculator.inputs b)); split; reflexivity.
    + destruct (weightKg (BMICalculator.inputs b)); rewrite ?Hz; split; reflexivity.
  - unfold FitnessCalculator.recalculate, FitnessCalculator.calculateTDEE.
    intros [H | [H | H]]; rewrite H.
    + split; reflexivity.
    + destruct (FitnessCalculator.age t); split; reflexivity.
    + destruct (FitnessCalculator.age t), (weightKg (FitnessCalculator.inputs t));
        split; reflexivity.
Qed.

(** C3 at the examples: 70 kg and a height of 0 cm, and a TDEE form
    without an age. *)
Lemma C3_absent_input_gives_no_result_witness :
  (exists h, Form.heightCm (BMICalculator.inputs zeroHeightBMI) = Some h /\ (h =? 0) = true) /\
  BMICalculator.calculateBMI zeroHeightBMI = BMICalculator.noResult zeroHeightBMI /\
  FitnessCalculator.age noAgeTDEE = None /\
  FitnessCalculator.calculateTDEE noNumeral noAgeTDEE = FitnessCalculator.noResult noAgeTDEE.
Proof.
  assert (Hz : exists h, Form.heightCm (BMICalculator.inputs zeroHeightBMI) = Some h
                         /\ (h =? 0) = true)
    by (exists 0; split; reflexivity).
  split; [exact Hz|].
  split.
  - exact (proj1 (proj1 (C3_absent_input_gives_no_result noNumeral zeroHeightBMI noAgeTDEE)
                    (or_intror (or_intror Hz)))).
  - split; [reflexivity|].
    exact (proj1 (proj2 (C3_absent_input_gives_no_result noNumeral zeroHeightBMI noAgeTDEE)
                    (or_introl eq_refl))).
Defined.

End AbsentResult.

Section Toggle.
Import Js Form Engine NumberFacts.
Local Open Scope float_scope.

(** What a unit toggle does to the form, in the words of the
    specification: [i] before, [i'] after. *)
Definition converted (i i' : Inputs) : Prop :=
  match units i with
  | metric =>
      units i' = imperial /\
      (forall kg, weightInput i = Some kg ->
         weightInput i' = Some (Math_round (kg * 2.20462 * 10) / 10)) /\
      (forall cm, heightCmInput i = Some cm ->
         let totalInches := cm * 0.393701 in
         heightFtInput i' = Some (Math_floor (totalInches / 12)) /\
         heightInInput i' = Some (Math_round (rem totalInches 12 * 10) / 10))
  | imperial =>
      units i' = metric /\
      (forall lb, weightInput i = Some lb ->
         weightInput i' = Some (Math_round (lb * 0.453592 * 10) / 10)) /\
      (let ft := default 0 (heightFtInput i) in
       let inches := default 0 (heightInInput i) in
       ((0 <? ft) = true \/ (0 <? inches) = true ->
          heightCmInput i' = Some (Math_round ((ft * 12 + inches) * 2.54))) /\
       ((ft =? 0) = true -> (inches =? 0) = true ->
          heightCmInput i' = heightCmInput i /\
          (heightCmInput i = None -> heightCmInput i' = None)))
  end.

Lemma toggleUnits_converted (i : Inputs) : converted i (Form.toggleUnits i).
Proof.
  unfold converted, Form.toggleUnits.
  destruct i as [[] w cm ft inch]; cbn [units weightInput heightCmInput heightFtInput heightInInput].
  - split; [destruct w, cm; reflexivity|].
    split.
    + intros kg ->. destruct cm; reflexivity.
    + intros c ->. split; reflexivity.
  - split; [destruct w; cbn; destruct (_ || _); reflexivity|].
    split.
    + intros lb ->. cbn. destruct (_ || _); reflexivity.
    + split.
      * intros H.
        assert (E : ((0 <? default 0 ft) || (0 <? default 0 inch)) = true)
          by (destruct H as [-> | ->]; [reflexivity | apply orb_true_r]).
        rewrite E. destruct w; reflexivity.
      * intros Hf Hi.
        destruct (eqb_not_ltb _ _ Hf) as [-> _], (eqb_not_ltb _ _ Hi) as [-> _].
        cbn. assert (E : heightCmInput
                 match w with
                 | Some w0 => setWeightInput (Some (Math_round (w0 * LBS_TO_KG * 10) / 10))
                                (setUnits metric (Build_Inputs imperial w cm ft inch))
                 | None => setUnits metric (Build_Inputs imperial w cm ft inch)
                 end = cm) by (destruct w; reflexivity).
        rewrite E. split; [reflexivity|]. intros ->. reflexivity.
Qed.

(** C4. In both components a unit toggle from metric to imperial turns a
    present weight into [round(kg * 2.20462 * 10) / 10] pounds and a
    present height into [feet = floor(totalInches / 12)] and
    [inches = round((totalInches mod 12) * 10) / 10] with
    [totalInches = cm * 0.393701]; from imperial to metric it turns a
    present weight into [round(lb * 0.453592 * 10) / 10] kilograms and the
    height into [round((ft * 12 + in) * 2.54)] centimetres, an absent
    component counting as 0, and when both components are absent or zero
    it leaves the centimetre field as it was: absent, not 0. *)
Theorem C4_toggle_converts :
  forall (b : BMICalculator.State) (t : FitnessCalculator.State),
    converted (BMICalculator.inputs b) (BMICalculator.inputs (BMICalculator.toggleUnits b)) /\
    converted (FitnessCalculator.inputs t)
      (FitnessCalculator.inputs (FitnessCalculator.toggleUnits t)).
Proof.
  intros b t. split; apply toggleUnits_converted.
Qed.


(** C4 at 70 kg and 175 cm: 154.3 lb, 5 ft and 8.9 in. *)
Lemma C4_toggle_converts_witness :
  weightInput (BMICalculator.inputs exampleBMI) = Some 70 /\
  heightCmInput (BMICalculator.inputs exampleBMI) = Some 175 /\
  weightInput (BMICalculator.inputs (BMICalculator.toggleUnits exampleBMI))
  = Some (Math_round (70 * 2.20462 * 10) / 10) /\
  heightFtInput (BMICalculator.inputs (BMICalculator.toggleUnits exampleBMI))
  = Some (Math_floor (175 * 0.393701 / 12)) /\
  heightInInput (BMICalculator.inputs (BMICalculator.toggleUnits exampleBMI))
  = Some (Math_round (rem (175 * 0.393701) 12 * 10) / 10).
Proof.
  split; [reflexivity|]. split; [reflexivity|].
  pose proof (proj1 (C4_toggle_converts exampleBMI exampleTDEE)) as H.
  split.
  - exact (proj1 (proj2 H) 70 eq_refl).
  - exact (proj2 (proj2 H) 175 eq_refl).
Defined.

End Toggle.

(* ===================================================================== *)
(** ** The height slots along the events *)
(* ===================================================================== *)

Section Heights.
Import Js Form Engine NumberFacts.
Local Open Scope float_scope.


Lemma handleInputChange_cases {S : Type} (hide : bool -> S -> S)
    (setter : field -> S -> S) (value : string) (st : S) :
  Form.handleInputChange hide setter value st = hide false st \/
  exists v, Form.handleInputChange hide setter value st = hide false (setter v st).
Proof.
  unfold Form.handleInputChange.
  destruct (String.eqb value "" || numericPattern_test value); eauto.
Qed.

Lemma bmi_calculate_inputs (st : BMICalculator.State) :
  BMICalculator.inputs (BMICalculator.calculateBMI st) = BMICalculator.inputs st.
Proof.
  unfold BMICalculator.calculateBMI.
  destruct (weightKg (BMICalculator.inputs st)) as [w|]; [|reflexivity].
  destruct (heightCm (BMICalculator.inputs st)) as [h|]; [|reflexivity].
  destruct (h =? 0); reflexivity.
Qed.

Lemma bmi_recalculate_inputs (st : BMICalculator.State) :
  BMICalculator.inputs (BMICalculator.recalculate st) = BMICalculator.inputs st.
Proof.
  unfold BMICalculator.recalculate.
  destruct (weightKg (BMICalculator.inputs st)) as [w|]; [|reflexivity].
  destruct (heightCm (BMICalculator.inputs st)) as [h|]; [|reflexivity].
  destruct (h =? 0); [reflexivity|apply bmi_calculate_inputs].
Qed.

Lemma bmi_render_inputs (old new : BMICalculator.State) :
  BMICalculator.inputs (BMICalculator.render old new) = BMICalculator.inputs new.
Proof.
  unfold BMICalculator.render.
  destruct (_ && _); [reflexivity|apply bmi_recalculate_inputs].
Qed.


Lemma tdee_calculate_inputs nts (st : FitnessCalculator.State) :
  FitnessCalculator.inputs (FitnessCalculator.calculateTDEE nts st)
  = FitnessCalculator.inputs st.
Proof.
  unfold FitnessCalculator.calculateTDEE.
  destruct (FitnessCalculator.age st); [|reflexivity].
  destruct (weightKg (FitnessCalculator.inputs st)); [|reflexivity].
  destruct (heightCm (FitnessCalculator.inputs st)); reflexivity.
Qed.

Lemma tdee_recalculate_inputs nts (st : FitnessCalculator.State) :
  FitnessCalculator.inputs (FitnessCalculator.recalculate nts st)
  = FitnessCalculator.inputs st.
Proof.
  unfold FitnessCalculator.recalculate.
  destruct (FitnessCalculator.age st); [|reflexivity].
  destruct (weightKg (FitnessCalculator.inputs st)); [|reflexivity].
  destruct (heightCm (FitnessCalculator.inputs st));
    [apply tdee_calculate_inputs|reflexivity].
Qed.

Lemma tdee_render_inputs nts (old new : FitnessCalculator.State) :
  FitnessCalculator.inputs (FitnessCalculator.render nts old new)
  = FitnessCalculator.inputs new.
Proof.
  unfold FitnessCalculator.render.
  destruct (_ && _); [reflexivity|apply tdee_recalculate_inputs].
Qed.











Lemma bmi_run_reachable (es : list BMICalculator.Event) (st st' : BMICalculator.State) :
  BMICalculator.reachable st -> BMICalculator.run es st = Some st' ->
  BMICalculator.reachable st'.
Proof.
  revert st. induction es as [|e es IH]; intros st Hr; cbn.
  - intros [= <-]. exact Hr.
  - destruct (BMICalculator.step e st) as [mid|] eqn:E; [|discriminate]. cbn.
    apply IH. exact (BMICalculator.reachable_step st e mid Hr E).
Qed.

Lemma tdee_run_reachable nts (es : list FitnessCalculator.Event)
    (st st' : FitnessCalculator.State) :
  FitnessCalculator.reachable nts st -> FitnessCalculator.run nts es st = Some st' ->
  FitnessCalculator.reachable nts st'.
Proof.
  revert st. induction es as [|e es IH]; intros st Hr; cbn.
  - intros [= <-]. exact Hr.
  - destruct (FitnessCalculator.step nts e st) as [mid|] eqn:E; [|discriminate]. cbn.
    apply IH. exact (FitnessCalculator.reachable_step nts st e mid Hr E).
Qed.






End Heights.

(* ===================================================================== *)
(** ** The input boundary *)
(* ===================================================================== *)

Section Boundary.
Import Js Form Engine.
Local Open Scope float_scope.

(** A string that is neither empty nor admitted by the pattern changes no
    slot: the handler only hides the result. *)
Lemma handleInputChange_rejects {S : Type} (hide : bool -> S -> S)
    (setter : field -> S -> S) (value : string) (st : S) :
  value <> ""%string -> numericPattern_test value = false ->
  Form.handleInputChange hide setter value st = hide false st.
Proof.
  intros Hne Ht. unfold Form.handleInputChange. rewrite Ht.
  destruct (String.eqb_spec value ""); [contradiction|reflexivity].
Qed.

(** A slot changes only for the empty string or a string the pattern
    admits. *)
Lemma handleInputChange_accepts {S : Type} (hide : bool -> S -> S)
    (setter : field -> S -> S) (value : string) (st : S) :
  Form.handleInputChange hide setter value st <> hide false st ->
  value = ""%string \/ numericPattern_test value = true.
Proof.
  unfold Form.handleInputChange. intros H.
  destruct (String.eqb_spec value ""); [left; assumption|].
  destruct (numericPattern_test value); [right; reflexivity|].
  cbn in H. contradiction.
Qed.

(** The example of the specification: ["12.3.4"] leaves the weight as it
    was. *)
Example malformed_input_rejected :
  BMICalculator.inputs
    (BMICalculator.handleInputChange setWeightInput "12.3.4" exampleBMI)
  = BMICalculator.inputs exampleBMI.
Proof. reflexivity. Qed.


(** C8: the code at a height of 182.8 cm. The toggle to imperial units
    stores 5 ft and 12 in: the inches are rounded to 12.0 and not carried
    into the feet. Typed inches are not bounded either: 15 is stored. *)
Theorem C8_toggle_stores_twelve_inches :
  (exists st,
      BMICalculator.run [BMICalculator.ChangeHeightCm "182.8"; BMICalculator.ClickUnits]
        BMICalculator.initial = Some st /\
      BMICalculator.reachable st /\
      heightFtInput (BMICalculator.inputs st) = Some 5 /\
      heightInInput (BMICalculator.inputs st) = Some 12 /\
      (12 <? 12) = false) /\
  (exists st,
      BMICalculator.run [BMICalculator.ClickUnits; BMICalculator.ChangeHeightIn "15"]
        BMICalculator.initial = Some st /\
      BMICalculator.reachable st /\
      heightInInput (BMICalculator.inputs st) = Some 15).
Proof.
  split.
  - destruct (BMICalculator.run
                [BMICalculator.ChangeHeightCm "182.8"; BMICalculator.ClickUnits]
                BMICalculator.initial) as [st|] eqn:E; [|vm_compute in E; discriminate].
    exists st. split; [reflexivity|].
    split; [exact (bmi_run_reachable _ _ _ BMICalculator.reachable_initial E)|].
    vm_compute in E. injection E as <-. repeat split; reflexivity.
  - destruct (BMICalculator.run
                [BMICalculator.ClickUnits; BMICalculator.ChangeHeightIn "15"]
                BMICalculator.initial) as [st|] eqn:E; [|vm_compute in E; discriminate].
    exists st. split; [reflexivity|].
    split; [exact (bmi_run_reachable _ _ _ BMICalculator.reachable_initial E)|].
    vm_compute in E. injection E as <-. reflexivity.
Qed.

End Boundary.

(* ===================================================================== *)
(** ** Persistence *)
(* ===================================================================== *)

Section Persistence.
Import Js Form Engine.
Local Open Scope float_scope.

Lemma is_zero_cases (x : number) : is_zero x = true -> x = zero \/ x = neg_zero.
Proof.
  unfold is_zero. rewrite FloatAxioms.eqb_spec. intros H.
  rewrite <- (SF2Prim_Prim2SF x).
  change (Prim2SF zero) with (S754_zero false) in H.
  destruct (Prim2SF x) as [[]| [] | | [] m e]; try discriminate H.
  - right. reflexivity.
  - left. reflexivity.
Qed.

(** A number that JSON writes and reads back as it is: finite, and not the
    negative zero. *)
Definition exactNumber (x : number) : Prop :=
  is_finite x = true /\ PrimFloat.Leibniz.eqb x neg_zero = false.

Definition exactField (f : field) : Prop :=
  match f with None => True | Some x => exactNumber x end.

Definition exactForm (i : Inputs) : Prop :=
  exactField (weightInput i) /\ exactField (heightCmInput i) /\
  exactField (heightFtInput i) /\ exactField (heightInInput i).

Lemma rewritten_exactNumber (x : number) :
  exactNumber x -> rewritten (VNum x) = VNum x.
Proof.
  intros [Hf Hz].
  change (rewritten (VNum x))
    with (if is_finite x then (if is_zero x then VNum zero else VNum x) else VNull).
  rewrite Hf. destruct (is_zero x) eqn:E; [|reflexivity].
  destruct (is_zero_cases x E) as [-> | ->]; [reflexivity|].
  discriminate Hz.
Qed.

(** A slot written and read back. *)
Definition reread (f : field) : value :=
  match value_of_field f with
  | VNum x => rewritten (VNum x)
  | v => v
  end.

Lemma reread_exactField (f : field) : exactField f -> reread f = value_of_field f.
Proof.
  destruct f as [x|]; [|reflexivity]. intros H. unfold reread. cbn [value_of_field].
  exact (rewritten_exactNumber x H).
Qed.

Lemma reread_nullish (f : field) (d : value) :
  exactField f -> nullish (reread f) d = value_of_field f.
Proof.
  intros H. rewrite (reread_exactField f H). destruct f; reflexivity.
Qed.

Lemma bmi_load_save (st : BMICalculator.BMICalculatorState) (ls : Storage) :
  writable ls = true ->
  getItem (BMICalculator.saveBMIState st ls) BMICalculator.LOCAL_STORAGE_KEY_BMI
  = Some (Json (rewritten
       (VObj [("weight", BMICalculator.Saved.weight st);
              ("heightCm", BMICalculator.Saved.heightCm st);
              ("heightFt", BMICalculator.Saved.heightFt st);
              ("heightIn", BMICalculator.Saved.heightIn st);
              ("units", value_of_units (BMICalculator.Saved.units st))]%string))).
Proof.
  intros Hw. unfold BMICalculator.saveBMIState, setItem, getItem. rewrite Hw.
  cbn [items]. apply lookup_insert_eq.
Qed.

Lemma tdee_load_save (st : FitnessCalculator.FitnessCalculatorState) (ls : Storage) :
  writable ls = true ->
  getItem (FitnessCalculator.saveState st ls) FitnessCalculator.LOCAL_STORAGE_KEY
  = Some (Json (rewritten
       (VObj [("age", FitnessCalculator.Saved.age st);
              ("gender", FitnessCalculator.Saved.gender st);
              ("weight", FitnessCalculator.Saved.weight st);
              ("height", FitnessCalculator.Saved.height st);
              ("activityLevel", FitnessCalculator.Saved.activityLevel st);
              ("units", value_of_units (FitnessCalculator.Saved.units st));
              ("heightIn", FitnessCalculator.Saved.heightIn st);
              ("heightFt", FitnessCalculator.Saved.heightFt st)]%string))).
Proof.
  intros Hw. unfold FitnessCalculator.saveState, setItem, getItem. rewrite Hw.
  cbn [items]. apply lookup_insert_eq.
Qed.

(** The two components write under different keys: saving one leaves what
    the other loads as it was. *)
Lemma save_bmi_keeps_tdee (st : BMICalculator.BMICalculatorState) (ls : Storage) :
  FitnessCalculator.loadState (BMICalculator.saveBMIState st ls)
  = FitnessCalculator.loadState ls.
Proof.
  unfold FitnessCalculator.loadState, BMICalculator.saveBMIState, setItem, getItem.
  destruct (writable ls); [|reflexivity]. cbn [items].
  rewrite lookup_insert_ne; [reflexivity|discriminate].
Qed.

Lemma save_tdee_keeps_bmi (st : FitnessCalculator.FitnessCalculatorState) (ls : Storage) :
  BMICalculator.loadBMIState (FitnessCalculator.saveState st ls)
  = BMICalculator.loadBMIState ls.
Proof.
  unfold BMICalculator.loadBMIState, FitnessCalculator.saveState, setItem, getItem.
  destruct (writable ls); [|reflexivity]. cbn [items].
  rewrite lookup_insert_ne; [reflexivity|discriminate].
Qed.





(** A first visit: nothing stored, and room to write. *)
Definition emptyStorage : Storage := {| items := ∅; writable := true |}.







End Persistence.

(* ===================================================================== *)
(** ** Stored values outside the enumerations *)
(* ===================================================================== *)

Section StoredValues.
Import Js Form Engine FitnessCalculator.
Local Open Scope float_scope.

(** The five activity levels. *)
Definition activityLevels : list string :=
  ["sedentary"; "light"; "moderate"; "active"; "extra"]%string.


Lemma activityFactors_other (k : string) :
  ~ In k activityLevels -> activityFactors !! k = None.
Proof.
  intros H. unfold activityFactors. cbn [list_to_map foldr uncurry curry fst snd].
  cbn in H.
  repeat (rewrite lookup_insert_ne; [|intros <-; apply H; tauto]).
  apply lookup_empty.
Qed.










End StoredValues.

(* ===================================================================== *)
(** ** Toggling twice *)
(* ===================================================================== *)

Section RoundTrip.
Import Js Form Engine.
Local Open Scope float_scope.

(** The exact value of a finite number. *)
Definition exactValue (x : number) : option Q :=
  match Prim2SF x with
  | S754_zero _ => Some 0%Q
  | S754_finite s m e =>
      let n := cond_Zopp s (Zpos m) in
      Some (if (0 <=? e)%Z then inject_Z (n * 2 ^ e)
            else Qmake n (Z.to_pos (2 ^ (- e))))
  | _ => None
  end.

(** Both slots hold finite numbers, at most [tol] apart. *)
Definition within (tol : Q) (a b : field) : bool :=
  match a, b with
  | Some x, Some y =>
      match exactValue x, exactValue y with
      | Some qx, Some qy => Qle_bool (Qabs (qx - qy)) tol
      | _, _ => false
      end
  | _, _ => false
  end.

(** A weight through the two conversions. *)
Definition weightBack (w : number) : number :=
  Math_round (Math_round (w * KG_TO_LBS * 10) / 10 * LBS_TO_KG * 10) / 10.

(** A height through the two conversions: absent when the feet and the
    inches it was turned into are both zero. *)
Definition heightBack (h : number) : field :=
  let totalInches := h * CM_TO_IN in
  let ft := Math_floor (totalInches / FT_TO_IN) in
  let inches := Math_round (rem totalInches FT_TO_IN * 10) / 10 in
  if (0 <? ft) || (0 <? inches)
  then Some (Math_round ((ft * FT_TO_IN + inches) * IN_TO_CM))
  else None.

Lemma toggle_twice (i : Inputs) (w h : number) :
  units i = metric -> weightInput i = Some w -> heightCmInput i = Some h ->
  units (Form.toggleUnits (Form.toggleUnits i)) = metric /\
  weightInput (Form.toggleUnits (Form.toggleUnits i)) = Some (weightBack w) /\
  heightCmInput (Form.toggleUnits (Form.toggleUnits i)) = heightBack h.
Proof.
  destruct i as [u w' cm ft inch]. cbn. intros -> -> ->.
  unfold Form.toggleUnits, heightBack. cbn.
  destruct (_ || _); repeat split; reflexivity.
Qed.

End RoundTrip.

(* ===================================================================== *)
(** ** The error of the two conversions *)
(* ===================================================================== *)

Module Analysis.
Import Js Form Binary64 MathFacts.

(** The exact value of a number that is zero or finite is its value. *)
Lemma exactValue_value (x : number) (q : Q) :
  exactValue x = Some q -> (q == B2Q x)%Q.
Proof.
  unfold exactValue, B2Q.
  destruct (Prim2SF x) as [s| s | | s m e]; try discriminate.
  - intros [= <-]. reflexivity.
  - cbn [SFvalue]. intros [= <-]. unfold F2Q.
    destruct (Z.leb_spec 0 e) as [He|He].
    + rewrite inject_Z_mult, bpow_Z by exact He. reflexivity.
    + assert (HP : 0 < 2 ^ (- e)) by (apply Z.pow_pos_nonneg; lia).
      pose proof (bpow_neg_inject e ltac:(lia)) as Eb.
      pose proof (inject_Z_pos _ HP) as Ip.
      set (n := cond_Zopp s (Zpos m)) in *.
      assert (E1 : (Qmake n (Z.to_pos (2 ^ (- e))) * inject_Z (2 ^ (- e)) == inject_Z n)%Q).
      { unfold Qeq, Qmult, inject_Z. cbn [Qnum Qden].
        rewrite Pos.mul_1_r, Z2Pos.id by exact HP. ring. }
      set (c := Qmake n (Z.to_pos (2 ^ (- e)))) in *.
      set (P := inject_Z (2 ^ (- e))) in *.
      assert (E2 : (c * (bpow e * P) == inject_Z n * bpow e)%Q).
      { setoid_replace (c * (bpow e * P))%Q with ((c * P) * bpow e)%Q using relation Qeq by ring.
        rewrite E1. reflexivity. }
      rewrite Eb in E2. lra.
Qed.

Lemma exactValue_nonneg (x : number) (q : Q) :
  exactValue x = Some q -> (0 <= q)%Q -> nonneg x.
Proof.
  intros E Hq. pose proof (exactValue_value x q E) as V. revert E V.
  unfold exactValue, B2Q, nonneg.
  destruct (Prim2SF x) as [s| s | | s m e]; try discriminate.
  - intros _ _. left. exists s. reflexivity.
  - intros _ V. right. destruct s.
    + exfalso. cbn [SFvalue cond_Zopp] in V.
      pose proof (F2Q_pos (Zpos m) e ltac:(lia)) as Hp. unfold F2Q in *.
      change (Z.opp (Zpos m)) with (- (Zpos m)) in V. rewrite inject_Z_opp in V. lra.
    + exists m, e. reflexivity.
Qed.

Lemma nonneg_exactValue (x : number) :
  nonneg x -> exists q, exactValue x = Some q /\ (q == B2Q x)%Q.
Proof.
  intros H.
  assert (E : exists q, exactValue x = Some q).
  { unfold exactValue. destruct H as [[s ->] | (m & e & ->)]; eexists; reflexivity. }
  destruct E as [q E]. exists q. split; [exact E|]. apply exactValue_value. exact E.
Qed.

(** The tolerance test, from a bound on the values. *)
Lemma within_values (tol : Q) (x y : number) :
  nonneg x -> nonneg y ->
  (B2Q x - B2Q y <= tol)%Q -> (B2Q y - B2Q x <= tol)%Q ->
  within tol (Some x) (Some y) = true.
Proof.
  intros Hx Hy H1 H2. unfold within.
  destruct (nonneg_exactValue x Hx) as (qx & -> & Vx).
  destruct (nonneg_exactValue y Hy) as (qy & -> & Vy).
  apply Qle_bool_iff. apply Qabs_Qle_condition. split; lra.
Qed.


Lemma big_900 : (1000000000 <= bpow 900)%Q.
Proof.
  apply Qle_trans with (bpow 30); [vm_compute; discriminate | apply bpow_le; lia].
Qed.

Lemma small_400 : (bpow (-400) <= 1 # 1000000000)%Q.
Proof.
  apply Qle_trans with (bpow (-30)); [apply bpow_le; lia | vm_compute; discriminate].
Qed.

(** A number that is zero or positive, with value zero: a zero. *)
Lemma nonneg_zero (x : number) :
  nonneg x -> (B2Q x == 0)%Q -> exists s, Prim2SF x = S754_zero s.
Proof.
  intros H V. destruct (nonneg_cases x H) as [(s & E & _) | (m & e & E & Vx)].
  - exists s. exact E.
  - pose proof (F2Q_pos (Zpos m) e ltac:(lia)). lra.
Qed.

(** A number that is zero or positive, with value at least [2^-1021]:
    its mantissa has 53 digits. *)
Lemma nonneg_normal (x : number) :
  nonneg x -> (bpow (-1021) <= B2Q x)%Q -> normal x.
Proof.
  intros H V. pose proof (bpow_pos (-1021)) as Hp.
  destruct (nonneg_cases x H) as [(s & E & V0) | (m & e & E & Vx)]; [lra|].
  exists m, e. split; [exact E|].
  destruct (valid_finite x _ _ _ E) as (D & [D53 | Emin] & R); [exact D53|].
  exfalso. subst e.
  pose proof (F2Q_bounds (Zpos m) (-1074) ltac:(lia)) as [_ U].
  assert (L : (bpow (Zdigits2 (Zpos m) + -1074) <= bpow (-1021))%Q) by (apply bpow_le; lia).
  lra.
Qed.

(** The exponent of a number with 53 digits, from bounds on its value. *)
Lemma normal_exponent (m : positive) (e lo hi : Z) :
  Zdigits2 (Zpos m) = 53 ->
  (bpow lo <= F2Q (Zpos m) e)%Q -> (F2Q (Zpos m) e < bpow hi)%Q ->
  lo - 53 < e < hi - 52.
Proof.
  intros D L U. pose proof (F2Q_bounds (Zpos m) e ltac:(lia)) as [L' U']. rewrite D in *.
  assert (H1 : (bpow lo < bpow (53 + e))%Q) by lra.
  assert (H2 : (bpow (53 - 1 + e) < bpow hi)%Q) by lra.
  apply bpow_lt_inv in H1, H2. lia.
Qed.

(** The quotient of a number that is zero or positive by a positive one,
    both away from the ends of the range: zero or positive, and within
    [eps] of its value and [eta] of the exact quotient [v]. *)
Lemma div_value (x y : number) (v : Q) :
  nonneg x -> nonneg y ->
  ((B2Q x == 0)%Q \/ (bpow (-400) <= B2Q x)%Q) -> (B2Q x < bpow 400)%Q ->
  (bpow (-400) <= B2Q y)%Q -> (B2Q y < bpow 400)%Q ->
  (v * B2Q y == B2Q x)%Q ->
  nonneg (x / y) /\
  (B2Q (x / y) - v <= eps * B2Q (x / y) + eta)%Q /\
  (v - B2Q (x / y) <= eps * B2Q (x / y) + eta)%Q.
Proof.
  intros Hx Hy X0 XU YL YU Ev. pose proof eta_pos as Heta.
  pose proof (bpow_pos (-400)) as P400.
  assert (L4 : (bpow (-1021) <= bpow (-400))%Q) by (apply bpow_le; lia).
  destruct (nonneg_normal y Hy ltac:(lra)) as (my & ey & Ey & Dy).
  assert (Vy : (B2Q y == F2Q (Zpos my) ey)%Q) by (unfold B2Q; rewrite Ey; reflexivity).
  destruct X0 as [X0 | XL].
  - destruct (nonneg_zero x Hx X0) as [s Ex].
    assert (Ez : Prim2SF (x / y) = S754_zero (xorb s false))
      by (rewrite FloatAxioms.div_spec, Ex, Ey; reflexivity).
    assert (Vz : (B2Q (x / y) == 0)%Q) by (unfold B2Q; rewrite Ez; reflexivity).
    split; [left; eexists; exact Ez|].
    assert (V0 : (v == 0)%Q).
    { rewrite X0 in Ev. apply Qmult_integral in Ev. destruct Ev as [Ev|Ev]; [exact Ev | lra]. }
    unfold eps. split; lra.
  - destruct (nonneg_normal x Hx ltac:(lra)) as (mx & ex & Ex & Dx).
    assert (Vx : (B2Q x == F2Q (Zpos mx) ex)%Q) by (unfold B2Q; rewrite Ex; reflexivity).
    pose proof (normal_exponent mx ex (-400) 400 Dx ltac:(lra) ltac:(lra)) as Rx.
    pose proof (normal_exponent my ey (-400) 400 Dy ltac:(lra) ltac:(lra)) as Ry.
    destruct (div_finite x y mx my ex ey v Ex Ey Dx Dy ltac:(lia)
                ltac:(rewrite <- Vx, <- Vy; exact Ev)) as (m2 & e2 & E2 & H1 & H2).
    apply relative_error. right. exists m2, e2. repeat split; assumption.
Qed.

(** [Math.round(x) / 10], for [x] zero or positive and below [2^52]:
    the integer [n] with [n <= x + 1/2 < n + 1], divided by 10 and
    rounded. *)
Lemma round_tenth (x : number) :
  nonneg x -> (B2Q x < bpow 52)%Q ->
  exists n : Z,
    0 <= n /\
    (inject_Z n <= B2Q x + (1 # 2))%Q /\ (B2Q x + (1 # 2) < inject_Z n + 1)%Q /\
    nonneg (Math_round x / 10) /\
    (B2Q (Math_round x / 10) - inject_Z n * (1 # 10)
       <= eps * B2Q (Math_round x / 10) + eta)%Q /\
    (inject_Z n * (1 # 10) - B2Q (Math_round x / 10)
       <= eps * B2Q (Math_round x / 10) + eta)%Q /\
    (0 < n -> (0 < B2Q (Math_round x / 10))%Q).
Proof.
  intros Hx Ux.
  destruct (Math_round_spec x Hx Ux) as (n & Hn & L & U & V & Z0 & Zp).
  exists n. split; [exact Hn|]. split; [exact L|]. split; [exact U|].
  assert (N10 : nonneg 10%float) by (right; eexists; eexists; vm_compute; reflexivity).
  assert (V10 : (B2Q 10%float == 10)%Q) by (vm_compute; reflexivity).
  assert (Hr : nonneg (Math_round x)).
  { destruct (Z.eq_dec n 0) as [E|E]; [left; apply Z0; exact E | apply normal_nonneg, Zp; lia]. }
  pose proof small_400 as S4. pose proof big_900 as B9.
  assert (B4 : (bpow 53 <= bpow 400)%Q) by (apply bpow_le; lia).
  change (bpow 53) with (9007199254740992 # 1) in B4.
  change (bpow 52) with (4503599627370496 # 1) in Ux.
  assert (Cn : (B2Q (Math_round x) == 0)%Q \/ (bpow (-400) <= B2Q (Math_round x))%Q).
  { destruct (Z.eq_dec n 0) as [E|E].
    - left. rewrite V, E. reflexivity.
    - right. assert (H1 : (inject_Z 1 <= inject_Z n)%Q) by (rewrite <- Zle_Qle; lia).
      change (inject_Z 1) with 1%Q in H1. lra. }
  destruct (div_value (Math_round x) 10%float (inject_Z n * (1 # 10)) Hr N10 Cn
              ltac:(lra) ltac:(lra) ltac:(lra) ltac:(rewrite V10, V; ring))
    as (Nz & E1 & E2).
  split; [exact Nz|]. split; [exact E1|]. split; [exact E2|].
  intros Pn. assert (H1 : (inject_Z 1 <= inject_Z n)%Q) by (rewrite <- Zle_Qle; lia).
  change (inject_Z 1) with 1%Q in H1. pose proof eta_small. unfold eps in *. lra.
Qed.


(** Replaces the value of a constant by the fraction it is. *)
Ltac constant c :=
  let v := eval vm_compute in (B2Q c) in
  change (B2Q c) with v in *.

Lemma nonneg_constant (c : number) (m : positive) (e : Z) :
  Prim2SF c = S754_finite false m e -> nonneg c.
Proof. intros E. right. exists m, e. exact E. Qed.

(** A weight of at most 10 000 kg, turned into pounds and back into
    kilograms, is within 0.1 kg of what it was. *)
Lemma weight_close (w : number) :
  nonneg w -> (B2Q w <= 10000)%Q ->
  nonneg (weightBack w) /\
  (B2Q (weightBack w) - B2Q w <= 1 # 10)%Q /\
  (B2Q w - B2Q (weightBack w) <= 1 # 10)%Q.
Proof.
  intros Hw Uw. unfold weightBack.
  pose proof (nonneg_value w Hw) as Pw.
  pose proof big_900 as B9. pose proof eta_pos as E0. pose proof eta_small as E1.
  assert (NK : nonneg KG_TO_LBS) by (eapply nonneg_constant; vm_compute; reflexivity).
  assert (NL : nonneg LBS_TO_KG) by (eapply nonneg_constant; vm_compute; reflexivity).
  assert (N10 : nonneg 10%float) by (eapply nonneg_constant; vm_compute; reflexivity).
  (* pounds *)
  destruct (mul_value w KG_TO_LBS Hw NK) as (N1 & A1 & B1).
  { constant KG_TO_LBS. lra. }
  set (a1 := (w * KG_TO_LBS)%float) in *. pose proof (nonneg_value a1 N1) as P1.
  constant KG_TO_LBS. unfold eps in A1, B1.
  destruct (mul_value a1 10%float N1 N10) as (N2 & A2 & B2).
  { constant 10%float. lra. }
  set (a2 := (a1 * 10)%float) in *. pose proof (nonneg_value a2 N2) as P2.
  constant 10%float. unfold eps in A2, B2.
  destruct (round_tenth a2 N2) as (n1 & Hn1 & L1 & U1 & N3 & A3 & B3 & _).
  { change (bpow 52) with (4503599627370496 # 1). lra. }
  set (a3 := (Math_round a2 / 10)%float) in *. pose proof (nonneg_value a3 N3) as P3.
  unfold eps in A3, B3.
  (* kilograms *)
  destruct (mul_value a3 LBS_TO_KG N3 NL) as (N4 & A4 & B4).
  { constant LBS_TO_KG. lra. }
  set (a4 := (a3 * LBS_TO_KG)%float) in *. pose proof (nonneg_value a4 N4) as P4.
  constant LBS_TO_KG. unfold eps in A4, B4.
  destruct (mul_value a4 10%float N4 N10) as (N5 & A5 & B5).
  { constant 10%float. lra. }
  set (a5 := (a4 * 10)%float) in *. pose proof (nonneg_value a5 N5) as P5.
  constant 10%float. unfold eps in A5, B5.
  destruct (round_tenth a5 N5) as (n2 & Hn2 & L2 & U2 & N6 & A6 & B6 & _).
  { change (bpow 52) with (4503599627370496 # 1). lra. }
  set (a6 := (Math_round a5 / 10)%float) in *. pose proof (nonneg_value a6 N6) as P6.
  unfold eps in A6, B6.
  split; [exact N6|]. split; lra.
Qed.


(** A number on the grid of step [2^e], below an integer: a whole step
    below it. *)
Lemma below_integer (m e c : Z) :
  e <= 0 -> (F2Q m e < inject_Z c)%Q -> (F2Q m e + bpow e <= inject_Z c)%Q.
Proof.
  intros He H. unfold F2Q in *.
  pose proof (bpow_neg_inject e He) as Eb. pose proof (bpow_pos e) as Hb.
  assert (HP : 0 < 2 ^ (- e)) by (apply Z.pow_pos_nonneg; lia).
  pose proof (inject_Z_pos _ HP) as Ip.
  set (P := 2 ^ (- e)) in *.
  assert (L : m < c * P).
  { rewrite Zlt_Qlt, inject_Z_mult.
    setoid_replace (inject_Z m) with (inject_Z m * (bpow e * inject_Z P))%Q
      using relation Qeq by (rewrite Eb; ring).
    setoid_replace (inject_Z m * (bpow e * inject_Z P))%Q
      with ((inject_Z m * bpow e) * inject_Z P)%Q
      using relation Qeq by ring.
    apply Qmult_lt_compat_r; assumption. }
  assert (L' : (inject_Z (m + 1) <= inject_Z (c * P))%Q) by (rewrite <- Zle_Qle; lia).
  rewrite inject_Z_plus, inject_Z_mult in L'. change (inject_Z 1) with 1%Q in L'.
  assert (L2 : ((inject_Z m + 1) * bpow e <= inject_Z c * inject_Z P * bpow e)%Q)
    by (apply Qmult_le_compat_r; lra).
  setoid_replace (inject_Z c * inject_Z P * bpow e)%Q
    with (inject_Z c * (bpow e * inject_Z P))%Q
    using relation Qeq in L2 by ring.
  rewrite Eb in L2. lra.
Qed.

(** The quotient by 12 of a number between [12 k] and [12 (k + 1)], as the
    division rounds it, is still between [k] and [k + 1]: [Math.floor]
    of it is [k]. *)
Lemma quotient_floor (t : number) (k : Z) :
  nonneg t -> (1 # 100 <= B2Q t)%Q -> (B2Q t < 512)%Q -> 0 <= k ->
  (inject_Z k * 12 <= B2Q t)%Q -> (B2Q t < (inject_Z k + 1) * 12)%Q ->
  nonneg (t / FT_TO_IN) /\
  (inject_Z k <= B2Q (t / FT_TO_IN))%Q /\ (B2Q (t / FT_TO_IN) < inject_Z k + 1)%Q.
Proof.
  intros Ht Lt Ut Hk Lk Uk.
  pose proof small_400 as S4. pose proof eta_pos as E0. pose proof eta_small as E1.
  assert (L4 : (bpow (-1021) <= bpow (-400))%Q) by (apply bpow_le; lia).
  destruct (nonneg_normal t Ht ltac:(lra)) as (mt & et & Et & Dt).
  assert (Vt : (B2Q t == F2Q (Zpos mt) et)%Q) by (unfold B2Q; rewrite Et; reflexivity).
  assert (E12 : Prim2SF FT_TO_IN = S754_finite false 6755399441055744 (-49)) by reflexivity.
  assert (V12 : (B2Q FT_TO_IN == 12)%Q) by (vm_compute; reflexivity).
  assert (B9 : (bpow 9 == 512)%Q) by reflexivity.
  pose proof (normal_exponent mt et (-400) 9 Dt ltac:(lra) ltac:(lra)) as Rt.
  set (v := (B2Q t * (1 # 12))%Q).
  destruct (div_finite t FT_TO_IN mt _ et _ v Et E12 Dt ltac:(reflexivity) ltac:(lia))
    as (mq & eq & Eq & H1 & H2).
  { change (F2Q (Zpos 6755399441055744) (-49)) with (B2Q FT_TO_IN).
    rewrite V12, <- Vt. unfold v. ring. }
  assert (Vq : (B2Q (t / FT_TO_IN) == F2Q (Zpos mq) eq)%Q)
    by (unfold B2Q; rewrite Eq; reflexivity).
  assert (Nq : nonneg (t / FT_TO_IN)) by (right; exists mq, eq; exact Eq).
  pose proof (half_ulp_bound _ _ _ Eq) as Hu. fold eta in Hu.
  assert (Lq : (1 # 2000 <= F2Q (Zpos mq) eq)%Q) by (unfold v in *; lra).
  assert (Uq : (F2Q (Zpos mq) eq < 64)%Q) by (unfold v in *; lra).
  destruct (nonneg_normal _ Nq ltac:(lra)) as (mq' & eq' & Eq' & Dq).
  rewrite Eq in Eq'. injection Eq' as <- <-.
  assert (B6 : (bpow 6 == 64)%Q) by reflexivity.
  pose proof (normal_exponent mq eq (-400) 6 Dq ltac:(lra) ltac:(lra)) as Rq.
  pose proof (bpow_pos eq) as Pq. pose proof (bpow_pos et) as Pt.
  split; [exact Nq|]. rewrite Vq. split.
  - (* not below k *)
    apply Qnot_lt_le. intros C.
    pose proof (below_integer (Zpos mq) eq k ltac:(lia) C) as G.
    unfold v in *. lra.
  - (* below k + 1 *)
    apply Qnot_le_lt. intros C.
    assert (Ut' : (F2Q (Zpos mt) et < inject_Z ((k + 1) * 12))%Q).
    { rewrite inject_Z_mult, inject_Z_plus. change (inject_Z 1) with 1%Q.
      change (inject_Z 12) with 12%Q. lra. }
    pose proof (below_integer (Zpos mt) et _ ltac:(lia) Ut') as G.
    rewrite inject_Z_mult, inject_Z_plus in G. change (inject_Z 1) with 1%Q in G.
    change (inject_Z 12) with 12%Q in G.
    pose proof (F2Q_bounds (Zpos mq) eq ltac:(lia)) as [LQ _].
    pose proof (F2Q_bounds (Zpos mt) et ltac:(lia)) as [_ UT].
    rewrite Dq in LQ. rewrite Dt in UT.
    replace (53 - 1 + eq) with (52 + eq) in LQ by lia.
    rewrite bpow_add in LQ, UT.
    change (bpow 52) with (4503599627370496 # 1) in LQ.
    change (bpow 53) with (9007199254740992 # 1) in UT.
    assert (X : (bpow eq < bpow (et - 2))%Q).
    { replace (et - 2) with (et + -2) by lia. rewrite bpow_add.
      change (bpow (-2)) with (1 # 4). unfold v in *. lra. }
    apply bpow_lt_inv in X.
    assert (Y : (bpow eq <= bpow (et + -3))%Q) by (apply bpow_le; lia).
    rewrite bpow_add in Y. change (bpow (-3)) with (1 # 8) in Y.
    unfold v in *. lra.
Qed.

Lemma ltb_positive (x : number) :
  nonneg x -> (0 < B2Q x)%Q -> (0 <? x)%float = true.
Proof.
  intros H V. destruct (nonneg_cases x H) as [(s & E & V0) | (m & e & E & _)]; [lra|].
  rewrite FloatAxioms.ltb_spec, E. reflexivity.
Qed.


(** A height from 0.2 to 1000 cm, turned into feet and inches and back
    into centimetres, comes back, within 1 cm of what it was. *)
Lemma height_close (h : number) :
  nonneg h -> (1 # 5 <= B2Q h)%Q -> (B2Q h <= 1000)%Q ->
  exists h' : number,
    heightBack h = Some h' /\ nonneg h' /\
    (B2Q h' - B2Q h <= 1)%Q /\ (B2Q h - B2Q h' <= 1)%Q.
Proof.
  intros Hh Lh Uh. unfold heightBack. cbv zeta.
  pose proof big_900 as B9. pose proof eta_pos as E0. pose proof eta_small as E1.
  pose proof small_400 as S4.
  assert (L4 : (bpow (-1021) <= bpow (-400))%Q) by (apply bpow_le; lia).
  assert (NC : nonneg CM_TO_IN) by (eapply nonneg_constant; vm_compute; reflexivity).
  assert (NI : nonneg IN_TO_CM) by (eapply nonneg_constant; vm_compute; reflexivity).
  assert (NF : nonneg FT_TO_IN) by (eapply nonneg_constant; vm_compute; reflexivity).
  assert (N10 : nonneg 10%float) by (eapply nonneg_constant; vm_compute; reflexivity).
  assert (E12 : Prim2SF FT_TO_IN = S754_finite false 6755399441055744 (-49)) by reflexivity.
  (* the total of inches *)
  destruct (mul_value h CM_TO_IN Hh NC) as (Nt & At & Bt).
  { constant CM_TO_IN. lra. }
  set (t := (h * CM_TO_IN)%float) in *. pose proof (nonneg_value t Nt) as Pt.
  constant CM_TO_IN. unfold eps in At, Bt.
  destruct (nonneg_normal t Nt ltac:(lra)) as (mt & et & Et & Dt).
  (* feet and the rest *)
  destruct (rem_spec t FT_TO_IN mt _ et _ Et E12) as (k & Hk & Vr & Lr & Ur & Nr).
  { constant FT_TO_IN. lra. }
  set (r := rem t FT_TO_IN) in *. constant FT_TO_IN.
  destruct (quotient_floor t k Nt ltac:(lra) ltac:(lra) Hk ltac:(lra) ltac:(lra))
    as (Nq & Lq & Uq).
  set (q := (t / FT_TO_IN)%float) in *.
  destruct (Math_floor_spec q Nq) as (n & Hn & Ln & Un & Vf & F0 & Fp).
  { change (bpow 52) with (4503599627370496 # 1). lra. }
  assert (n = k).
  { assert (X1 : (inject_Z n < inject_Z (k + 1))%Q)
      by (rewrite inject_Z_plus; change (inject_Z 1) with 1%Q; lra).
    assert (X2 : (inject_Z k < inject_Z (n + 1))%Q)
      by (rewrite inject_Z_plus; change (inject_Z 1) with 1%Q; lra).
    rewrite <- Zlt_Qlt in X1, X2. lia. }
  subst n. set (ft := Math_floor q) in *.
  assert (Nf : nonneg ft).
  { destruct (Z.eq_dec k 0) as [E|E]; [left; apply F0; exact E | apply normal_nonneg, Fp; lia]. }
  (* inches *)
  destruct (mul_value r 10%float Nr N10) as (Nr10 & Ar & Br).
  { constant 10%float. lra. }
  set (r10 := (r * 10)%float) in *. pose proof (nonneg_value r10 Nr10) as Pr10.
  constant 10%float. unfold eps in Ar, Br.
  destruct (round_tenth r10 Nr10) as (ni & Hni & Li & Ui & Ni & Ai & Bi & Pi).
  { change (bpow 52) with (4503599627370496 # 1). lra. }
  set (inches := (Math_round r10 / 10)%float) in *.
  pose proof (nonneg_value inches Ni) as Pin. unfold eps in Ai, Bi.
  (* one of the two is positive *)
  assert (G : ((0 <? ft)%float || (0 <? inches)%float) = true).
  { apply orb_true_iff. destruct (Z.eq_dec k 0) as [E|E].
    - right. apply ltb_positive; [exact Ni|]. apply Pi.
      subst k. change (inject_Z 0) with 0%Q in *.
      assert (X : (inject_Z 0 < inject_Z ni)%Q)
        by (change (inject_Z 0) with 0%Q; lra).
      rewrite <- Zlt_Qlt in X. exact X.
    - left. apply ltb_positive; [exact Nf|]. rewrite Vf.
      assert (X : (inject_Z 1 <= inject_Z k)%Q) by (rewrite <- Zle_Qle; lia).
      change (inject_Z 1) with 1%Q in X. lra. }
  rewrite G.
  (* centimetres *)
  destruct (mul_value ft FT_TO_IN Nf NF) as (Nf12 & Af & Bf).
  { constant FT_TO_IN. lra. }
  set (f12 := (ft * FT_TO_IN)%float) in *. pose proof (nonneg_value f12 Nf12) as Pf12.
  constant FT_TO_IN. unfold eps in Af, Bf.
  destruct (add_value f12 inches Nf12 Ni) as (Ns & As & Bs); [lra|].
  set (s := (f12 + inches)%float) in *. pose proof (nonneg_value s Ns) as Ps.
  unfold eps in As, Bs.
  destruct (mul_value s IN_TO_CM Ns NI) as (Nc & Ac & Bc).
  { constant IN_TO_CM. lra. }
  set (c := (s * IN_TO_CM)%float) in *. pose proof (nonneg_value c Nc) as Pc.
  constant IN_TO_CM. unfold eps in Ac, Bc.
  destruct (Math_round_spec c Nc) as (m & Hm & Lm & Um & Vm & M0 & Mp).
  { change (bpow 52) with (4503599627370496 # 1). lra. }
  exists (Math_round c). split; [reflexivity|]. split.
  { destruct (Z.eq_dec m 0) as [E|E]; [left; apply M0; exact E | apply normal_nonneg, Mp; lia]. }
  rewrite Vm. split; lra.
Qed.

End Analysis.

Section RoundTripClaim.
Import Js Form Engine Binary64 Analysis.
Local Open Scope float_scope.

(** A form with a weight of 1 000 000 kg and a height of 0.1 cm. *)
Definition extremeBMI : BMICalculator.State :=
  bmiOf (metricForm (Some 1000000) (Some 0.1)).

(** C7, as stated, fails: toggled twice, a weight of 1 000 000 kg comes
    back as 999 998 kg, and a height of 0.1 cm, turned into 0 ft 0 in, does
    not come back at all. *)
Lemma C7_weight_drifts_height_lost :
  (0 <? 1000000) = true /\ (0 <? 0.1) = true /\
  weightKg (BMICalculator.inputs
              (BMICalculator.toggleUnits (BMICalculator.toggleUnits extremeBMI)))
  = Some 999998 /\
  within (1 # 10) (Some 1000000) (Some 999998) = false /\
  heightCm (BMICalculator.inputs
              (BMICalculator.toggleUnits (BMICalculator.toggleUnits extremeBMI)))
  = None.
Proof. vm_compute. repeat split; reflexivity. Qed.

(** C7, amended. For every binary64 weight above 0 and at most 10 000 kg
    and every binary64 height from 0.2 to 1000 cm, toggling the units twice
    without an edit in between gives a form in metric units whose canonical
    weight is within 0.1 kg of the starting one and whose canonical height
    is within 1 cm of the starting one. The bounds are on the exact values
    of the two numbers, and so are the two comparisons. *)
Theorem C7_toggle_twice_close :
  forall (b : BMICalculator.State) (w h : number) (qw qh : Q),
    units (BMICalculator.inputs b) = metric ->
    weightInput (BMICalculator.inputs b) = Some w ->
    heightCmInput (BMICalculator.inputs b) = Some h ->
    exactValue w = Some qw -> exactValue h = Some qh ->
    (0 < qw)%Q -> (qw <= 10000)%Q -> (1 # 5 <= qh)%Q -> (qh <= 1000)%Q ->
    units (BMICalculator.inputs
             (BMICalculator.toggleUnits (BMICalculator.toggleUnits b))) = metric /\
    within (1 # 10) (weightKg (BMICalculator.inputs b))
      (weightKg (BMICalculator.inputs
                   (BMICalculator.toggleUnits (BMICalculator.toggleUnits b)))) = true /\
    within 1 (heightCm (BMICalculator.inputs b))
      (heightCm (BMICalculator.inputs
                   (BMICalculator.toggleUnits (BMICalculator.toggleUnits b)))) = true.
Proof.
  intros b w h qw qh Hu Hw Hh Ew Eh Lw Uw Lh Uh.
  destruct (toggle_twice (BMICalculator.inputs b) _ _ Hu Hw Hh) as (Hu' & Hw' & Hh').
  change (BMICalculator.inputs (BMICalculator.toggleUnits (BMICalculator.toggleUnits b)))
    with (Form.toggleUnits (Form.toggleUnits (BMICalculator.inputs b))).
  split; [exact Hu'|].
  unfold weightKg, heightCm. rewrite Hu, Hu', Hw, Hw', Hh, Hh'.
  pose proof (exactValue_value w qw Ew) as Vw.
  pose proof (exactValue_value h qh Eh) as Vh.
  assert (Nw : nonneg w) by (apply (exactValue_nonneg w qw Ew); lra).
  assert (Nh : nonneg h) by (apply (exactValue_nonneg h qh Eh); lra).
  split.
  - destruct (weight_close w Nw ltac:(lra)) as (Nb & W1 & W2).
    apply within_values; [exact Nw | exact Nb | lra | lra].
  - destruct (height_close h Nh ltac:(lra) ltac:(lra)) as (h' & -> & Nb & H1 & H2).
    apply within_values; [exact Nh | exact Nb | lra | lra].
Qed.

(** C7 at 70 kg and 175 cm. *)
Lemma C7_toggle_twice_close_witness :
  exactValue 70 = Some (4925812092436480 # 70368744177664) /\ exactValue 175 = Some (6157265115545600 # 35184372088832) /\
  (0 < 4925812092436480 # 70368744177664)%Q /\ (4925812092436480 # 70368744177664 <= 10000)%Q /\ (1 # 5 <= 6157265115545600 # 35184372088832)%Q /\ (6157265115545600 # 35184372088832 <= 1000)%Q /\
  within (1 # 10) (weightKg (BMICalculator.inputs exampleBMI))
    (weightKg (BMICalculator.inputs
                 (BMICalculator.toggleUnits (BMICalculator.toggleUnits exampleBMI)))) = true /\
  within 1 (heightCm (BMICalculator.inputs exampleBMI))
    (heightCm (BMICalculator.inputs
                 (BMICalculator.toggleUnits (BMICalculator.toggleUnits exampleBMI)))) = true.
Proof.
  assert (Lw : (0 < 4925812092436480 # 70368744177664)%Q) by reflexivity.
  assert (Uw : (4925812092436480 # 70368744177664 <= 10000)%Q) by (apply Qle_bool_iff; reflexivity).
  assert (Lh : (1 # 5 <= 6157265115545600 # 35184372088832)%Q) by (apply Qle_bool_iff; reflexivity).
  assert (Uh : (6157265115545600 # 35184372088832 <= 1000)%Q) by (apply Qle_bool_iff; reflexivity).
  split; [reflexivity|]. split; [reflexivity|].
  split; [exact Lw|]. split; [exact Uw|]. split; [exact Lh|]. split; [exact Uh|].
  exact (proj2 (C7_toggle_twice_close exampleBMI 70 175 (4925812092436480 # 70368744177664) (6157265115545600 # 35184372088832)
                  eq_refl eq_refl eq_refl eq_refl eq_refl Lw Uw Lh Uh)).
Defined.

End RoundTripClaim.

(* ===================================================================== *)
(** ** The result and the inputs it was computed from *)
(* ===================================================================== *)

Section Fresh.
Import Js Form Engine.
Local Open Scope float_scope.

Lemma same_field_refl (f : field) : same_field f f = true.
Proof. destruct f as [x|]; [|reflexivity]. apply FloatAxioms.Leibniz.eqb_spec. reflexivity. Qed.

Lemma same_field_eq (a b : field) : same_field a b = true -> a = b.
Proof.
  destruct a as [x|], b as [y|]; try discriminate; [|reflexivity].
  intros H. apply FloatAxioms.Leibniz.eqb_spec in H. congruence.
Qed.

Lemma same_value_eq : forall a b : value, same_value a b = true -> a = b.
Proof.
  fix IH 1. intros [| |x|x|x|l|o] [| |y|y|y|l'|o']; try discriminate; try reflexivity.
  - intros H. apply Bool.eqb_prop in H. congruence.
  - intros H. apply FloatAxioms.Leibniz.eqb_spec in H. congruence.
  - intros H. apply String.eqb_eq in H. congruence.
  - cbn [same_value]. intros H. f_equal. revert l' H.
    induction l as [|a l IHl]; intros [|b l'] H; try discriminate; [reflexivity|].
    apply andb_prop in H. destruct H as [H1 H2].
    apply IH in H1. apply IHl in H2. congruence.
  - cbn [same_value]. intros H. f_equal. revert o' H.
    induction o as [|[k a] o IHo]; intros [|[k' b] o'] H; try discriminate; [reflexivity|].
    apply andb_prop in H. destruct H as [H0 H2]. apply andb_prop in H0. destruct H0 as [H0 H1].
    apply String.eqb_eq in H0. apply IH in H1. apply IHo in H2. congruence.
Qed.

Lemma same_value_refl : forall a : value, same_value a a = true.
Proof.
  fix IH 1. intros [| |x|x|x|l|o]; try reflexivity.
  - apply Bool.eqb_reflx.
  - apply FloatAxioms.Leibniz.eqb_spec. reflexivity.
  - apply String.eqb_refl.
  - cbn [same_value]. induction l as [|a l IHl]; [reflexivity|].
    rewrite (IH a), IHl. reflexivity.
  - cbn [same_value]. induction o as [|[k a] o IHo]; [reflexivity|].
    rewrite String.eqb_refl, (IH a), IHo. reflexivity.
Qed.


(** *** The BMI component *)

(** The result a state holds is the one [calculateBMI] computes from its
    inputs, and it is shown only when the form is complete. *)
Definition bmi_fresh (st : BMICalculator.State) : Prop :=
  BMICalculator.bmi st = BMICalculator.bmi (BMICalculator.calculateBMI st) /\
  BMICalculator.bmiCategoryKey st
  = BMICalculator.bmiCategoryKey (BMICalculator.calculateBMI st) /\
  (BMICalculator.showResult st = true -> BMIView.isFormComplete st = true).

(** [calculateBMI] reads the state through the two canonical values. *)
Lemma bmi_calculate_reads (a b : BMICalculator.State) :
  weightKg (BMICalculator.inputs a) = weightKg (BMICalculator.inputs b) ->
  heightCm (BMICalculator.inputs a) = heightCm (BMICalculator.inputs b) ->
  BMICalculator.bmi (BMICalculator.calculateBMI a)
  = BMICalculator.bmi (BMICalculator.calculateBMI b) /\
  BMICalculator.bmiCategoryKey (BMICalculator.calculateBMI a)
  = BMICalculator.bmiCategoryKey (BMICalculator.calculateBMI b) /\
  BMIView.isFormComplete a = BMIView.isFormComplete b.
Proof.
  unfold BMICalculator.calculateBMI, BMIView.isFormComplete. intros -> ->.
  destruct (weightKg (BMICalculator.inputs b)) as [w|]; [|repeat split].
  destruct (heightCm (BMICalculator.inputs b)) as [h|]; [|repeat split].
  destruct (h =? 0); repeat split.
Qed.

Lemma bmi_calculate_shows (st : BMICalculator.State) :
  BMICalculator.showResult (BMICalculator.calculateBMI st) = BMIView.isFormComplete st.
Proof.
  unfold BMICalculator.calculateBMI, BMIView.isFormComplete.
  destruct (weightKg (BMICalculator.inputs st)) as [w|]; [|reflexivity].
  destruct (heightCm (BMICalculator.inputs st)) as [h|]; [|reflexivity].
  destruct (h =? 0); reflexivity.
Qed.

(** The callback of the memo and the submit handler compute the same
    state. *)
Lemma bmi_recalculate_calculate (st : BMICalculator.State) :
  BMICalculator.recalculate st = BMICalculator.calculateBMI st.
Proof.
  unfold BMICalculator.recalculate, BMICalculator.calculateBMI.
  destruct (weightKg (BMICalculator.inputs st)) as [w|]; [|reflexivity].
  destruct (heightCm (BMICalculator.inputs st)) as [h|]; [|reflexivity].
  destruct (h =? 0); reflexivity.
Qed.

Lemma bmi_calculate_fresh (st : BMICalculator.State) :
  bmi_fresh (BMICalculator.calculateBMI st).
Proof.
  pose proof (bmi_calculate_inputs st) as Hi.
  destruct (bmi_calculate_reads (BMICalculator.calculateBMI st) st) as (H1 & H2 & H3);
    [rewrite Hi; reflexivity | rewrite Hi; reflexivity |].
  split; [symmetry; exact H1|]. split; [symmetry; exact H2|].
  rewrite bmi_calculate_shows, H3. intros H. rewrite H. reflexivity.
Qed.

(** What a handler leaves: the state [calculateBMI] computes, or the
    result as it was, hidden. *)
Lemma bmi_handle_cases (e : BMICalculator.Event) (st mid : BMICalculator.State) :
  BMICalculator.handle e st = Some mid ->
  (e = BMICalculator.SubmitForm /\ mid = BMICalculator.calculateBMI st) \/
  (e <> BMICalculator.SubmitForm /\
   BMICalculator.bmi mid = BMICalculator.bmi st /\
   BMICalculator.bmiCategoryKey mid = BMICalculator.bmiCategoryKey st /\
   BMICalculator.showResult mid = false).
Proof.
  unfold BMICalculator.handle, BMICalculator.handleInputChange, BMICalculator.toggleUnits.
  destruct e as [v|v|v|v| |];
    try destruct (units (BMICalculator.inputs st)); try discriminate;
    intros [= <-];
    try (left; split; reflexivity);
    right; (split; [discriminate|]);
    try (match goal with
         | |- context [Form.handleInputChange ?h ?s ?v ?st] =>
             destruct (handleInputChange_cases h s v st) as [-> | [x ->]]
         end);
    repeat split.
Qed.

Lemma bmi_render_cases (old new : BMICalculator.State) :
  (BMICalculator.render old new = new /\
   weightKg (BMICalculator.inputs new) = weightKg (BMICalculator.inputs old) /\
   heightCm (BMICalculator.inputs new) = heightCm (BMICalculator.inputs old)) \/
  BMICalculator.render old new = BMICalculator.calculateBMI new.
Proof.
  unfold BMICalculator.render.
  destruct (same_field (weightKg (BMICalculator.inputs old))
              (weightKg (BMICalculator.inputs new))) eqn:Ew;
    [|right; apply bmi_recalculate_calculate].
  destruct (same_field (heightCm (BMICalculator.inputs old))
              (heightCm (BMICalculator.inputs new))) eqn:Eh;
    [|right; apply bmi_recalculate_calculate].
  left. apply same_field_eq in Ew, Eh. repeat split; congruence.
Qed.

Lemma bmi_step_fresh (e : BMICalculator.Event) (st st' : BMICalculator.State) :
  BMICalculator.step e st = Some st' -> bmi_fresh st -> bmi_fresh st'.
Proof.
  unfold BMICalculator.step.
  destruct (BMICalculator.handle e st) as [mid|] eqn:H; [|discriminate].
  cbn. intros [= <-] (F1 & F2 & F3).
  destruct (bmi_render_cases st mid) as [(-> & Ew & Eh) | ->];
    [|apply bmi_calculate_fresh].
  destruct (bmi_handle_cases e st mid H) as [(_ & ->) | (_ & B & K & S)];
    [apply bmi_calculate_fresh|].
  destruct (bmi_calculate_reads mid st Ew Eh) as (H1 & H2 & H3).
  split; [congruence|]. split; [congruence|]. rewrite S. discriminate.
Qed.

Lemma bmi_mount_fresh (ls : Storage) (st : BMICalculator.State) :
  BMICalculator.mount ls = Some st -> bmi_fresh st.
Proof.
  unfold BMICalculator.mount. intros H.
  repeat match type of H with
         | (mbind _ ?x) = Some _ => destruct x; [cbn in H|discriminate]
         end.
  injection H as <-. rewrite bmi_recalculate_calculate. apply bmi_calculate_fresh.
Qed.

Lemma bmi_visited_fresh (ls : Storage) (st : BMICalculator.State) :
  BMIView.visited ls st -> bmi_fresh st.
Proof.
  induction 1 as [st H | st e st' _ IH H].
  - exact (bmi_mount_fresh ls st H).
  - exact (bmi_step_fresh e st st' H IH).
Qed.


(** *** The TDEE component *)

Section TDEEFresh.
Variable nts : number -> string.

Definition tdee_fresh (st : FitnessCalculator.State) : Prop :=
  FitnessCalculator.tdee st
  = FitnessCalculator.tdee (FitnessCalculator.calculateTDEE nts st) /\
  (FitnessCalculator.showResult st = true -> TDEEView.isFormComplete st = true).

(** [calculateTDEE] reads the state through the five dependencies of the
    memo. *)
Lemma tdee_calculate_reads (a b : FitnessCalculator.State) :
  FitnessCalculator.age a = FitnessCalculator.age b ->
  FitnessCalculator.gender a = FitnessCalculator.gender b ->
  weightKg (FitnessCalculator.inputs a) = weightKg (FitnessCalculator.inputs b) ->
  heightCm (FitnessCalculator.inputs a) = heightCm (FitnessCalculator.inputs b) ->
  FitnessCalculator.activityLevel a = FitnessCalculator.activityLevel b ->
  FitnessCalculator.tdee (FitnessCalculator.calculateTDEE nts a)
  = FitnessCalculator.tdee (FitnessCalculator.calculateTDEE nts b) /\
  TDEEView.isFormComplete a = TDEEView.isFormComplete b.
Proof.
  unfold FitnessCalculator.calculateTDEE, TDEEView.isFormComplete.
  intros -> -> -> -> ->.
  destruct (FitnessCalculator.age b); [|split; reflexivity].
  destruct (weightKg (FitnessCalculator.inputs b)); [|split; reflexivity].
  destruct (heightCm (FitnessCalculator.inputs b)); split; reflexivity.
Qed.

Lemma tdee_calculate_shows (st : FitnessCalculator.State) :
  FitnessCalculator.showResult (FitnessCalculator.calculateTDEE nts st)
  = TDEEView.isFormComplete st.
Proof.
  unfold FitnessCalculator.calculateTDEE, TDEEView.isFormComplete.
  destruct (FitnessCalculator.age st); [|reflexivity].
  destruct (weightKg (FitnessCalculator.inputs st)); [|reflexivity].
  destruct (heightCm (FitnessCalculator.inputs st)); reflexivity.
Qed.

Lemma tdee_recalculate_calculate (st : FitnessCalculator.State) :
  FitnessCalculator.recalculate nts st = FitnessCalculator.calculateTDEE nts st.
Proof.
  unfold FitnessCalculator.recalculate, FitnessCalculator.calculateTDEE.
  destruct (FitnessCalculator.age st); [|reflexivity].
  destruct (weightKg (FitnessCalculator.inputs st)); [|reflexivity].
  destruct (heightCm (FitnessCalculator.inputs st)); reflexivity.
Qed.

Lemma tdee_calculate_keeps (st : FitnessCalculator.State) :
  FitnessCalculator.age (FitnessCalculator.calculateTDEE nts st) = FitnessCalculator.age st /\
  FitnessCalculator.gender (FitnessCalculator.calculateTDEE nts st)
  = FitnessCalculator.gender st /\
  FitnessCalculator.activityLevel (FitnessCalculator.calculateTDEE nts st)
  = FitnessCalculator.activityLevel st.
Proof.
  destruct st as [a g i l t s]. unfold FitnessCalculator.calculateTDEE.
  cbn [FitnessCalculator.age FitnessCalculator.inputs].
  destruct a; [|repeat split].
  destruct (weightKg i); [|repeat split].
  destruct (heightCm i); repeat split.
Qed.

Lemma tdee_calculate_fresh (st : FitnessCalculator.State) :
  tdee_fresh (FitnessCalculator.calculateTDEE nts st).
Proof.
  pose proof (tdee_calculate_inputs nts st) as Hi.
  destruct (tdee_calculate_keeps st) as (Ha & Hg & Hl).
  destruct (tdee_calculate_reads (FitnessCalculator.calculateTDEE nts st) st Ha Hg)
    as (H1 & H2); [rewrite Hi; reflexivity | rewrite Hi; reflexivity | exact Hl |].
  split; [symmetry; exact H1|].
  rewrite tdee_calculate_shows, H2. intros H. rewrite H. reflexivity.
Qed.

Lemma tdee_handle_cases (e : FitnessCalculator.Event) (st mid : FitnessCalculator.State) :
  FitnessCalculator.handle nts e st = Some mid ->
  (e = FitnessCalculator.SubmitForm /\ mid = FitnessCalculator.calculateTDEE nts st) \/
  (e <> FitnessCalculator.SubmitForm /\
   FitnessCalculator.tdee mid = FitnessCalculator.tdee st /\
   FitnessCalculator.showResult mid = false).
Proof.
  unfold FitnessCalculator.handle, FitnessCalculator.handleInputChange,
    FitnessCalculator.handleSelectChange, FitnessCalculator.toggleUnits.
  destruct e as [v|v|v|v|v|v|v| |];
    try destruct (units (FitnessCalculator.inputs st)); try discriminate;
    intros [= <-];
    try (left; split; reflexivity);
    right; (split; [discriminate|]);
    try (match goal with
         | |- context [Form.handleInputChange ?h ?s ?v ?st] =>
             destruct (handleInputChange_cases h s v st) as [-> | [x ->]]
         end);
    repeat split.
Qed.

Lemma tdee_render_cases (old new : FitnessCalculator.State) :
  (FitnessCalculator.render nts old new = new /\
   FitnessCalculator.age new = FitnessCalculator.age old /\
   FitnessCalculator.gender new = FitnessCalculator.gender old /\
   weightKg (FitnessCalculator.inputs new) = weightKg (FitnessCalculator.inputs old) /\
   heightCm (FitnessCalculator.inputs new) = heightCm (FitnessCalculator.inputs old) /\
   FitnessCalculator.activityLevel new = FitnessCalculator.activityLevel old) \/
  FitnessCalculator.render nts old new = FitnessCalculator.calculateTDEE nts new.
Proof.
  unfold FitnessCalculator.render.
  destruct (same_field (FitnessCalculator.age old) (FitnessCalculator.age new)) eqn:Ea;
    [|right; apply tdee_recalculate_calculate].
  destruct (same_value (FitnessCalculator.gender old) (FitnessCalculator.gender new)) eqn:Eg;
    [|right; apply tdee_recalculate_calculate].
  destruct (same_field (weightKg (FitnessCalculator.inputs old))
              (weightKg (FitnessCalculator.inputs new))) eqn:Ew;
    [|right; apply tdee_recalculate_calculate].
  destruct (same_field (heightCm (FitnessCalculator.inputs old))
              (heightCm (FitnessCalculator.inputs new))) eqn:Eh;
    [|right; apply tdee_recalculate_calculate].
  destruct (same_value (FitnessCalculator.activityLevel old)
              (FitnessCalculator.activityLevel new)) eqn:El;
    [|right; apply tdee_recalculate_calculate].
  left. apply same_field_eq in Ea, Ew, Eh. apply same_value_eq in Eg, El.
  repeat split; congruence.
Qed.

Lemma tdee_step_fresh (e : FitnessCalculator.Event) (st st' : FitnessCalculator.State) :
  FitnessCalculator.step nts e st = Some st' -> tdee_fresh st -> tdee_fresh st'.
Proof.
  unfold FitnessCalculator.step.
  destruct (FitnessCalculator.handle nts e st) as [mid|] eqn:H; [|discriminate].
  cbn. intros [= <-] (F1 & F2).
  destruct (tdee_render_cases st mid) as [(-> & Ea & Eg & Ew & Eh & El) | ->];
    [|apply tdee_calculate_fresh].
  destruct (tdee_handle_cases e st mid H) as [(_ & ->) | (_ & T & S)];
    [apply tdee_calculate_fresh|].
  destruct (tdee_calculate_reads mid st Ea Eg Ew Eh El) as (H1 & H2).
  split; [congruence|]. rewrite S. discriminate.
Qed.

Lemma tdee_mount_fresh (ls : Storage) (st : FitnessCalculator.State) :
  FitnessCalculator.mount nts ls = Some st -> tdee_fresh st.
Proof.
  unfold FitnessCalculator.mount. intros H.
  repeat match type of H with
         | (mbind _ ?x) = Some _ => destruct x; [cbn in H|discriminate]
         end.
  injection H as <-. rewrite tdee_recalculate_calculate. apply tdee_calculate_fresh.
Qed.

Lemma tdee_visited_fresh (ls : Storage) (st : FitnessCalculator.State) :
  TDEEView.visited nts ls st -> tdee_fresh st.
Proof.
  induction 1 as [st H | st e st' _ IH H].
  - exact (tdee_mount_fresh ls st H).
  - exact (tdee_step_fresh e st st' H IH).
Qed.

End TDEEFresh.

End Fresh.

(* ===================================================================== *)
(** ** Results along a visit *)
(* ===================================================================== *)

Section Visits.
Import Js Form Engine.
Local Open Scope float_scope.



(** A first visit of the BMI form: 70 kg and 175 cm typed. *)
Definition typedBMI : BMICalculator.State :=
  Eval vm_compute in
    default BMICalculator.initial
      (BMICalculator.run [BMICalculator.ChangeWeight "70"; BMICalculator.ChangeHeightCm "175"]
         BMICalculator.initial).

(** A first visit of the TDEE form: age 30, 80 kg, 180 cm and moderate
    activity. *)
Definition typedTDEE : FitnessCalculator.State :=
  Eval vm_compute in
    default FitnessCalculator.initial
      (FitnessCalculator.run noNumeral
         [FitnessCalculator.ChangeAge "30"; FitnessCalculator.ChangeWeight "80";
          FitnessCalculator.ChangeHeightCm "180";
          FitnessCalculator.SelectActivityLevel "moderate"]
         FitnessCalculator.initial).







Lemma bmi_calculate_hides (st : BMICalculator.State) :
  bmi_fresh st ->
  BMICalculator.calculateBMI st = BMICalculator.setShowResult (BMIView.isFormComplete st) st.
Proof.
  intros (H1 & H2 & _).
  pose proof (bmi_calculate_inputs st) as Hi. pose proof (bmi_calculate_shows st) as Hs.
  set (c := BMIView.isFormComplete st) in *. clearbody c.
  destruct (BMICalculator.calculateBMI st) as [i b k s], st as [i' b' k' s'].
  cbn in *. unfold BMICalculator.setShowResult. cbn. congruence.
Qed.


Lemma tdee_calculate_hides nts (st : FitnessCalculator.State) :
  tdee_fresh nts st ->
  FitnessCalculator.calculateTDEE nts st
  = FitnessCalculator.setShowResult (TDEEView.isFormComplete st) st.
Proof.
  intros (H1 & _).
  pose proof (tdee_calculate_inputs nts st) as Hi.
  pose proof (tdee_calculate_shows nts st) as Hs.
  destruct (tdee_calculate_keeps nts st) as (Ha & Hg & Hl).
  set (c := TDEEView.isFormComplete st) in *. clearbody c.
  destruct (FitnessCalculator.calculateTDEE nts st) as [a g i l t s],
    st as [a' g' i' l' t' s'].
  cbn in *. unfold FitnessCalculator.setShowResult. cbn. congruence.
Qed.








(** X4. An event other than a submit that leaves every value the formula
    reads as it was (a keystroke the pattern rejects, a number typed again
    in another spelling, an edit that the units make irrelevant) hides the
    result and keeps it as it was: neither recomputed nor cleared. *)
Theorem X4_unchanged_values_hide_result :
  forall (nts : number -> string),
    (forall (e : BMICalculator.Event) (b b' : BMICalculator.State),
       e <> BMICalculator.SubmitForm ->
       BMICalculator.step e b = Some b' ->
       weightKg (BMICalculator.inputs b') = weightKg (BMICalculator.inputs b) ->
       heightCm (BMICalculator.inputs b') = heightCm (BMICalculator.inputs b) ->
       BMICalculator.showResult b' = false /\
       BMICalculator.bmi b' = BMICalculator.bmi b /\
       BMICalculator.bmiCategoryKey b' = BMICalculator.bmiCategoryKey b) /\
    (forall (e : FitnessCalculator.Event) (t t' : FitnessCalculator.State),
       e <> FitnessCalculator.SubmitForm ->
       FitnessCalculator.step nts e t = Some t' ->
       FitnessCalculator.age t' = FitnessCalculator.age t ->
       FitnessCalculator.gender t' = FitnessCalculator.gender t ->
       weightKg (FitnessCalculator.inputs t') = weightKg (FitnessCalculator.inputs t) ->
       heightCm (FitnessCalculator.inputs t') = heightCm (FitnessCalculator.inputs t) ->
       FitnessCalculator.activityLevel t' = FitnessCalculator.activityLevel t ->
       FitnessCalculator.showResult t' = false /\
       FitnessCalculator.tdee t' = FitnessCalculator.tdee t).
Proof.
  intros nts. split.
  - intros e b b' He. unfold BMICalculator.step.
    destruct (BMICalculator.handle e b) as [mid|] eqn:H; [|discriminate].
    cbn. intros [= <-]. rewrite bmi_render_inputs. intros Ew Eh.
    unfold BMICalculator.render. rewrite Ew, Eh, !same_field_refl. cbn.
    destruct (bmi_handle_cases e b mid H) as [(E & _) | (_ & B & K & S)];
      [contradiction|].
    repeat split; assumption.
  - intros e t t' He. unfold FitnessCalculator.step.
    destruct (FitnessCalculator.handle nts e t) as [mid|] eqn:H; [|discriminate].
    cbn. intros [= <-]. rewrite tdee_render_inputs.
    destruct (tdee_handle_cases nts e t mid H) as [(E & _) | (_ & T & S)];
      [contradiction|].
    destruct (tdee_render_cases nts t mid) as [(-> & _) | R].
    + intros _ _ _ _ _. split; assumption.
    + rewrite R. destruct (tdee_calculate_keeps nts mid) as (-> & -> & ->).
      intros Ea Eg Ew Eh El.
      assert (R' : FitnessCalculator.render nts t mid = mid).
      { unfold FitnessCalculator.render.
        rewrite Ea, Eg, Ew, Eh, El, !same_field_refl, !same_value_refl. reflexivity. }
      rewrite <- R, R'. split; assumption.
Qed.

(** X4 at the BMI form that shows 22.9, when ["12.3.4"] is typed as the
    weight: the inputs stay, the result is hidden. *)
Lemma X4_unchanged_values_hide_result_witness :
  BMICalculator.showResult typedBMI = true /\
  (exists b',
      BMICalculator.step (BMICalculator.ChangeWeight "12.3.4") typedBMI = Some b' /\
      BMICalculator.inputs b' = BMICalculator.inputs typedBMI /\
      BMICalculator.showResult b' = false /\
      BMICalculator.bmi b' = Some 22.9).
Proof.
  split; [reflexivity|].
  destruct (BMICalculator.step (BMICalculator.ChangeWeight "12.3.4") typedBMI)
    as [b'|] eqn:E; [|vm_compute in E; discriminate].
  exists b'. split; [reflexivity|].
  assert (Hi : BMICalculator.inputs b' = BMICalculator.inputs typedBMI)
    by (vm_compute in E; injection E as <-; reflexivity).
  split; [exact Hi|].
  assert (He : BMICalculator.ChangeWeight "12.3.4" <> BMICalculator.SubmitForm)
    by discriminate.
  destruct (proj1 (X4_unchanged_values_hide_result noNumeral) _ typedBMI b' He E
              (f_equal weightKg Hi) (f_equal heightCm Hi)) as (H1 & H2 & _).
  split; [exact H1|]. rewrite H2. reflexivity.
Defined.

End Visits.

Section Selects.
Import Js Form Engine FitnessCalculator.
Local Open Scope float_scope.

Lemma existsb_eqb_In (v : string) (l : list string) :
  existsb (String.eqb v) l = true -> In v l.
Proof.
  intros H. apply existsb_exists in H. destruct H as (x & Hx & E).
  apply String.eqb_eq in E. subst. exact Hx.
Qed.

Lemma tdee_render_keeps nts (old new : State) :
  gender (render nts old new) = gender new /\
  activityLevel (render nts old new) = activityLevel new.
Proof.
  unfold render. destruct (_ && _); [split; reflexivity|].
  rewrite tdee_recalculate_calculate.
  destruct (tdee_calculate_keeps nts new) as (_ & Hg & Hl). split; assumption.
Qed.

(** An event leaves the gender and the activity level as they were, or is
    the select that sets one of them to the string it sends. *)
Lemma tdee_step_selects nts (e : Event) (st st' : State) :
  step nts e st = Some st' ->
  (gender st' = gender st \/ exists v, e = SelectGender v /\ gender st' = VStr v) /\
  (activityLevel st' = activityLevel st \/
   exists v, e = SelectActivityLevel v /\ activityLevel st' = VStr v).
Proof.
  unfold step. destruct (handle nts e st) as [mid|] eqn:H; [|discriminate].
  cbn. intros [= <-]. destruct (tdee_render_keeps nts st mid) as [-> ->].
  revert H. unfold handle, handleInputChange, handleSelectChange, toggleUnits.
  destruct e as [v|v|v|v|v|v|v| |];
    try destruct (units (inputs st)); try discriminate;
    intros [= <-];
    try (match goal with
         | |- context [Form.handleInputChange ?h ?s ?v ?st] =>
             destruct (handleInputChange_cases h s v st) as [-> | [x ->]]
         end);
    cbn; try (split; left; reflexivity);
    try (destruct (tdee_calculate_keeps nts st) as (_ & -> & ->); split; left; reflexivity).
  all: first [ split; [right; exists v; split; reflexivity | left; reflexivity]
             | split; [left; reflexivity | right; exists v; split; reflexivity] ].
Qed.

Lemma option_has_factor (k : string) :
  In k TDEEView.activityOptions ->
  exists f, activityFactors !! k = Some f /\ In (k, f) listedFactors.
Proof.
  intros H. cbn in H.
  repeat (destruct H as [<- | H];
          [eexists; split; [vm_compute; reflexivity | cbn; auto 8]|]).
  destruct H.
Qed.

(** X5. Every option of the activity select has a factor in
    [activityFactors], and every key of [activityFactors] is an option. On
    a first visit, as long as the radio inputs and the select send the
    values they are rendered with, the gender is one of the two radio values
    and the activity level one of the five options, so the factor read by
    [calculateTDEE] is always one of the five numbers, never a missing
    property. *)
Theorem X5_selects_stay_in_range :
  forall nts : number -> string,
    (forall k : string,
       In k TDEEView.activityOptions <-> is_Some (activityFactors !! k)) /\
    (forall st : State,
       TDEEPage.browsed nts st ->
       (exists g, In g TDEEView.genderRadios /\ gender st = VStr g) /\
       (exists k f, In k TDEEView.activityOptions /\ activityLevel st = VStr k /\
                    In (k, f) listedFactors /\
                    activityFactor nts (activityLevel st) = f)).
Proof.
  intros nts. split.
  - intros k. split.
    + intros H. destruct (option_has_factor k H) as (f & -> & _). eexists. reflexivity.
    + intros [f Hf]. destruct (In_dec string_dec k TDEEView.activityOptions) as [Hin|Hn];
        [exact Hin|].
      rewrite (activityFactors_other k Hn) in Hf. discriminate.
  - induction 1 as [|st e st' _ IH Ho Hs].
    + split.
      * exists "male"%string. split; [left; reflexivity | reflexivity].
      * exists "sedentary"%string, 1.2. split; [left; reflexivity|].
        split; [reflexivity|]. split; [left; reflexivity | vm_compute; reflexivity].
    + destruct IH as [(g & Hg & Eg) (k & f & Hk & Ek & Hf & Ef)].
      destruct (tdee_step_selects nts e st st' Hs) as [Sg Sl]. split.
      * destruct Sg as [-> | (v & -> & ->)]; [exists g; split; assumption|].
        exists v. split; [|reflexivity].
        exact (existsb_eqb_In v TDEEView.genderRadios Ho).
      * destruct Sl as [-> | (v & -> & ->)]; [exists k, f; repeat split; assumption|].
        apply (existsb_eqb_In v TDEEView.activityOptions) in Ho.
        destruct (option_has_factor v Ho) as (f' & _ & Hf').
        exists v, f'. split; [exact Ho|]. split; [reflexivity|]. split; [exact Hf'|].
        exact (activityFactor_listed nts v f' Hf').
Qed.

Lemma typedTDEE_browsed : TDEEPage.browsed noNumeral typedTDEE.
Proof.
  assert (H : forall es st st',
             TDEEPage.browsed noNumeral st -> forallb TDEEPage.offered es = true ->
             run noNumeral es st = Some st' -> TDEEPage.browsed noNumeral st').
  { induction es as [|e es IH]; intros st st' Hb Ho; cbn.
    - intros [= <-]. exact Hb.
    - cbn in Ho. apply andb_prop in Ho. destruct Ho as [Ho1 Ho2].
      destruct (step noNumeral e st) as [mid|] eqn:E; [|discriminate]. cbn.
      apply IH; [|exact Ho2]. exact (TDEEPage.browsed_step noNumeral st e mid Hb Ho1 E). }
  apply (H [ChangeAge "30"; ChangeWeight "80"; ChangeHeightCm "180";
            SelectActivityLevel "moderate"] initial).
  - apply TDEEPage.browsed_initial.
  - reflexivity.
  - vm_compute. reflexivity.
Defined.

(** X5 after age 30, 80 kg, 180 cm and moderate activity were entered. *)
Lemma X5_selects_stay_in_range_witness :
  TDEEPage.browsed noNumeral typedTDEE /\
  activityLevel typedTDEE = VStr "moderate" /\
  exists k f, In k TDEEView.activityOptions /\ activityLevel typedTDEE = VStr k /\
              In (k, f) listedFactors /\
              activityFactor noNumeral (activityLevel typedTDEE) = f.
Proof.
  split; [exact typedTDEE_browsed|]. split; [reflexivity|].
  exact (proj2 (proj2 (X5_selects_stay_in_range noNumeral) typedTDEE typedTDEE_browsed)).
Defined.

End Selects.

Section Reload.
Import Js Form Engine App.
Local Open Scope float_scope.

(** *** An object written and read back *)

(** The properties of an object as [JSON.stringify] and [JSON.parse] give
    them back. *)
Definition props (o : list (string * value)) : list (string * value) :=
  match rewritten (VObj o) with VObj l => l | _ => [] end.

Lemma rewritten_VObj (o : list (string * value)) : rewritten (VObj o) = VObj (props o).
Proof. reflexivity. Qed.

Lemma props_cons (k : string) (v : value) (o : list (string * value)) :
  props ((k, v) :: o)
  = match v with VUndefined => props o | _ => (k, rewritten v) :: props o end.
Proof. destruct v; reflexivity. Qed.

Lemma assoc_props_absent (k : string) (o : list (string * value)) :
  ~ In k (map fst o) -> assoc k (props o) = VUndefined.
Proof.
  induction o as [|[k' v] o IH]; intros H; [reflexivity|].
  rewrite props_cons. cbn [map fst In] in H.
  assert (Hk : String.eqb k k' = false) by (apply String.eqb_neq; intros ->; tauto).
  assert (Ho : assoc k (props o) = VUndefined) by (apply IH; tauto).
  destruct v; cbn [assoc]; rewrite ?Hk; exact Ho.
Qed.

(** Reading a property of an object that was written and read back gives
    the property as it is rewritten. *)
Lemma assoc_props (k : string) (o : list (string * value)) :
  List.NoDup (map fst o) -> assoc k (props o) = rewritten (assoc k o).
Proof.
  induction o as [|[k' v] o IH]; intros H; [reflexivity|].
  cbn [map fst] in H. apply List.NoDup_cons_iff in H. destruct H as [Hn Hd].
  rewrite props_cons. cbn [assoc].
  destruct (String.eqb_spec k k') as [->|Hk].
  - destruct v; cbn [assoc]; rewrite ?String.eqb_refl; try reflexivity.
    apply assoc_props_absent. exact Hn.
  - apply String.eqb_neq in Hk.
    destruct v; cbn [assoc]; rewrite ?Hk; apply IH; exact Hd.
Qed.

Lemma prop_rewritten (k : string) (o : list (string * value)) :
  List.NoDup (map fst o) -> prop (rewritten (VObj o)) k = rewritten (assoc k o).
Proof. intros H. rewrite rewritten_VObj. cbn [prop]. apply assoc_props. exact H. Qed.

Lemma is_string_units (u : Units) :
  (if is_string (rewritten (value_of_units u)) "imperial" then imperial else metric) = u.
Proof. destruct u; reflexivity. Qed.

Ltac distinct_keys :=
  cbn [map fst];
  repeat (apply List.NoDup_cons; [cbn [In]; intuition discriminate|]);
  apply List.NoDup_nil.

(** The objects the two components write. *)
Definition bmiObject (r : BMICalculator.BMICalculatorState) : list (string * value) :=
  [("weight", BMICalculator.Saved.weight r);
   ("heightCm", BMICalculator.Saved.heightCm r);
   ("heightFt", BMICalculator.Saved.heightFt r);
   ("heightIn", BMICalculator.Saved.heightIn r);
   ("units", value_of_units (BMICalculator.Saved.units r))]%string.

Definition tdeeObject (r : FitnessCalculator.FitnessCalculatorState) :
    list (string * value) :=
  [("age", FitnessCalculator.Saved.age r);
   ("gender", FitnessCalculator.Saved.gender r);
   ("weight", FitnessCalculator.Saved.weight r);
   ("height", FitnessCalculator.Saved.height r);
   ("activityLevel", FitnessCalculator.Saved.activityLevel r);
   ("units", value_of_units (FitnessCalculator.Saved.units r));
   ("heightIn", FitnessCalculator.Saved.heightIn r);
   ("heightFt", FitnessCalculator.Saved.heightFt r)]%string.

Lemma bmiObject_keys (r : BMICalculator.BMICalculatorState) :
  List.NoDup (map fst (bmiObject r)).
Proof. unfold bmiObject. distinct_keys. Qed.

Lemma tdeeObject_keys (r : FitnessCalculator.FitnessCalculatorState) :
  List.NoDup (map fst (tdeeObject r)).
Proof. unfold tdeeObject. distinct_keys. Qed.

Lemma bmiObject_is_object (r : BMICalculator.BMICalculatorState) :
  is_object (rewritten (VObj (bmiObject r))) = true.
Proof. reflexivity. Qed.

Lemma tdeeObject_is_object (r : FitnessCalculator.FitnessCalculatorState) :
  is_object (rewritten (VObj (tdeeObject r))) = true.
Proof. reflexivity. Qed.

(** What [loadBMIState] returns after a [saveBMIState] that succeeded,
    whatever the record holds. *)
Lemma bmi_load_after_save (r : BMICalculator.BMICalculatorState) (ls : Storage) :
  writable ls = true ->
  BMICalculator.loadBMIState (BMICalculator.saveBMIState r ls)
  = {| BMICalculator.Saved.weight :=
         nullish (rewritten (BMICalculator.Saved.weight r)) (VStr "");
       BMICalculator.Saved.heightCm :=
         nullish (rewritten (BMICalculator.Saved.heightCm r)) (VStr "");
       BMICalculator.Saved.heightFt :=
         nullish (rewritten (BMICalculator.Saved.heightFt r)) (VStr "");
       BMICalculator.Saved.heightIn :=
         nullish (rewritten (BMICalculator.Saved.heightIn r)) (VStr "");
       BMICalculator.Saved.units := BMICalculator.Saved.units r |}.
Proof.
  intros Hw. unfold BMICalculator.loadBMIState. rewrite (bmi_load_save r ls Hw).
  change (VObj _) with (VObj (bmiObject r)).
  rewrite (bmiObject_is_object r), !(prop_rewritten _ _ (bmiObject_keys r)).
  cbn [bmiObject assoc String.eqb Ascii.eqb Bool.eqb].
  rewrite is_string_units. reflexivity.
Qed.

Lemma tdee_load_after_save (r : FitnessCalculator.FitnessCalculatorState) (ls : Storage) :
  writable ls = true ->
  FitnessCalculator.loadState (FitnessCalculator.saveState r ls)
  = {| FitnessCalculator.Saved.age :=
         nullish (rewritten (FitnessCalculator.Saved.age r)) (VStr "");
       FitnessCalculator.Saved.gender :=
         nullish (rewritten (FitnessCalculator.Saved.gender r)) (VStr "male");
       FitnessCalculator.Saved.weight :=
         nullish (rewritten (FitnessCalculator.Saved.weight r)) (VStr "");
       FitnessCalculator.Saved.height :=
         nullish (rewritten (FitnessCalculator.Saved.height r)) (VStr "");
       FitnessCalculator.Saved.activityLevel :=
         nullish (rewritten (FitnessCalculator.Saved.activityLevel r)) (VStr "sedentary");
       FitnessCalculator.Saved.units := FitnessCalculator.Saved.units r;
       FitnessCalculator.Saved.heightIn :=
         nullish (rewritten (FitnessCalculator.Saved.heightIn r)) (VStr "");
       FitnessCalculator.Saved.heightFt :=
         nullish (rewritten (FitnessCalculator.Saved.heightFt r)) (VStr "") |}.
Proof.
  intros Hw. unfold FitnessCalculator.loadState. rewrite (tdee_load_save r ls Hw).
  change (VObj _) with (VObj (tdeeObject r)).
  rewrite (tdeeObject_is_object r), !(prop_rewritten _ _ (tdeeObject_keys r)).
  cbn [tdeeObject assoc String.eqb Ascii.eqb Bool.eqb].
  rewrite is_string_units. reflexivity.
Qed.

(** A slot that was saved and loaded. *)
Lemma field_kept (f : field) :
  field_of_value (nullish (rewritten (value_of_field f)) (VStr "")) = Some (kept f).
Proof.
  destruct f as [x|]; [|reflexivity]. cbn [value_of_field kept].
  change (rewritten (VNum x))
    with (if is_finite x then (if is_zero x then VNum zero else VNum x) else VNull).
  destruct (is_finite x); [|reflexivity]. destruct (is_zero x); reflexivity.
Qed.


(** *** The components after a reload *)

(** The BMI component as it mounts from what it saved in the state [b]. *)
Definition bmiReloaded (b : BMICalculator.State) : BMICalculator.State :=
  BMICalculator.recalculate (bmiOf (keptInputs (BMICalculator.inputs b))).

(** The TDEE component as it mounts from what it saved in the state [t]. *)
Definition tdeeReloaded (nts : number -> string) (t : FitnessCalculator.State) :
    FitnessCalculator.State :=
  FitnessCalculator.recalculate nts
    (tdeeOf (kept (FitnessCalculator.age t))
       (nullish (rewritten (FitnessCalculator.gender t)) (VStr "male"))
       (nullish (rewritten (FitnessCalculator.activityLevel t)) (VStr "sedentary"))
       (keptInputs (FitnessCalculator.inputs t))).

Lemma bmi_mount_after_save (b : BMICalculator.State) (ls : Storage) :
  writable ls = true ->
  BMICalculator.mount (BMICalculator.saveBMIState (BMICalculator.currentState b) ls)
  = Some (bmiReloaded b).
Proof.
  intros Hw. unfold BMICalculator.mount. rewrite (bmi_load_after_save _ ls Hw).
  unfold BMICalculator.currentState.
  cbn [BMICalculator.Saved.weight BMICalculator.Saved.heightCm BMICalculator.Saved.heightFt
       BMICalculator.Saved.heightIn BMICalculator.Saved.units].
  rewrite !field_kept. reflexivity.
Qed.

Lemma tdee_mount_after_save nts (t : FitnessCalculator.State) (ls : Storage) :
  writable ls = true ->
  FitnessCalculator.mount nts
    (FitnessCalculator.saveState (FitnessCalculator.currentState t) ls)
  = Some (tdeeReloaded nts t).
Proof.
  intros Hw. unfold FitnessCalculator.mount. rewrite (tdee_load_after_save _ ls Hw).
  unfold FitnessCalculator.currentState.
  cbn [FitnessCalculator.Saved.age FitnessCalculator.Saved.gender
       FitnessCalculator.Saved.weight FitnessCalculator.Saved.height
       FitnessCalculator.Saved.activityLevel FitnessCalculator.Saved.units
       FitnessCalculator.Saved.heightIn FitnessCalculator.Saved.heightFt].
  rewrite !field_kept. reflexivity.
Qed.

(** A component mounts the same from a storage the other has written. *)
Lemma bmi_mount_other (r : FitnessCalculator.FitnessCalculatorState) (ls : Storage) :
  BMICalculator.mount (FitnessCalculator.saveState r ls) = BMICalculator.mount ls.
Proof. unfold BMICalculator.mount. rewrite save_tdee_keeps_bmi. reflexivity. Qed.

Lemma tdee_mount_other nts (r : BMICalculator.BMICalculatorState) (ls : Storage) :
  FitnessCalculator.mount nts (BMICalculator.saveBMIState r ls)
  = FitnessCalculator.mount nts ls.
Proof. unfold FitnessCalculator.mount. rewrite save_bmi_keeps_tdee. reflexivity. Qed.

Lemma bmi_save_writable (r : BMICalculator.BMICalculatorState) (ls : Storage) :
  writable ls = true -> writable (BMICalculator.saveBMIState r ls) = true.
Proof. intros H. unfold BMICalculator.saveBMIState, setItem. rewrite H. reflexivity. Qed.

Lemma tdee_save_writable (r : FitnessCalculator.FitnessCalculatorState) (ls : Storage) :
  writable ls = true -> writable (FitnessCalculator.saveState r ls) = true.
Proof. intros H. unfold FitnessCalculator.saveState, setItem. rewrite H. reflexivity. Qed.

Lemma same_units_eq (a b : Units) : same_units a b = true -> a = b.
Proof. destruct a, b; try discriminate; reflexivity. Qed.

(** The storage holds what each component would save now. *)
Definition inSync (nts : number -> string) (p : Page) : Prop :=
  writable (localStorage p) = true /\
  BMICalculator.mount (localStorage p) = Some (bmiReloaded (bmiCalculator p)) /\
  FitnessCalculator.mount nts (localStorage p)
  = Some (tdeeReloaded nts (fitnessCalculator p)).

Lemma bmiEffect_cases (old new : BMICalculator.State) (ls : Storage) :
  (bmiEffect old new ls = ls /\ BMICalculator.inputs new = BMICalculator.inputs old) \/
  bmiEffect old new ls = BMICalculator.saveBMIState (BMICalculator.currentState new) ls.
Proof.
  unfold bmiEffect.
  destruct (BMICalculator.inputs old) as [u w cm ft inch],
    (BMICalculator.inputs new) as [u' w' cm' ft' inch'].
  cbn [units weightInput heightCmInput heightFtInput heightInInput].
  destruct (same_field w w') eqn:E1; [|right; reflexivity].
  destruct (same_field cm cm') eqn:E2; [|right; reflexivity].
  destruct (same_field ft ft') eqn:E3; [|right; reflexivity].
  destruct (same_field inch inch') eqn:E4; [|right; reflexivity].
  destruct (same_units u u') eqn:E5; [|right; reflexivity].
  left. apply same_field_eq in E1, E2, E3, E4. apply same_units_eq in E5.
  split; [reflexivity|congruence].
Qed.

Lemma tdeeEffect_cases (old new : FitnessCalculator.State) (ls : Storage) :
  (tdeeEffect old new ls = ls /\
   FitnessCalculator.age new = FitnessCalculator.age old /\
   FitnessCalculator.gender new = FitnessCalculator.gender old /\
   FitnessCalculator.inputs new = FitnessCalculator.inputs old /\
   FitnessCalculator.activityLevel new = FitnessCalculator.activityLevel old) \/
  tdeeEffect old new ls
  = FitnessCalculator.saveState (FitnessCalculator.currentState new) ls.
Proof.
  unfold tdeeEffect.
  destruct (FitnessCalculator.inputs old) as [u w cm ft inch],
    (FitnessCalculator.inputs new) as [u' w' cm' ft' inch'].
  cbn [units weightInput heightCmInput heightFtInput heightInInput].
  destruct (same_field (FitnessCalculator.age old) (FitnessCalculator.age new)) eqn:E0;
    [|right; reflexivity].
  destruct (same_value (FitnessCalculator.gender old) (FitnessCalculator.gender new))
    eqn:Eg; [|right; reflexivity].
  destruct (same_field w w') eqn:E1; [|right; reflexivity].
  destruct (same_field cm cm') eqn:E2; [|right; reflexivity].
  destruct (same_field ft ft') eqn:E3; [|right; reflexivity].
  destruct (same_field inch inch') eqn:E4; [|right; reflexivity].
  destruct (same_value (FitnessCalculator.activityLevel old)
              (FitnessCalculator.activityLevel new)) eqn:El; [|right; reflexivity].
  destruct (same_units u u') eqn:E5; [|right; reflexivity].
  left. apply same_field_eq in E0, E1, E2, E3, E4. apply same_units_eq in E5.
  apply same_value_eq in Eg, El.
  split; [reflexivity|]. repeat split; congruence.
Qed.

Lemma mount_inSync nts (ls : Storage) (p : Page) :
  writable ls = true -> App.mount nts ls = Some p -> inSync nts p.
Proof.
  intros Hw. unfold App.mount.
  destruct (FitnessCalculator.mount nts ls) as [t|]; [|discriminate].
  destruct (BMICalculator.mount ls) as [b|]; [|discriminate].
  cbn. intros [= <-]. unfold inSync. cbn [localStorage bmiCalculator fitnessCalculator].
  pose proof (tdee_save_writable (FitnessCalculator.currentState t) ls Hw) as Hw'.
  split; [apply bmi_save_writable; exact Hw'|].
  split; [apply bmi_mount_after_save; exact Hw'|].
  rewrite tdee_mount_other. apply tdee_mount_after_save. exact Hw.
Qed.

Lemma step_inSync nts (e : App.Event) (p p' : Page) :
  App.step nts e p = Some p' -> inSync nts p -> inSync nts p'.
Proof.
  intros Hs (Hw & Hb & Ht). destruct e as [e|e]; cbn [App.step] in Hs.
  - destruct (FitnessCalculator.step nts e (fitnessCalculator p)) as [t|]; [|discriminate].
    cbn in Hs. injection Hs as <-. unfold inSync.
    cbn [localStorage bmiCalculator fitnessCalculator].
    destruct (tdeeEffect_cases (fitnessCalculator p) t (localStorage p))
      as [(-> & Ea & Eg & Ei & El) | ->].
    + split; [exact Hw|]. split; [exact Hb|]. rewrite Ht.
      unfold tdeeReloaded. rewrite Ea, Eg, Ei, El. reflexivity.
    + split; [apply tdee_save_writable; exact Hw|].
      split; [rewrite bmi_mount_other; exact Hb|].
      apply tdee_mount_after_save. exact Hw.
  - destruct (BMICalculator.step e (bmiCalculator p)) as [b|]; [|discriminate].
    cbn in Hs. injection Hs as <-. unfold inSync.
    cbn [localStorage bmiCalculator fitnessCalculator].
    destruct (bmiEffect_cases (bmiCalculator p) b (localStorage p)) as [(-> & Ei) | ->].
    + split; [exact Hw|]. split; [|exact Ht]. rewrite Hb.
      unfold bmiReloaded. rewrite Ei. reflexivity.
    + split; [apply bmi_save_writable; exact Hw|].
      split; [apply bmi_mount_after_save; exact Hw|].
      rewrite tdee_mount_other. exact Ht.
Qed.

Lemma visited_inSync nts (ls : Storage) (p : Page) :
  writable ls = true -> App.visited nts ls p -> inSync nts p.
Proof.
  intros Hw. induction 1 as [p H | p e p' _ IH H].
  - exact (mount_inSync nts ls p Hw H).
  - exact (step_inSync nts e p p' H IH).
Qed.


Lemma app_run_visited nts (ls : Storage) (es : list App.Event) (p p' : Page) :
  App.visited nts ls p -> App.run nts es p = Some p' -> App.visited nts ls p'.
Proof.
  revert p. induction es as [|e es IH]; intros p Hv; cbn.
  - intros [= <-]. exact Hv.
  - destruct (App.step nts e p) as [mid|] eqn:E; [|discriminate]. cbn.
    apply IH. exact (App.visited_step nts ls p e mid Hv E).
Qed.





Lemma kept_exact (f : field) : exactField f -> kept f = f.
Proof.
  destruct f as [x|]; [|reflexivity]. intros [Hf Hz]. cbn [kept]. rewrite Hf.
  destruct (is_zero x) eqn:E; [|reflexivity].
  destruct (is_zero_cases x E) as [-> | ->]; [reflexivity|discriminate Hz].
Qed.

Lemma keptInputs_exact (i : Inputs) : exactForm i -> keptInputs i = i.
Proof.
  intros (H1 & H2 & H3 & H4). destruct i as [u w cm ft inch]. unfold keptInputs.
  cbn [units weightInput heightCmInput heightFtInput heightInInput] in *.
  rewrite !kept_exact by assumption. reflexivity.
Qed.

Lemma app_visited_components nts (ls : Storage) (p : Page) :
  App.visited nts ls p ->
  BMIView.visited ls (bmiCalculator p) /\ TDEEView.visited nts ls (fitnessCalculator p).
Proof.
  induction 1 as [p H | p e p' _ [IHb IHt] H].
  - unfold App.mount in H.
    destruct (FitnessCalculator.mount nts ls) as [t|] eqn:Et; [|discriminate].
    destruct (BMICalculator.mount ls) as [b|] eqn:Eb; [|discriminate].
    cbn in H. injection H as <-. cbn [bmiCalculator fitnessCalculator].
    split; [exact (BMIView.visited_mount ls b Eb) | exact (TDEEView.visited_mount nts ls t Et)].
  - destruct e as [e|e]; cbn [App.step] in H.
    + destruct (FitnessCalculator.step nts e (fitnessCalculator p)) as [t|] eqn:E;
        [|discriminate].
      cbn in H. injection H as <-. cbn [bmiCalculator fitnessCalculator].
      split; [exact IHb | exact (TDEEView.visited_step nts ls _ e t IHt E)].
    + destruct (BMICalculator.step e (bmiCalculator p)) as [b|] eqn:E; [|discriminate].
      cbn in H. injection H as <-. cbn [bmiCalculator fitnessCalculator].
      split; [exact (BMIView.visited_step ls _ e b IHb E) | exact IHt].
Qed.

(** [calculateBMI] is a function of the input slots; [calculateTDEE] of the
    age, the gender, the input slots and the activity level. *)
Lemma bmi_calculate_of_inputs (a b : BMICalculator.State) :
  BMICalculator.inputs a = BMICalculator.inputs b ->
  BMICalculator.calculateBMI a = BMICalculator.calculateBMI b.
Proof.
  intros H. unfold BMICalculator.calculateBMI, BMICalculator.noResult. rewrite H.
  reflexivity.
Qed.

Lemma tdee_calculate_of_inputs nts (a b : FitnessCalculator.State) :
  FitnessCalculator.age a = FitnessCalculator.age b ->
  FitnessCalculator.gender a = FitnessCalculator.gender b ->
  FitnessCalculator.inputs a = FitnessCalculator.inputs b ->
  FitnessCalculator.activityLevel a = FitnessCalculator.activityLevel b ->
  FitnessCalculator.calculateTDEE nts a = FitnessCalculator.calculateTDEE nts b.
Proof.
  intros H1 H2 H3 H4. unfold FitnessCalculator.calculateTDEE, FitnessCalculator.noResult.
  rewrite H1, H2, H3, H4. reflexivity.
Qed.

(** X7. When the slots of the two forms hold finite numbers (and the
    gender and the activity level are strings), reopening the page at any
    moment of a visit that started with a storage that can be written mounts
    each component in the state it has now, result included, the result
    shown whenever the form is complete: also when the last event had
    hidden it. *)
Theorem X7_reload_gives_the_same_state :
  forall (nts : number -> string) (ls : Storage) (p : Page) (g l : string),
    writable ls = true ->
    App.visited nts ls p ->
    exactForm (BMICalculator.inputs (bmiCalculator p)) ->
    exactField (FitnessCalculator.age (fitnessCalculator p)) ->
    exactForm (FitnessCalculator.inputs (fitnessCalculator p)) ->
    FitnessCalculator.gender (fitnessCalculator p) = VStr g ->
    FitnessCalculator.activityLevel (fitnessCalculator p) = VStr l ->
    BMICalculator.mount (localStorage p)
    = Some (BMICalculator.setShowResult (BMIView.isFormComplete (bmiCalculator p))
              (bmiCalculator p)) /\
    FitnessCalculator.mount nts (localStorage p)
    = Some (FitnessCalculator.setShowResult
              (TDEEView.isFormComplete (fitnessCalculator p)) (fitnessCalculator p)).
Proof.
  intros nts ls p g l Hw Hv Xb Xa Xt Eg El.
  destruct (visited_inSync nts ls p Hw Hv) as (_ & Hb & Ht).
  destruct (app_visited_components nts ls p Hv) as [Vb Vt].
  split.
  - rewrite Hb. unfold bmiReloaded. rewrite (keptInputs_exact _ Xb).
    rewrite bmi_recalculate_calculate.
    rewrite (bmi_calculate_of_inputs (bmiOf (BMICalculator.inputs (bmiCalculator p)))
               (bmiCalculator p) eq_refl).
    rewrite (bmi_calculate_hides _ (bmi_visited_fresh ls _ Vb)). reflexivity.
  - rewrite Ht. unfold tdeeReloaded. rewrite (keptInputs_exact _ Xt), (kept_exact _ Xa).
    rewrite Eg, El. cbn [rewritten nullish]. rewrite <- Eg, <- El.
    rewrite tdee_recalculate_calculate.
    rewrite (tdee_calculate_of_inputs nts
               (tdeeOf (FitnessCalculator.age (fitnessCalculator p))
                  (FitnessCalculator.gender (fitnessCalculator p))
                  (FitnessCalculator.activityLevel (fitnessCalculator p))
                  (FitnessCalculator.inputs (fitnessCalculator p)))
               (fitnessCalculator p) eq_refl eq_refl eq_refl eq_refl).
    rewrite (tdee_calculate_hides nts _ (tdee_visited_fresh nts ls _ Vt)). reflexivity.
Qed.

(** A visit: 70 kg and 175 cm typed into the BMI form, then a keystroke
    that is rejected, which hides the result; an age typed into the TDEE
    form in between. *)
Definition plainVisit : list App.Event :=
  [OnBMI (BMICalculator.ChangeWeight "70"); OnFitness (FitnessCalculator.ChangeAge "30");
   OnBMI (BMICalculator.ChangeHeightCm "175");
   OnBMI (BMICalculator.ChangeWeight "7o")].

(** X7 on that visit: the result 22.9 is hidden, and a reload shows it. *)
Lemma X7_reload_gives_the_same_state_witness :
  writable emptyStorage = true /\
  exists p,
    App.visited noNumeral emptyStorage p /\
    exactForm (BMICalculator.inputs (bmiCalculator p)) /\
    exactField (FitnessCalculator.age (fitnessCalculator p)) /\
    exactForm (FitnessCalculator.inputs (fitnessCalculator p)) /\
    BMICalculator.showResult (bmiCalculator p) = false /\
    (exists b,
        BMICalculator.mount (localStorage p) = Some b /\
        BMICalculator.bmi b = Some 22.9 /\ BMICalculator.showResult b = true).
Proof.
  split; [reflexivity|].
  assert (R : exists p,
             (p0 ← App.mount noNumeral emptyStorage; App.run noNumeral plainVisit p0)
             = Some p /\
             bmiCalculator p
             = {| BMICalculator.inputs := metricForm (Some 70) (Some 175);
                  BMICalculator.bmi := Some 22.9;
                  BMICalculator.bmiCategoryKey := Some "normalWeight"%string;
                  BMICalculator.showResult := false |} /\
             fitnessCalculator p
             = tdeeOf (Some 30) (VStr "male") (VStr "sedentary") (metricForm None None)).
  { eexists. split; [vm_compute; reflexivity|]. split; vm_compute; reflexivity. }
  destruct R as (p & R & Hb & Ht). exists p.
  destruct (App.mount noNumeral emptyStorage) as [p0|] eqn:E0; [|discriminate R].
  cbn [mbind option_bind] in R.
  pose proof (app_run_visited noNumeral emptyStorage plainVisit p0 p
                (App.visited_mount noNumeral emptyStorage p0 E0) R) as Hv.
  assert (Xb : exactForm (BMICalculator.inputs (bmiCalculator p)))
    by (rewrite Hb; repeat split; reflexivity).
  assert (Xa : exactField (FitnessCalculator.age (fitnessCalculator p)))
    by (rewrite Ht; repeat split; reflexivity).
  assert (Xt : exactForm (FitnessCalculator.inputs (fitnessCalculator p)))
    by (rewrite Ht; repeat split; reflexivity).
  split; [exact Hv|]. split; [exact Xb|]. split; [exact Xa|]. split; [exact Xt|].
  split; [rewrite Hb; reflexivity|].
  destruct (X7_reload_gives_the_same_state noNumeral emptyStorage p "male" "sedentary"
              eq_refl Hv Xb Xa Xt) as [Mb _]; [rewrite Ht; reflexivity ..|].
  eexists. split; [exact Mb|]. rewrite Hb. split; reflexivity.
Defined.

End Reload.

(* ===================================================================== *)
(** ** Feet and inches *)
(* ===================================================================== *)

Module Imperial.
Import Js Form Binary64 MathFacts Analysis.

(** The exponent of a finite number is the one of the format. *)
Lemma canonical_exponent (x : number) (m : positive) (e : Z) :
  Prim2SF x = S754_finite false m e ->
  e = Z.max (Zdigits2 (Zpos m) + e - 53) (-1074).
Proof.
  intros E. destruct (valid_finite x _ _ _ E) as (D & [D53 | Emin] & R); lia.
Qed.

(** Two positive numbers of the same value are the same number. *)
Lemma B2Q_inj (x y : number) (mx my : positive) (ex ey : Z) :
  Prim2SF x = S754_finite false mx ex ->
  Prim2SF y = S754_finite false my ey ->
  (B2Q x == B2Q y)%Q -> x = y.
Proof.
  intros Ex Ey V. unfold B2Q in V. rewrite Ex, Ey in V. cbn [SFvalue cond_Zopp] in V.
  pose proof (canonical_exponent x mx ex Ex) as Cx.
  pose proof (canonical_exponent y my ey Ey) as Cy.
  pose proof (F2Q_bounds (Zpos mx) ex ltac:(lia)) as [Lx Ux].
  pose proof (F2Q_bounds (Zpos my) ey ltac:(lia)) as [Ly Uy].
  assert (H1 : (bpow (Zdigits2 (Zpos mx) - 1 + ex) < bpow (Zdigits2 (Zpos my) + ey))%Q)
    by lra.
  assert (H2 : (bpow (Zdigits2 (Zpos my) - 1 + ey) < bpow (Zdigits2 (Zpos mx) + ex))%Q)
    by lra.
  apply bpow_lt_inv in H1, H2.
  assert (Ee : ex = ey) by lia. subst ey.
  assert (Em : Zpos mx = Zpos my).
  { unfold F2Q in V. pose proof (bpow_pos ex) as Hp.
    assert (V' : (inject_Z (Zpos mx) == inject_Z (Zpos my))%Q).
    { apply (Qmult_inj_r _ _ (bpow ex)); [lra | exact V]. }
    unfold Qeq, inject_Z in V'. cbn [Qnum Qden] in V'. lia. }
  injection Em as <-. apply Prim2SF_inj. congruence.
Qed.

Lemma normal_B2Q_inj (x y : number) : normal x -> normal y -> (B2Q x == B2Q y)%Q -> x = y.
Proof.
  intros (mx & ex & Ex & _) (my & ey & Ey & _). exact (B2Q_inj x y mx my ex ey Ex Ey).
Qed.

Lemma eqb_zeros (x y : number) (s s' : bool) :
  Prim2SF x = S754_zero s -> Prim2SF y = S754_zero s' -> (x =? y)%float = true.
Proof. intros Ex Ey. rewrite FloatAxioms.eqb_spec, Ex, Ey. destruct s, s'; reflexivity. Qed.

Lemma eqb_normal (x : number) : normal x -> (x =? x)%float = true.
Proof.
  intros (m & e & E & _). rewrite FloatAxioms.eqb_spec, E. unfold SFeqb. cbn.
  rewrite Z.compare_refl, Pos.compare_cont_refl. reflexivity.
Qed.

(** [Math.floor] and [Math.round] of a number that is zero or positive and
    below [2^52] are the integer of their specification as a number. *)
Lemma Math_floor_is (x : number) :
  nonneg x -> (B2Q x < bpow 52)%Q ->
  exists n : Z,
    0 <= n /\ (inject_Z n <= B2Q x)%Q /\ (B2Q x < inject_Z n + 1)%Q /\
    (Math_floor x =? Z2number n)%float = true.
Proof.
  intros Hx Hv. destruct (Math_floor_spec x Hx Hv) as (n & Hn & L & U & V & Z0 & Zp).
  exists n. split; [exact Hn|]. split; [exact L|]. split; [exact U|].
  destruct (Z.eq_dec n 0) as [->|N0].
  - destruct (Z0 eq_refl) as [s Es]. exact (eqb_zeros _ _ s false Es Z2number_zero).
  - assert (Un : n < 2 ^ 53).
    { assert (H : (inject_Z n < inject_Z (2 ^ 53))%Q).
      { change (inject_Z (2 ^ 53)) with (9007199254740992 # 1).
        change (bpow 52) with (4503599627370496 # 1) in Hv. lra. }
      rewrite <- Zlt_Qlt in H. exact H. }
    destruct (Z2number_value n ltac:(lia)) as [Nn Vn].
    rewrite (normal_B2Q_inj _ _ (Zp ltac:(lia)) Nn ltac:(rewrite V, Vn; reflexivity)).
    apply eqb_normal. exact Nn.
Qed.

Lemma Math_round_is (x : number) :
  nonneg x -> (B2Q x < bpow 52)%Q ->
  exists n : Z,
    0 <= n /\
    (inject_Z n <= B2Q x + (1 # 2))%Q /\ (B2Q x + (1 # 2) < inject_Z n + 1)%Q /\
    ((n = 0 /\ exists s, Prim2SF (Math_round x) = S754_zero s) \/
     (0 < n /\ Math_round x = Z2number n)).
Proof.
  intros Hx Hv. destruct (Math_round_spec x Hx Hv) as (n & Hn & L & U & V & Z0 & Zp).
  exists n. split; [exact Hn|]. split; [exact L|]. split; [exact U|].
  destruct (Z.eq_dec n 0) as [->|N0].
  - left. split; [reflexivity|]. exact (Z0 eq_refl).
  - right. split; [lia|].
    assert (Un : n < 2 ^ 53).
    { assert (H : (inject_Z n < inject_Z (2 ^ 53))%Q).
      { change (inject_Z (2 ^ 53)) with (9007199254740992 # 1).
        change (bpow 52) with (4503599627370496 # 1) in Hv. lra. }
      rewrite <- Zlt_Qlt in H. exact H. }
    destruct (Z2number_value n ltac:(lia)) as [Nn Vn].
    apply (normal_B2Q_inj _ _ (Zp ltac:(lia)) Nn). rewrite V, Vn. reflexivity.
Qed.

(** The integers from [lo] on, [n] of them. *)
Fixpoint upFrom (lo : Z) (n : nat) : list Z :=
  match n with
  | O => []
  | S n' => lo :: upFrom (lo + 1) n'
  end.

Lemma upFrom_In (n : nat) (lo k : Z) :
  (lo <= k < lo + Z.of_nat n)%Z -> In k (upFrom lo n).
Proof.
  revert lo. induction n as [|n IH]; intros lo H; [lia|].
  cbn [upFrom In]. destruct (Z.eq_dec lo k); [left; assumption|].
  right. apply IH. lia.
Qed.

(** A whole number of tenths up to 12.0, divided by 10, is the number its
    decimal numeral with one digit after the point reads as. *)
Lemma tenths_checked :
  forallb (fun n => (Z2number n / 10 =? decimal n 1)%float) (upFrom 1 120) = true.
Proof. vm_compute. reflexivity. Qed.

Lemma tenth_is (n : Z) :
  1 <= n <= 120 -> (Z2number n / 10 =? decimal n 1)%float = true.
Proof.
  intros H. pose proof tenths_checked as C. rewrite forallb_forall in C.
  apply (C n). apply upFrom_In. cbn. lia.
Qed.


(** The feet and the inches a height from 0.2 to 1000 cm is turned into:
    a whole number of feet and a whole number of tenths of an inch, at most
    12.0, that together are within 0.05 in of the height times 0.393701. *)
Lemma imperial_parts (h : number) :
  nonneg h -> (1 # 5 <= B2Q h)%Q -> (B2Q h <= 1000)%Q ->
  exists k n : Z,
    0 <= k <= 32 /\ 0 <= n <= 120 /\
    (Math_floor (h * CM_TO_IN / FT_TO_IN) =? Z2number k)%float = true /\
    (Math_round (rem (h * CM_TO_IN) FT_TO_IN * 10) / 10 =? decimal n 1)%float = true /\
    (inject_Z k * 12 + inject_Z n * (1 # 10) - (393701 # 1000000) * B2Q h
     <= (1 # 20) + (1 # 1000000000))%Q /\
    ((393701 # 1000000) * B2Q h - (inject_Z k * 12 + inject_Z n * (1 # 10))
     <= (1 # 20) + (1 # 1000000000))%Q.
Proof.
  intros Hh Lh Uh.
  pose proof big_900 as B9. pose proof eta_pos as E0. pose proof eta_small as E1.
  pose proof small_400 as S4.
  assert (L4 : (bpow (-1021) <= bpow (-400))%Q) by (apply bpow_le; lia).
  assert (NC : nonneg CM_TO_IN) by (eapply nonneg_constant; vm_compute; reflexivity).
  assert (N10 : nonneg 10%float) by (eapply nonneg_constant; vm_compute; reflexivity).
  assert (E12 : Prim2SF FT_TO_IN = S754_finite false 6755399441055744 (-49)) by reflexivity.
  assert (E10 : Prim2SF 10%float = S754_finite false 5629499534213120 (-49)) by reflexivity.
  (* the total of inches *)
  destruct (mul_value h CM_TO_IN Hh NC) as (Nt & At & Bt).
  { constant CM_TO_IN. lra. }
  set (t := (h * CM_TO_IN)%float) in *. pose proof (nonneg_value t Nt) as Pt.
  constant CM_TO_IN. unfold eps in At, Bt.
  destruct (nonneg_normal t Nt ltac:(lra)) as (mt & et & Et & Dt).
  (* feet and the rest *)
  destruct (rem_spec t FT_TO_IN mt _ et _ Et E12) as (k & Hk & Vr & Lr & Ur & Nr).
  { constant FT_TO_IN. lra. }
  set (r := rem t FT_TO_IN) in *. constant FT_TO_IN.
  destruct (quotient_floor t k Nt ltac:(lra) ltac:(lra) Hk ltac:(lra) ltac:(lra))
    as (Nq & Lq & Uq).
  set (q := (t / FT_TO_IN)%float) in *.
  destruct (Math_floor_is q Nq) as (n & Hn & Ln & Un & Ef).
  { change (bpow 52) with (4503599627370496 # 1). lra. }
  assert (n = k).
  { assert (X1 : (inject_Z n < inject_Z (k + 1))%Q)
      by (rewrite inject_Z_plus; change (inject_Z 1) with 1%Q; lra).
    assert (X2 : (inject_Z k < inject_Z (n + 1))%Q)
      by (rewrite inject_Z_plus; change (inject_Z 1) with 1%Q; lra).
    rewrite <- Zlt_Qlt in X1, X2. lia. }
  subst n.
  assert (Uk : k <= 32).
  { assert (X : (inject_Z k < inject_Z 33)%Q)
      by (change (inject_Z 33) with 33%Q; lra).
    rewrite <- Zlt_Qlt in X. lia. }
  (* inches *)
  destruct (mul_value r 10%float Nr N10) as (Nr10 & Ar & Br).
  { constant 10%float. lra. }
  set (r10 := (r * 10)%float) in *. pose proof (nonneg_value r10 Nr10) as Pr10.
  constant 10%float. unfold eps in Ar, Br.
  destruct (Math_round_is r10 Nr10) as (ni & Hni & Li & Ui & Ci).
  { change (bpow 52) with (4503599627370496 # 1). lra. }
  assert (Uni : ni <= 120).
  { assert (X : (inject_Z ni < inject_Z 121)%Q)
      by (change (inject_Z 121) with 121%Q; lra).
    rewrite <- Zlt_Qlt in X. lia. }
  exists k, ni. split; [lia|]. split; [lia|]. split; [exact Ef|]. split.
  - destruct Ci as [(-> & s & Es) | (Pn & ->)].
    + apply (eqb_zeros _ _ (xorb s false) false); [|reflexivity].
      rewrite FloatAxioms.div_spec, Es, E10. reflexivity.
    + apply tenth_is. lia.
  - split; lra.
Qed.

End Imperial.

Section FeetAndInches.
Import Js Form Engine Binary64 Analysis Imperial.
Local Open Scope float_scope.

(** X8. For every binary64 height from 0.2 to 1000 cm, the toggle from
    metric to imperial units stores a whole number of feet, at most 32, and
    a number of inches that is a whole number of tenths from 0.0 to 12.0,
    exactly as its numeral with one decimal reads; the feet and inches
    together are within 0.05 in (and a billionth) of the height times
    0.393701. The inches can be 12.0 but never more. *)
Theorem X8_toggle_gives_feet_and_tenths :
  forall (i : Inputs) (h : number) (qh : Q),
    units i = metric -> heightCmInput i = Some h ->
    exactValue h = Some qh -> (1 # 5 <= qh)%Q -> (qh <= 1000)%Q ->
    exists (ft inches : number) (k n : Z),
      heightFtInput (Form.toggleUnits i) = Some ft /\
      heightInInput (Form.toggleUnits i) = Some inches /\
      (0 <= k <= 32)%Z /\ (0 <= n <= 120)%Z /\
      (ft =? Z2number k) = true /\
      (inches =? decimal n 1) = true /\
      Qle_bool
        (Qabs (inject_Z k * 12 + inject_Z n * (1 # 10) - (393701 # 1000000) * qh))
        ((1 # 20) + (1 # 1000000000)) = true.
Proof.
  intros i h qh Hu Hh Eh Lh Uh.
  pose proof (exactValue_value h qh Eh) as Vh.
  assert (Nh : nonneg h) by (apply (exactValue_nonneg h qh Eh); lra).
  destruct (imperial_parts h Nh ltac:(lra) ltac:(lra))
    as (k & n & Hk & Hn & Ef & Ei & B1 & B2).
  exists (Math_floor (h * CM_TO_IN / FT_TO_IN)),
    (Math_round (rem (h * CM_TO_IN) FT_TO_IN * 10) / 10), k, n.
  destruct i as [u w cm ft inch]. cbn in Hu, Hh. subst u cm.
  split; [unfold Form.toggleUnits; cbn; destruct w; reflexivity|].
  split; [unfold Form.toggleUnits; cbn; destruct w; reflexivity|].
  split; [exact Hk|]. split; [exact Hn|]. split; [exact Ef|]. split; [exact Ei|].
  apply Qle_bool_iff. apply Qabs_Qle_condition. split; lra.
Qed.

(** X8 at 182.8 cm: 5 ft and 12.0 in. *)
Lemma X8_toggle_gives_feet_and_tenths_witness :
  exactValue 182.8 = Some (6431703217838490 # 35184372088832) /\
  (1 # 5 <= 6431703217838490 # 35184372088832)%Q /\
  (6431703217838490 # 35184372088832 <= 1000)%Q /\
  heightFtInput (Form.toggleUnits (metricForm None (Some 182.8))) = Some 5 /\
  heightInInput (Form.toggleUnits (metricForm None (Some 182.8))) = Some 12 /\
  exists (ft inches : number) (k n : Z),
    heightFtInput (Form.toggleUnits (metricForm None (Some 182.8))) = Some ft /\
    heightInInput (Form.toggleUnits (metricForm None (Some 182.8))) = Some inches /\
    (0 <= k <= 32)%Z /\ (0 <= n <= 120)%Z /\
    (ft =? Z2number k) = true /\
    (inches =? decimal n 1) = true /\
    Qle_bool
      (Qabs (inject_Z k * 12 + inject_Z n * (1 # 10)
             - (393701 # 1000000) * (6431703217838490 # 35184372088832)))
      ((1 # 20) + (1 # 1000000000)) = true.
Proof.
  assert (L : (1 # 5 <= 6431703217838490 # 35184372088832)%Q)
    by (apply Qle_bool_iff; reflexivity).
  assert (U : (6431703217838490 # 35184372088832 <= 1000)%Q)
    by (apply Qle_bool_iff; reflexivity).
  split; [reflexivity|]. split; [exact L|]. split; [exact U|].
  split; [reflexivity|]. split; [reflexivity|].
  exact (X8_toggle_gives_feet_and_tenths (metricForm None (Some 182.8)) 182.8
           (6431703217838490 # 35184372088832) eq_refl eq_refl eq_refl L U).
Defined.

End FeetAndInches.

(* ===================================================================== *)
(** ** The accuracy of the displayed BMI *)
(* ===================================================================== *)

Module Accuracy.
Import Js Form Binary64 MathFacts Analysis Imperial.

(** The formula of the BMI on rationals: kilograms over metres squared. *)
Definition bmiExact (qw qh : Q) : Q := (qw / ((qh / 100) * (qh / 100)))%Q.

Lemma square_le (a b : Q) : (0 <= a)%Q -> (a <= b)%Q -> (a * a <= b * b)%Q.
Proof. intros H1 H2. nra. Qed.

Lemma eqb_positive (x : number) :
  nonneg x -> (0 < B2Q x)%Q -> (x =? 0)%float = false.
Proof.
  intros H V. destruct (nonneg_cases x H) as [(s & E & V0) | (m & e & E & _)]; [lra|].
  rewrite FloatAxioms.eqb_spec, E. reflexivity.
Qed.

(** The rounded BMI of a weight from 1 to 1000 kg and a height from 30 to
    300 cm: a positive whole number of tenths, within 0.05 (and a billionth)
    of the exact quotient. *)
Lemma bmi_accurate (w h : number) (X : Q) :
  nonneg w -> nonneg h ->
  (1 <= B2Q w)%Q -> (B2Q w <= 1000)%Q -> (30 <= B2Q h)%Q -> (B2Q h <= 300)%Q ->
  (X * (B2Q h * B2Q h) == 10000 * B2Q w)%Q ->
  (h =? 0)%float = false /\
  exists n : Z,
    1 <= n /\
    Math_round (w / (h / 100 * (h / 100)) * 10)%float = Z2number n /\
    (inject_Z n * (1 # 10) - X <= (1 # 20) + (1 # 1000000000))%Q /\
    (X - inject_Z n * (1 # 10) <= (1 # 20) + (1 # 1000000000))%Q.
Proof.
  intros Nw Nh Lw Uw Lh Uh EX.
  pose proof big_900 as B9. pose proof eta_pos as E0. pose proof eta_small as E1.
  pose proof small_400 as S4.
  assert (B4 : (1000000000 <= bpow 400)%Q).
  { apply Qle_trans with (bpow 30); [vm_compute; discriminate | apply bpow_le; lia]. }
  assert (N100 : nonneg 100%float) by (eapply nonneg_constant; vm_compute; reflexivity).
  assert (N10 : nonneg 10%float) by (eapply nonneg_constant; vm_compute; reflexivity).
  split; [apply eqb_positive; [exact Nh | lra]|].
  set (W := B2Q w) in *. set (H := B2Q h) in *.
  (* metres *)
  destruct (div_value h 100%float (H * (1 # 100)) Nh N100) as (Na & Aa & Ba).
  { right. fold H. lra. }
  { fold H. lra. }
  { constant 100%float. lra. }
  { constant 100%float. lra. }
  { constant 100%float. fold H. ring. }
  set (hm := (h / 100)%float) in *. set (A := B2Q hm) in *.
  pose proof (nonneg_value hm Na) as Pa. fold A in Pa. unfold eps in Aa, Ba.
  (* metres squared *)
  destruct (mul_value hm hm Na Na) as (Ns & As & Bs).
  { fold A. assert (A * A <= 4 * 4)%Q by (apply square_le; lra). lra. }
  set (hm2 := (hm * hm)%float) in *. set (S := B2Q hm2) in *.
  fold A in As, Bs. unfold eps in As, Bs.
  set (K := (H * H * (1 # 10000))%Q).
  set (lo := ((9999999999999998 # 10000000000000000) * (H * (1 # 100)))%Q).
  set (hi := ((10000000000000002 # 10000000000000000) * (H * (1 # 100)))%Q).
  assert (HA1 : (lo * lo <= A * A)%Q) by (apply square_le; unfold lo; lra).
  assert (HA2 : (A * A <= hi * hi)%Q) by (apply square_le; unfold hi; lra).
  assert (Elo : (lo * lo == (9999999999999998 # 10000000000000000)
                            * (9999999999999998 # 10000000000000000) * K)%Q)
    by (unfold lo, K; ring).
  assert (Ehi : (hi * hi == (10000000000000002 # 10000000000000000)
                            * (10000000000000002 # 10000000000000000) * K)%Q)
    by (unfold hi, K; ring).
  assert (HK : (9 # 100 <= K)%Q).
  { assert (30 * 30 <= H * H)%Q by (apply square_le; lra). unfold K. lra. }
  assert (HK' : (K <= 9)%Q).
  { assert (H * H <= 300 * 300)%Q by (apply square_le; lra). unfold K. lra. }
  set (AA := (A * A)%Q) in *. clearbody AA. rewrite Elo in HA1. rewrite Ehi in HA2.
  assert (LS : ((999999999999999 # 1000000000000000) * K <= S)%Q) by lra.
  assert (US : (S <= (1000000000000001 # 1000000000000000) * K)%Q) by lra.
  (* the quotient *)
  assert (PS : (0 < S)%Q) by lra.
  set (v := (W / S)%Q).
  assert (Ev : (v * S == W)%Q) by (unfold v; field; lra).
  assert (Pv : (0 <= v)%Q).
  { unfold v. apply Qle_shift_div_l; [exact PS | lra]. }
  destruct (div_value w hm2 v Nw Ns) as (Nq & Aq & Bq).
  { right. fold W. lra. }
  { fold W. lra. }
  { fold S. lra. }
  { fold S. lra. }
  { fold S W. exact Ev. }
  set (q := (w / hm2)%float) in *. set (C := B2Q q) in *.
  pose proof (nonneg_value q Nq) as Pq. fold C in Pq. unfold eps in Aq, Bq.
  (* [v] and [X] *)
  assert (EXK : (X * K == W)%Q).
  { unfold K. setoid_replace (X * (H * H * (1 # 10000)))%Q
      with ((X * (H * H)) * (1 # 10000))%Q using relation Qeq by ring.
    rewrite EX. ring. }
  assert (PX : (0 <= X)%Q).
  { apply (Qmult_le_r _ _ K); [lra|]. rewrite EXK. lra. }
  assert (UX : (X <= 11112)%Q).
  { assert (X * (9 # 100) <= X * K)%Q by (apply Qmult_le_l_compat || nra). lra. }
  assert (V1 : ((999999999999999 # 1000000000000000) * v <= X)%Q).
  { apply (Qmult_le_r _ _ K); [lra|]. rewrite EXK, <- Ev.
    assert (v * ((999999999999999 # 1000000000000000) * K) <= v * S)%Q by nra. lra. }
  assert (V2 : (X <= (1000000000000001 # 1000000000000000) * v)%Q).
  { apply (Qmult_le_r _ _ K); [lra|]. rewrite EXK, <- Ev.
    assert (v * S <= v * ((1000000000000001 # 1000000000000000) * K))%Q by nra. lra. }
  (* tenths *)
  destruct (mul_value q 10%float Nq N10) as (Nd & Ad & Bd).
  { fold C. constant 10%float. lra. }
  set (d := (q * 10)%float) in *. set (D := B2Q d) in *.
  pose proof (nonneg_value d Nd) as Pd. fold D in Pd.
  fold C in Ad, Bd. constant 10%float. unfold eps in Ad, Bd.
  destruct (Math_round_is d Nd) as (n & Hn & Ln & Un & Cn).
  { fold D. change (bpow 52) with (4503599627370496 # 1). lra. }
  fold D in Ln, Un.
  exists n.
  assert (X9 : (1 <= X * 9)%Q).
  { assert (X * K <= X * 9)%Q by nra. lra. }
  assert (Pn : 1 <= n).
  { assert (Hq : (inject_Z 0 < inject_Z n)%Q) by (change (inject_Z 0) with 0%Q; lra).
    rewrite <- Zlt_Qlt in Hq. lia. }
  split; [exact Pn|]. split.
  - destruct Cn as [(-> & _) | (_ & E)]; [lia | exact E].
  - split; lra.
Qed.

End Accuracy.

Section BMIAccuracy.
Import Js Form Engine Binary64 Analysis Accuracy.
Local Open Scope float_scope.

(** X9. For every binary64 weight from 1 to 1000 kg and height from 30 to
    300 cm (the canonical values, in either unit system), [calculateBMI]
    shows a result, and the BMI it computes in floating point is [n / 10]
    for a whole number [n >= 1] of tenths within 0.05 (and a billionth) of
    the exact quotient kg / m^2: the exact BMI rounded to one decimal,
    never NaN, never infinite. *)
Theorem X9_bmi_is_the_rounded_quotient :
  forall (st : BMICalculator.State) (w h : number) (qw qh : Q),
    weightKg (BMICalculator.inputs st) = Some w ->
    heightCm (BMICalculator.inputs st) = Some h ->
    exactValue w = Some qw -> exactValue h = Some qh ->
    (1 <= qw)%Q -> (qw <= 1000)%Q -> (30 <= qh)%Q -> (qh <= 300)%Q ->
    exists n : Z,
      (1 <= n)%Z /\
      BMICalculator.bmi (BMICalculator.calculateBMI st) = Some (Z2number n / 10) /\
      BMICalculator.showResult (BMICalculator.calculateBMI st) = true /\
      Qle_bool (Qabs (inject_Z n * (1 # 10) - bmiExact qw qh))
        ((1 # 20) + (1 # 1000000000)) = true.
Proof.
  intros st w h qw qh Hw Hh Ew Eh Lw Uw Lh Uh.
  pose proof (exactValue_value w qw Ew) as Vw.
  pose proof (exactValue_value h qh Eh) as Vh.
  assert (Nw : nonneg w) by (apply (exactValue_nonneg w qw Ew); lra).
  assert (Nh : nonneg h) by (apply (exactValue_nonneg h qh Eh); lra).
  assert (EX : (bmiExact qw qh * (B2Q h * B2Q h) == 10000 * B2Q w)%Q).
  { rewrite <- Vw, <- Vh. unfold bmiExact. field. lra. }
  destruct (bmi_accurate w h (bmiExact qw qh) Nw Nh ltac:(lra) ltac:(lra) ltac:(lra)
              ltac:(lra) EX) as (Z0 & n & Hn & En & B1 & B2).
  exists n. split; [exact Hn|].
  unfold BMICalculator.calculateBMI. rewrite Hw, Hh, Z0.
  cbn [BMICalculator.bmi BMICalculator.showResult]. rewrite En.
  split; [reflexivity|]. split; [reflexivity|].
  apply Qle_bool_iff. apply Qabs_Qle_condition. split; lra.
Qed.

(** X9 at 70 kg and 175 cm: 22.9, for an exact quotient of 22.857... *)
Lemma X9_bmi_is_the_rounded_quotient_witness :
  exactValue 70 = Some (4925812092436480 # 70368744177664) /\
  exactValue 175 = Some (6157265115545600 # 35184372088832) /\
  BMICalculator.bmi (BMICalculator.calculateBMI exampleBMI) = Some (Z2number 229 / 10) /\
  exists n : Z,
    (1 <= n)%Z /\
    BMICalculator.bmi (BMICalculator.calculateBMI exampleBMI) = Some (Z2number n / 10) /\
    BMICalculator.showResult (BMICalculator.calculateBMI exampleBMI) = true /\
    Qle_bool
      (Qabs (inject_Z n * (1 # 10)
             - bmiExact (4925812092436480 # 70368744177664)
                 (6157265115545600 # 35184372088832)))
      ((1 # 20) + (1 # 1000000000)) = true.
Proof.
  split; [reflexivity|]. split; [reflexivity|]. split; [vm_compute; reflexivity|].
  apply (X9_bmi_is_the_rounded_quotient exampleBMI 70 175
           (4925812092436480 # 70368744177664) (6157265115545600 # 35184372088832)
           eq_refl eq_refl eq_refl eq_refl);
    apply Qle_bool_iff; reflexivity.
Defined.

End BMIAccuracy.

(* ===================================================================== *)
(** ** Numbers that are never negative *)
(* ===================================================================== *)

(** The sign of what the operations return, read from their
    specifications: the product, the quotient and the sum of two numbers
    whose sign bit is clear have a clear sign bit, or are NaN, whatever the
    rounding, the overflow or the underflow. *)
Module Signs.
Import Js.

(** A zero, an infinity or a finite number of sign [s]. *)
Definition signed_as (s : bool) (x : spec_float) : Prop :=
  match x with
  | S754_zero s' | S754_infinity s' | S754_finite s' _ _ => s' = s
  | S754_nan => False
  end.

(** NaN, or a number whose sign bit is clear. *)
Definition unsigned (x : spec_float) : Prop :=
  match x with
  | S754_nan => True
  | _ => signed_as false x
  end.

Lemma signed_unsigned (x : spec_float) : signed_as false x -> unsigned x.
Proof. destruct x; cbn; tauto. Qed.

Lemma shr_1_nonneg (mrs : shr_record) : 0 <= shr_m mrs -> 0 <= shr_m (shr_1 mrs).
Proof.
  destruct mrs as [m r s]. cbn [shr_m]. intros H.
  destruct m as [|[p|p|]|p]; cbn; lia.
Qed.

Lemma iter_shr_1_nonneg (n : positive) (mrs : shr_record) :
  0 <= shr_m mrs -> 0 <= shr_m (SpecFloat.iter_pos shr_1 n mrs).
Proof.
  revert mrs. induction n as [n IH|n IH|]; intros mrs H; cbn [SpecFloat.iter_pos].
  - apply IH, IH, shr_1_nonneg, H.
  - apply IH, IH, H.
  - apply shr_1_nonneg, H.
Qed.

Lemma shr_fexp_nonneg (m e : Z) (l : location) :
  0 <= m -> 0 <= shr_m (fst (shr_fexp prec emax m e l)).
Proof.
  intros H. unfold shr_fexp, shr.
  assert (H0 : 0 <= shr_m (shr_record_of_loc m l)).
  { unfold shr_record_of_loc. destruct l as [|[]]; cbn [shr_m]; exact H. }
  destruct (SpecFloat.fexp prec emax (Zdigits2 m + e) - e); cbn [fst];
    [exact H0 | apply iter_shr_1_nonneg; exact H0 | exact H0].
Qed.

Lemma round_nearest_even_nonneg (m : Z) (l : location) :
  0 <= m -> 0 <= round_nearest_even m l.
Proof.
  intros H. unfold round_nearest_even.
  destruct l as [|[]]; try destruct (Z.even m); lia.
Qed.

(** The rounding keeps the sign it is given. *)
Lemma binary_round_aux_sign (s : bool) (m e : Z) (l : location) :
  0 <= m -> signed_as s (binary_round_aux prec emax s m e l).
Proof.
  intros H. unfold binary_round_aux.
  pose proof (shr_fexp_nonneg m e l H) as H1.
  destruct (shr_fexp prec emax m e l) as [mrs' e']. cbn [fst] in H1.
  pose proof (shr_fexp_nonneg _ e' loc_Exact
                (round_nearest_even_nonneg _ (loc_of_shr_record mrs') H1)) as H2.
  destruct (shr_fexp prec emax _ e' loc_Exact) as [mrs'' e'']. cbn [fst] in H2.
  destruct (shr_m mrs'') as [|p|p]; [reflexivity | | lia].
  destruct (e'' <=? emax - prec); reflexivity.
Qed.

Lemma binary_round_sign (s : bool) (m : positive) (e : Z) :
  signed_as s (binary_round prec emax s m e).
Proof.
  unfold binary_round. destruct (shl_align m e _) as [mz ez].
  apply binary_round_aux_sign. lia.
Qed.

Lemma binary_normalize_unsigned (m e : Z) :
  0 <= m -> unsigned (binary_normalize prec emax m e false).
Proof.
  intros H. unfold binary_normalize. destruct m as [|p|p]; [exact eq_refl | | lia].
  apply signed_unsigned, binary_round_sign.
Qed.

Lemma SFldexp_unsigned (x : spec_float) (e : Z) :
  unsigned x -> unsigned (SFldexp prec emax x e).
Proof.
  destruct x as [s|s| |s m ex]; cbn [SFldexp]; try (intros H; exact H).
  cbn. intros ->. apply signed_unsigned, binary_round_sign.
Qed.

(** A specification whose sign bit is clear gives a number whose sign bit
    is clear, also when its mantissa or its exponent is out of the
    format. *)
Lemma SF2Prim_unsigned (x : spec_float) : unsigned x -> unsigned (Prim2SF (SF2Prim x)).
Proof.
  destruct x as [s|s| |s m e]; cbn [unsigned signed_as SF2Prim].
  - intros ->. exact eq_refl.
  - intros ->. exact eq_refl.
  - intros _. exact I.
  - intros ->. rewrite Z_ldexp_spec, of_uint63_spec.
    apply SFldexp_unsigned, binary_normalize_unsigned.
    apply Uint63.to_Z_bounded.
Qed.

Lemma mul_unsigned (x y : number) :
  unsigned (Prim2SF x) -> unsigned (Prim2SF y) -> unsigned (Prim2SF (x * y)).
Proof.
  rewrite FloatAxioms.mul_spec. unfold SF64mul.
  destruct (Prim2SF x) as [sx|sx| |sx mx ex], (Prim2SF y) as [sy|sy| |sy my ey];
    cbn [unsigned signed_as SFmul]; try tauto; try (intros -> ->; reflexivity).
  intros -> ->. apply signed_unsigned, binary_round_aux_sign. lia.
Qed.

Lemma div_core_nonneg (m1 e1 m2 e2 : Z) :
  0 < m1 -> 0 < m2 ->
  0 <= fst (fst (SFdiv_core_binary prec emax m1 e1 m2 e2)).
Proof.
  intros H1 H2. unfold SFdiv_core_binary.
  set (s := e1 - e2 - _).
  set (m' := match s with 0 => m1 | Zpos _ => Z.shiftl m1 s | Zneg _ => 0 end).
  assert (Hm : 0 <= m').
  { unfold m'. destruct s; [lia | apply Z.shiftl_nonneg; lia | lia]. }
  pose proof (Z_div_mod m' m2 ltac:(lia)) as Hd.
  change IntDef.Z.div_eucl with Z.div_eucl.
  destruct (Z.div_eucl m' m2) as [q r]. cbn [fst]. nia.
Qed.

Lemma div_unsigned (x y : number) :
  unsigned (Prim2SF x) -> unsigned (Prim2SF y) -> unsigned (Prim2SF (x / y)).
Proof.
  rewrite FloatAxioms.div_spec. unfold SF64div.
  destruct (Prim2SF x) as [sx|sx| |sx mx ex], (Prim2SF y) as [sy|sy| |sy my ey];
    cbn [unsigned signed_as SFdiv]; try tauto; try (intros -> ->; reflexivity).
  intros -> ->.
  pose proof (div_core_nonneg (Zpos mx) ex (Zpos my) ey ltac:(lia) ltac:(lia)) as H.
  destruct (SFdiv_core_binary prec emax (Zpos mx) ex (Zpos my) ey) as [[mz ez] lz].
  cbn [fst] in H. apply signed_unsigned, binary_round_aux_sign. exact H.
Qed.

Lemma add_unsigned (x y : number) :
  unsigned (Prim2SF x) -> unsigned (Prim2SF y) -> unsigned (Prim2SF (x + y)).
Proof.
  rewrite FloatAxioms.add_spec. unfold SF64add.
  destruct (Prim2SF x) as [sx|sx| |sx mx ex], (Prim2SF y) as [sy|sy| |sy my ey];
    cbn [unsigned signed_as SFadd]; try tauto; try (intros -> ->; reflexivity).
  intros -> ->. cbn [cond_Zopp]. apply binary_normalize_unsigned. lia.
Qed.

Lemma Z2number_unsigned (n : Z) : 0 <= n -> unsigned (Prim2SF (Z2number n)).
Proof. intros H. apply SF2Prim_unsigned, binary_normalize_unsigned, H. Qed.

Lemma Math_round_unsigned (x : number) :
  unsigned (Prim2SF x) -> unsigned (Prim2SF (Math_round x)).
Proof.
  intros H. unfold Math_round.
  destruct (Prim2SF x) as [s|s| |s m e] eqn:E; try (rewrite E; exact H).
  cbn in H. subst s. destruct (0 <=? e); [rewrite E; reflexivity|].
  cbv zeta. cbn [cond_Zopp].
  set (n := Z.shiftr _ _).
  assert (Hn : 0 <= n).
  { unfold n. apply Z.shiftr_nonneg.
    assert (0 <= 2 ^ (- e)) by (apply Z.pow_nonneg; lia). lia. }
  destruct (n =? 0); [reflexivity|]. apply Z2number_unsigned. exact Hn.
Qed.

Lemma Math_floor_unsigned (x : number) :
  unsigned (Prim2SF x) -> unsigned (Prim2SF (Math_floor x)).
Proof.
  intros H. unfold Math_floor.
  destruct (Prim2SF x) as [s|s| |s m e] eqn:E; try (rewrite E; exact H).
  cbn in H. subst s. destruct (0 <=? e); [rewrite E; reflexivity|].
  cbn [cond_Zopp]. apply Z2number_unsigned. apply Z.shiftr_nonneg. lia.
Qed.

Lemma rem_unsigned (x y : number) :
  unsigned (Prim2SF x) -> unsigned (Prim2SF (rem x y)).
Proof.
  intros H. unfold rem.
  destruct (Prim2SF x) as [sx|sx| |sx mx ex] eqn:Ex, (Prim2SF y) as [sy|sy| |sy my ey];
    try exact I; try (rewrite Ex; exact H).
  cbn in H. subst sx. cbv zeta. cbn [cond_Zopp].
  apply SF2Prim_unsigned, binary_normalize_unsigned.
  apply Z.mod_pos_bound. rewrite Z.shiftl_mul_pow2 by lia.
  assert (0 < 2 ^ (ey - Z.min ex ey)) by (apply Z.pow_pos_nonneg; lia). lia.
Qed.

Lemma decimal_unsigned (N : Z) (k : nat) : unsigned (Prim2SF (decimal N k)).
Proof.
  unfold decimal. destruct N as [|p|p]; try reflexivity.
  apply SF2Prim_unsigned. cbn [SFdiv xorb].
  set (d := Z.to_pos (10 ^ Z.of_nat k)).
  pose proof (div_core_nonneg (Zpos p) 0 (Zpos d) 0 ltac:(lia) ltac:(lia)) as H.
  destruct (SFdiv_core_binary prec emax (Zpos p) 0 (Zpos d) 0) as [[mz ez] lz].
  cbn [fst] in H. apply signed_unsigned, binary_round_aux_sign. exact H.
Qed.

Lemma Number_unsigned (s : string) : unsigned (Prim2SF (Number s)).
Proof.
  unfold Number. destruct (digits s 0 0) as [[i ni] r].
  destruct r as [|c r'].
  - destruct ni; [reflexivity | apply decimal_unsigned].
  - destruct (Ascii.eqb_spec c "."%char) as [->|Hc].
    + destruct (digits r' 0 0) as [[f nf] r''].
      destruct r''; [|exact I].
      destruct (ni + nf)%nat; [exact I | apply decimal_unsigned].
    + destruct c as [[] [] [] [] [] [] [] []]; try exact I. contradiction.
Qed.

(** What JavaScript sees of a clear sign bit: [x < 0] is false, and [x] is
    not the negative zero. *)
Definition notNegative (x : number) : bool :=
  negb (x <? 0)%float && negb (PrimFloat.Leibniz.eqb x neg_zero).

Lemma unsigned_notNegative (x : number) :
  unsigned (Prim2SF x) -> notNegative x = true.
Proof.
  intros H. unfold notNegative. apply andb_true_intro. split.
  - rewrite FloatAxioms.ltb_spec. change (Prim2SF 0) with (S754_zero false).
    destruct (Prim2SF x) as [s|s| |s m e]; try reflexivity; cbn in H; subst s; reflexivity.
  - destruct (PrimFloat.Leibniz.eqb x neg_zero) eqn:E; [|reflexivity].
    apply FloatAxioms.Leibniz.eqb_spec in E. subst x. discriminate H.
Qed.

End Signs.

Section NeverNegative.
Import Js Form Engine Signs.
Local Open Scope float_scope.

Definition unsignedField (f : field) : Prop :=
  match f with None => True | Some x => unsigned (Prim2SF x) end.

Definition unsignedForm (i : Inputs) : Prop :=
  unsignedField (weightInput i) /\ unsignedField (heightCmInput i) /\
  unsignedField (heightFtInput i) /\ unsignedField (heightInInput i).

(** A slot that is absent or holds a number that is not negative. *)
Definition notNegativeField (f : field) : bool :=
  match f with None => true | Some x => notNegative x end.

Lemma unsignedField_notNegative (f : field) :
  unsignedField f -> notNegativeField f = true.
Proof. destruct f as [x|]; [apply unsigned_notNegative | reflexivity]. Qed.

Lemma default_unsigned (f : field) :
  unsignedField f -> unsigned (Prim2SF (default 0 f)).
Proof. destruct f as [x|]; [tauto | reflexivity]. Qed.

Ltac unsigned_ops :=
  repeat match goal with
    | |- unsigned (Prim2SF (PrimFloat.mul _ _)) => apply mul_unsigned
    | |- unsigned (Prim2SF (PrimFloat.div _ _)) => apply div_unsigned
    | |- unsigned (Prim2SF (PrimFloat.add _ _)) => apply add_unsigned
    | |- unsigned (Prim2SF (Math_round _)) => apply Math_round_unsigned
    | |- unsigned (Prim2SF (Math_floor _)) => apply Math_floor_unsigned
    | |- unsigned (Prim2SF (rem _ _)) => apply rem_unsigned
    | |- unsigned (Prim2SF (default _ _)) => apply default_unsigned
    | |- unsigned (Prim2SF _) => first [assumption | exact (eq_refl false)]
    | |- unsignedField _ => assumption
    end.

Lemma toggleUnits_unsigned (i : Inputs) :
  unsignedForm i -> unsignedForm (Form.toggleUnits i).
Proof.
  destruct i as [u w cm ft inch]. unfold unsignedForm, Form.toggleUnits.
  cbn [units weightInput heightCmInput heightFtInput heightInInput].
  intros (Hw & Hc & Hf & Hi). destruct u; cbn [setUnits units].
  - destruct w as [w|], cm as [cm|];
      cbn [setWeightInput setHeightCmInput setHeightFtInput setHeightInInput
           units weightInput heightCmInput heightFtInput heightInInput unsignedField] in *;
      repeat split; unsigned_ops.
  - destruct ((0 <? default 0 ft) || (0 <? default 0 inch)); destruct w as [w|];
      cbn [setWeightInput setHeightCmInput setHeightFtInput setHeightInInput
           units weightInput heightCmInput heightFtInput heightInInput unsignedField] in *;
      repeat split; unsigned_ops.
Qed.

(** The canonical values of a form whose slots are not negative are not
    negative. *)
Lemma canonical_unsigned (i : Inputs) :
  unsignedForm i -> unsignedField (weightKg i) /\ unsignedField (heightCm i).
Proof.
  destruct i as [u w cm ft inch]. unfold unsignedForm, weightKg, heightCm.
  cbn [units weightInput heightCmInput heightFtInput heightInInput].
  intros (Hw & Hc & Hf & Hi). split.
  - destruct w as [w|]; [|exact I]. destruct u; cbn [unsignedField] in *; unsigned_ops.
  - destruct u; [exact Hc|].
    destruct ft as [ft|], inch as [inch|]; cbn [unsignedField default] in *;
      try exact I; unsigned_ops.
Qed.

Lemma bmi_calculate_unsigned (st : BMICalculator.State) :
  unsignedForm (BMICalculator.inputs st) ->
  unsignedField (BMICalculator.bmi (BMICalculator.calculateBMI st)).
Proof.
  intros H. destruct (canonical_unsigned _ H) as [Hw Hh].
  unfold BMICalculator.calculateBMI.
  destruct (weightKg (BMICalculator.inputs st)) as [w|]; [|exact I].
  destruct (heightCm (BMICalculator.inputs st)) as [h|]; [|exact I].
  destruct (h =? 0); [exact I|].
  cbn [BMICalculator.bmi unsignedField] in *. unsigned_ops.
Qed.

(** What the input handler leaves in a slot. *)
Lemma handleInputChange_values {S : Type} (hide : bool -> S -> S)
    (setter : field -> S -> S) (value : string) (st : S) :
  Form.handleInputChange hide setter value st = hide false st \/
  Form.handleInputChange hide setter value st = hide false (setter None st) \/
  Form.handleInputChange hide setter value st
  = hide false (setter (Some (Number value)) st).
Proof.
  unfold Form.handleInputChange.
  destruct (String.eqb value "" || numericPattern_test value); [|left; reflexivity].
  destruct (String.eqb value ""); [right; left | right; right]; reflexivity.
Qed.

Lemma typed_unsigned (value : string) (v : field) :
  v = None \/ v = Some (Number value) -> unsignedField v.
Proof. intros [-> | ->]; [exact I | apply Number_unsigned]. Qed.

Lemma bmi_handle_unsigned (e : BMICalculator.Event) (st mid : BMICalculator.State) :
  BMICalculator.handle e st = Some mid ->
  unsignedForm (BMICalculator.inputs st) -> unsignedForm (BMICalculator.inputs mid).
Proof.
  unfold BMICalculator.handle, BMICalculator.handleInputChange, BMICalculator.toggleUnits.
  intros H U.
  destruct e as [v|v|v|v| |];
    try destruct (units (BMICalculator.inputs st)); try discriminate;
    injection H as <-;
    try (match goal with
         | |- context [Form.handleInputChange ?h ?s ?v ?st] =>
             destruct (handleInputChange_values h s v st) as [-> | [-> | ->]]
         end);
    cbn [BMICalculator.setShowResult BMICalculator.setInputs BMICalculator.inputs];
    try exact U;
    try (rewrite bmi_calculate_inputs; exact U);
    try (apply toggleUnits_unsigned; exact U);
    destruct U as (Hw & Hc & Hf & Hi); unfold unsignedForm;
    cbn [setWeightInput setHeightCmInput setHeightFtInput setHeightInInput
         weightInput heightCmInput heightFtInput heightInInput unsignedField];
    repeat split; try assumption; apply Number_unsigned.
Qed.

Lemma bmi_step_unsigned (e : BMICalculator.Event) (st st' : BMICalculator.State) :
  BMICalculator.step e st = Some st' ->
  unsignedForm (BMICalculator.inputs st) /\ unsignedField (BMICalculator.bmi st) ->
  unsignedForm (BMICalculator.inputs st') /\ unsignedField (BMICalculator.bmi st').
Proof.
  unfold BMICalculator.step.
  destruct (BMICalculator.handle e st) as [mid|] eqn:H; [|discriminate].
  cbn. intros [= <-] [U B].
  pose proof (bmi_handle_unsigned e st mid H U) as Um.
  rewrite bmi_render_inputs. split; [exact Um|].
  destruct (bmi_render_cases st mid) as [(-> & _) | ->];
    [|apply bmi_calculate_unsigned; exact Um].
  destruct (bmi_handle_cases e st mid H) as [(_ & ->) | (_ & -> & _)];
    [apply bmi_calculate_unsigned; exact U | exact B].
Qed.

Lemma tdee_handle_unsigned nts (e : FitnessCalculator.Event)
    (st mid : FitnessCalculator.State) :
  FitnessCalculator.handle nts e st = Some mid ->
  unsignedField (FitnessCalculator.age st) /\ unsignedForm (FitnessCalculator.inputs st) ->
  unsignedField (FitnessCalculator.age mid) /\ unsignedForm (FitnessCalculator.inputs mid).
Proof.
  unfold FitnessCalculator.handle, FitnessCalculator.handleInputChange,
    FitnessCalculator.handleSelectChange, FitnessCalculator.toggleUnits.
  intros H [A U].
  destruct e as [v|v|v|v|v|v|v| |];
    try destruct (units (FitnessCalculator.inputs st)); try discriminate;
    injection H as <-;
    try (match goal with
         | |- context [Form.handleInputChange ?h ?s ?v ?st] =>
             destruct (handleInputChange_values h s v st) as [-> | [-> | ->]]
         end);
    cbn [FitnessCalculator.setShowResult FitnessCalculator.setInputs
         FitnessCalculator.setAge FitnessCalculator.setGender
         FitnessCalculator.setActivityLevel
         FitnessCalculator.inputs FitnessCalculator.age];
    try (split; [exact A | exact U]);
    try (rewrite tdee_calculate_inputs, (proj1 (tdee_calculate_keeps nts st));
         split; [exact A | exact U]);
    try (split; [exact A | apply toggleUnits_unsigned; exact U]);
    try (split; [first [exact I | apply Number_unsigned] | exact U]);
    (split; [exact A|]);
    destruct U as (Hw & Hc & Hf & Hi); unfold unsignedForm;
    cbn [setWeightInput setHeightCmInput setHeightFtInput setHeightInInput
         weightInput heightCmInput heightFtInput heightInInput unsignedField];
    repeat split; try assumption; apply Number_unsigned.
Qed.

Lemma tdee_step_unsigned nts (e : FitnessCalculator.Event)
    (st st' : FitnessCalculator.State) :
  FitnessCalculator.step nts e st = Some st' ->
  unsignedField (FitnessCalculator.age st) /\ unsignedForm (FitnessCalculator.inputs st) ->
  unsignedField (FitnessCalculator.age st') /\ unsignedForm (FitnessCalculator.inputs st').
Proof.
  unfold FitnessCalculator.step.
  destruct (FitnessCalculator.handle nts e st) as [mid|] eqn:H; [|discriminate].
  cbn. intros [= <-] HU.
  pose proof (tdee_handle_unsigned nts e st mid H HU) as [Am Um].
  rewrite tdee_render_inputs. split; [|exact Um].
  destruct (tdee_render_cases nts st mid) as [(-> & _) | ->]; [exact Am|].
  rewrite (proj1 (tdee_calculate_keeps nts mid)). exact Am.
Qed.

(** X10. On a first visit no slot ever holds a negative number or the
    negative zero, whatever is typed and however often the units are
    toggled: every raw slot of both forms (the age included) is absent, NaN,
    or a number with a clear sign bit; so are the canonical weight and
    height, and the BMI the state holds. *)
Theorem X10_never_negative :
  forall (nts : number -> string) (b : BMICalculator.State) (t : FitnessCalculator.State),
    (BMICalculator.reachable b ->
     notNegativeField (weightInput (BMICalculator.inputs b)) = true /\
     notNegativeField (heightCmInput (BMICalculator.inputs b)) = true /\
     notNegativeField (heightFtInput (BMICalculator.inputs b)) = true /\
     notNegativeField (heightInInput (BMICalculator.inputs b)) = true /\
     notNegativeField (weightKg (BMICalculator.inputs b)) = true /\
     notNegativeField (heightCm (BMICalculator.inputs b)) = true /\
     notNegativeField (BMICalculator.bmi b) = true) /\
    (FitnessCalculator.reachable nts t ->
     notNegativeField (FitnessCalculator.age t) = true /\
     notNegativeField (weightInput (FitnessCalculator.inputs t)) = true /\
     notNegativeField (heightCmInput (FitnessCalculator.inputs t)) = true /\
     notNegativeField (heightFtInput (FitnessCalculator.inputs t)) = true /\
     notNegativeField (heightInInput (FitnessCalculator.inputs t)) = true /\
     notNegativeField (weightKg (FitnessCalculator.inputs t)) = true /\
     notNegativeField (heightCm (FitnessCalculator.inputs t)) = true).
Proof.
  intros nts b t. split; intros H.
  - assert (Inv : unsignedForm (BMICalculator.inputs b) /\
                  unsignedField (BMICalculator.bmi b)).
    { induction H as [|st e st' _ IH Hs]; [repeat split|].
      exact (bmi_step_unsigned e st st' Hs IH). }
    destruct Inv as [U B]. destruct (canonical_unsigned _ U) as [Cw Ch].
    destruct U as (Hw & Hc & Hf & Hi).
    repeat split; apply unsignedField_notNegative; assumption.
  - assert (Inv : unsignedField (FitnessCalculator.age t) /\
                  unsignedForm (FitnessCalculator.inputs t)).
    { induction H as [|st e st' _ IH Hs]; [repeat split|].
      exact (tdee_step_unsigned nts e st st' Hs IH). }
    destruct Inv as [A U]. destruct (canonical_unsigned _ U) as [Cw Ch].
    destruct U as (Hw & Hc & Hf & Hi).
    repeat split; apply unsignedField_notNegative; assumption.
Qed.

(** The BMI form after a lone point, 175 cm and a toggle of the units: the
    weight slot holds NaN. *)
Definition pointVisit : list BMICalculator.Event :=
  [BMICalculator.ChangeWeight "."; BMICalculator.ChangeHeightCm "175";
   BMICalculator.ClickUnits].

(** X10 on a first visit: after a lone point, 175 cm and a toggle, the
    weight is NaN and the height 5 ft 8.9 in; no slot is negative. *)
Lemma X10_never_negative_witness :
  exists b,
    BMICalculator.run pointVisit BMICalculator.initial = Some b /\
    BMICalculator.reachable b /\
    heightInInput (BMICalculator.inputs b) = Some 8.9 /\
    notNegativeField (weightInput (BMICalculator.inputs b)) = true /\
    notNegativeField (heightInInput (BMICalculator.inputs b)) = true /\
    notNegativeField (heightCm (BMICalculator.inputs b)) = true.
Proof.
  destruct (BMICalculator.run pointVisit BMICalculator.initial) as [b|] eqn:E;
    [|vm_compute in E; discriminate].
  exists b. split; [reflexivity|].
  pose proof (bmi_run_reachable _ _ _ BMICalculator.reachable_initial E) as Hr.
  split; [exact Hr|].
  split; [vm_compute in E; injection E as <-; reflexivity|].
  destruct (proj1 (X10_never_negative noNumeral b exampleTDEE) Hr)
    as (H1 & _ & _ & H4 & _ & H6 & _).
  repeat split; assumption.
Defined.

End NeverNegative.

(* ===================================================================== *)
(** ** The accuracy of the displayed TDEE *)
(* ===================================================================== *)

Module Difference.
Import Js Form Binary64 MathFacts Analysis.

(** The difference of two positive numbers, the first the larger one. *)
Lemma sub_finite (x y : number) (mx my : positive) (ex ey : Z) :
  Prim2SF x = S754_finite false mx ex ->
  Prim2SF y = S754_finite false my ey ->
  (F2Q (Zpos my) ey <= F2Q (Zpos mx) ex)%Q ->
  (F2Q (Zpos mx) ex < bpow 900)%Q ->
  (Prim2SF (x - y) = S754_zero false /\
   (F2Q (Zpos mx) ex - F2Q (Zpos my) ey <= bpow (-1075))%Q) \/
  (exists m2 e2,
      Prim2SF (x - y) = S754_finite false m2 e2 /\
      (F2Q (Zpos m2) e2 - (F2Q (Zpos mx) ex - F2Q (Zpos my) ey) <= (1 # 2) * bpow e2)%Q /\
      (F2Q (Zpos mx) ex - F2Q (Zpos my) ey - F2Q (Zpos m2) e2 <= (1 # 2) * bpow e2)%Q).
Proof.
  intros Ex Ey Hle Hv.
  rewrite FloatAxioms.sub_spec, Ex, Ey. unfold SF64sub, SFsub. cbn [cond_Zopp].
  set (ez := Z.min ex ey).
  destruct (shl_align_spec mx ex ez ltac:(unfold ez; lia)) as [_ Vx].
  destruct (shl_align_spec my ey ez ltac:(unfold ez; lia)) as [_ Vy].
  set (ax := fst (shl_align mx ex ez)) in *. set (ay := fst (shl_align my ey ez)) in *.
  pose proof (F2Q_shift (Zpos mx) ex (ex - ez) ltac:(unfold ez; lia)) as Sx.
  pose proof (F2Q_shift (Zpos my) ey (ey - ez) ltac:(unfold ez; lia)) as Sy.
  replace (ex - (ex - ez)) with ez in Sx by lia.
  replace (ey - (ey - ez)) with ez in Sy by lia.
  rewrite <- Vx in Sx. rewrite <- Vy in Sy.
  pose proof (bpow_pos ez) as Pz. pose proof (bpow_pos (-1075)) as Pm.
  assert (Ev : (F2Q (Zpos ax - Zpos ay) ez == F2Q (Zpos mx) ex - F2Q (Zpos my) ey)%Q).
  { rewrite <- Sx, <- Sy. unfold F2Q. unfold Z.sub. rewrite inject_Z_plus, inject_Z_opp. ring. }
  assert (Hd : 0 <= Zpos ax - Zpos ay).
  { destruct (Z_le_gt_dec 0 (Zpos ax - Zpos ay)) as [|C]; [assumption|exfalso].
    assert (H : (inject_Z (Zpos ax - Zpos ay) <= inject_Z (-1))%Q) by (rewrite <- Zle_Qle; lia).
    change (inject_Z (-1)) with (-1 # 1)%Q in H. unfold F2Q at 1 in Ev. nra. }
  destruct (Zpos ax - Zpos ay) as [|d|d] eqn:Ed; [| |lia].
  - left. cbn [binary_normalize]. split; [reflexivity|].
    rewrite <- Ev. unfold F2Q. change (inject_Z 0) with 0%Q. lra.
  - cbn [binary_normalize].
    pose proof (F2Q_bounds (Zpos d) ez ltac:(lia)) as [BL _].
    pose proof (F2Q_pos (Zpos my) ey ltac:(lia)) as Py.
    assert (Hdig : Zdigits2 (Zpos d) - 1 + ez < 900) by (apply bpow_lt_inv; lra).
    destruct (binary_round_spec false d ez ltac:(lia))
      as [(E0 & H0) | (m2 & e2 & E2 & H1 & H2 & _)].
    + left. split; [exact E0|]. lra.
    + right. exists m2, e2. split; [exact E2|]. split; lra.
Qed.

(** The difference of two numbers that are zero or positive, the first
    the larger one and away from overflow: zero or positive, and within
    [eps] of its value and [eta] of the exact difference. *)
Lemma sub_value (x y : number) :
  nonneg x -> nonneg y -> (B2Q y <= B2Q x)%Q -> (B2Q x < bpow 900)%Q ->
  nonneg (x - y) /\
  (B2Q (x - y) - (B2Q x - B2Q y) <= eps * B2Q (x - y) + eta)%Q /\
  (B2Q x - B2Q y - B2Q (x - y) <= eps * B2Q (x - y) + eta)%Q.
Proof.
  intros Hx Hy Hle Hv. pose proof eta_pos as Heta.
  pose proof (nonneg_value _ Hx) as Px. pose proof (nonneg_value _ Hy) as Py.
  destruct (nonneg_cases x Hx) as [(sx & Ex & Vx) | (mx & ex & Ex & Vx)];
    destruct (nonneg_cases y Hy) as [(sy & Ey & Vy) | (my & ey & Ey & Vy)].
  - assert (Ez : exists s, Prim2SF (x - y) = S754_zero s).
    { rewrite FloatAxioms.sub_spec, Ex, Ey. unfold SF64sub, SFsub.
      destruct sx, sy; eexists; reflexivity. }
    destruct Ez as [s Ez]. split; [left; exists s; exact Ez|].
    assert (Evz : (B2Q (x - y) == 0)%Q) by (unfold B2Q; rewrite Ez; reflexivity).
    unfold eps. split; lra.
  - exfalso. pose proof (F2Q_pos (Zpos my) ey ltac:(lia)). lra.
  - assert (Ez : Prim2SF (x - y) = Prim2SF x).
    { rewrite FloatAxioms.sub_spec, Ex, Ey. reflexivity. }
    assert (Evz : B2Q (x - y) = B2Q x) by (unfold B2Q; rewrite Ez; reflexivity).
    split; [right; exists mx, ex; rewrite Ez; exact Ex|].
    rewrite Evz. unfold eps. split; lra.
  - destruct (relative_error (x - y) (F2Q (Zpos mx) ex - F2Q (Zpos my) ey)) as (N & H1 & H2).
    { destruct (sub_finite x y _ _ _ _ Ex Ey ltac:(lra) ltac:(lra))
        as [(E0 & B0) | (m2 & e2 & E2 & B1 & B2)].
      - left. split; [exact E0|]. split; lra.
      - right. exists m2, e2. split; [exact E2|]. split; assumption. }
    split; [exact N|]. split; lra.
Qed.

End Difference.

Module TDEEAccuracy.
Import Js Form Binary64 MathFacts Analysis Imperial Difference.

(** The part of the basal rate the two genders share,
    [10 * weightKg + 6.25 * heightCm - 5 * age], for an age from 1 to 120, a
    weight from 20 to 1000 kg and a height from 100 to 300 cm. *)
Lemma rate_core (a w h : number) :
  nonneg a -> nonneg w -> nonneg h ->
  (1 <= B2Q a)%Q -> (B2Q a <= 120)%Q -> (20 <= B2Q w)%Q -> (B2Q w <= 1000)%Q ->
  (100 <= B2Q h)%Q -> (B2Q h <= 300)%Q ->
  nonneg (10 * w + 6.25 * h - 5 * a)%float /\
  (B2Q (10 * w + 6.25 * h - 5 * a)%float
   - (10 * B2Q w + (25 # 4) * B2Q h - 5 * B2Q a) <= 1 # 100000000000)%Q /\
  (10 * B2Q w + (25 # 4) * B2Q h - 5 * B2Q a
   - B2Q (10 * w + 6.25 * h - 5 * a)%float <= 1 # 100000000000)%Q.
Proof.
  intros Na Nw Nh La Ua Lw Uw Lh Uh.
  pose proof big_900 as B9. pose proof eta_pos as E0. pose proof eta_small as E1.
  assert (N10 : nonneg 10%float) by (eapply nonneg_constant; vm_compute; reflexivity).
  assert (N625 : nonneg 6.25%float) by (eapply nonneg_constant; vm_compute; reflexivity).
  assert (N5 : nonneg 5%float) by (eapply nonneg_constant; vm_compute; reflexivity).
  destruct (mul_value 10%float w N10 Nw) as (N1 & A1 & B1).
  { constant 10%float. lra. }
  set (x1 := (10 * w)%float) in *. pose proof (nonneg_value x1 N1) as P1.
  constant 10%float. unfold eps in A1, B1.
  destruct (mul_value 6.25%float h N625 Nh) as (N2 & A2 & B2).
  { constant 6.25%float. lra. }
  set (x2 := (6.25 * h)%float) in *. pose proof (nonneg_value x2 N2) as P2.
  constant 6.25%float. unfold eps in A2, B2.
  destruct (add_value x1 x2 N1 N2) as (N3 & A3 & B3); [lra|].
  set (x3 := (x1 + x2)%float) in *. pose proof (nonneg_value x3 N3) as P3.
  unfold eps in A3, B3.
  destruct (mul_value 5%float a N5 Na) as (N4 & A4 & B4).
  { constant 5%float. lra. }
  set (x4 := (5 * a)%float) in *. pose proof (nonneg_value x4 N4) as P4.
  constant 5%float. unfold eps in A4, B4.
  destruct (sub_value x3 x4 N3 N4) as (N5' & A5 & B5); [lra | lra |].
  set (x5 := (x3 - x4)%float) in *. unfold eps in A5, B5.
  split; [exact N5'|]. split; lra.
Qed.

(** The rounded product of a rate and a factor. *)
Lemma rate_times_factor (b f : number) (E qf : Q) :
  nonneg b -> nonneg f ->
  (60 <= E)%Q -> (E <= 12000)%Q ->
  (B2Q b - E <= 2 # 100000000000)%Q -> (E - B2Q b <= 2 # 100000000000)%Q ->
  (1 <= qf)%Q -> (qf <= 2)%Q ->
  (B2Q f - qf <= 1 # 1000000000000000)%Q -> (qf - B2Q f <= 1 # 1000000000000000)%Q ->
  exists n : Z,
    1 <= n /\ Math_round (b * f)%float = Z2number n /\
    (inject_Z n - E * qf <= (1 # 2) + (1 # 1000000000))%Q /\
    (E * qf - inject_Z n <= (1 # 2) + (1 # 1000000000))%Q.
Proof.
  intros Nb Nf LE UE B1 B2 Lq Uq F1 F2.
  pose proof big_900 as B9. pose proof eta_pos as E0. pose proof eta_small as E1.
  set (B := B2Q b) in *. set (F := B2Q f) in *.
  assert (T1 : (B * F - E * qf <= 1 # 10000000000)%Q) by nra.
  assert (T2 : (E * qf - B * F <= 1 # 10000000000)%Q) by nra.
  assert (T3 : (60 <= E * qf)%Q) by nra.
  assert (T4 : (E * qf <= 24000)%Q) by nra.
  destruct (mul_value b f Nb Nf) as (Np & Ap & Bp).
  { fold B F. lra. }
  set (p := (b * f)%float) in *. set (P := B2Q p) in *.
  fold B F in Ap, Bp. unfold eps in Ap, Bp.
  set (BF := (B * F)%Q) in *. clearbody BF. set (T := (E * qf)%Q) in *. clearbody T.
  pose proof (nonneg_value p Np) as Pp. fold P in Pp.
  destruct (Math_round_is p Np) as (n & Hn & Ln & Un & Cn).
  { fold P. change (bpow 52) with (4503599627370496 # 1). lra. }
  fold P in Ln, Un.
  assert (Pn : 1 <= n).
  { assert (Hq : (inject_Z 0 < inject_Z n)%Q) by (change (inject_Z 0) with 0%Q; lra).
    rewrite <- Zlt_Qlt in Hq. lia. }
  exists n. split; [exact Pn|]. split.
  - destruct Cn as [(-> & _) | (_ & En)]; [lia | exact En].
  - split; lra.
Qed.

(** The activity factors, as numbers and as the decimal fractions they
    are written as. *)
Definition factorTable : list (string * (number * Q)) :=
  [("sedentary", (1.2, 12 # 10)); ("light", (1.375, 1375 # 1000));
   ("moderate", (1.55, 155 # 100)); ("active", (1.725, 1725 # 1000));
   ("extra", (1.9, 19 # 10))]%string%float.

Lemma factor_close (level : string) (f : number) (qf : Q) :
  In (level, (f, qf)) factorTable ->
  nonneg f /\ (1 <= qf)%Q /\ (qf <= 2)%Q /\
  (B2Q f - qf <= 1 # 1000000000000000)%Q /\ (qf - B2Q f <= 1 # 1000000000000000)%Q.
Proof.
  intros H. cbn in H.
  repeat (destruct H as [H|H];
          [injection H as <- <- <-;
           split; [eapply nonneg_constant; vm_compute; reflexivity|];
           repeat split; vm_compute; discriminate|]).
  destruct H.
Qed.

End TDEEAccuracy.

Section TDEEAccuracyClaim.
Import Js Form Engine Binary64 Analysis Difference TDEEAccuracy.
Local Open Scope float_scope.

(** The formula of the TDEE on rationals: the Mifflin-St Jeor rate of the
    gender, times the factor. *)
Definition tdeeExact (male : bool) (qa qw qh qf : Q) : Q :=
  ((10 * qw + (25 # 4) * qh - 5 * qa + (if male then 5 else - (161))) * qf)%Q.

Lemma factorTable_listed (level : string) (f : number) (qf : Q) :
  In (level, (f, qf)) factorTable -> In (level, f) listedFactors.
Proof.
  intros H. cbn in H. cbn.
  repeat (destruct H as [H|H]; [injection H as <- <- <-; auto 8|]). destruct H.
Qed.

(** X11. For every binary64 age from 1 to 120, weight from 20 to 1000 kg
    and height from 100 to 300 cm (canonical values), and each of the five
    activity levels, [calculateTDEE] shows a result, and the TDEE it
    computes in floating point is a whole number [n >= 1] within 0.5 (and a
    billionth) of the exact value of the formula, with the rate of the male
    formula when the gender is ['male'] and of the female one otherwise:
    the exact TDEE rounded to a whole number, never NaN. *)
Theorem X11_tdee_is_the_rounded_formula :
  forall (nts : number -> string) (st : FitnessCalculator.State) (a w h f : number)
         (level : string) (qa qw qh qf : Q),
    FitnessCalculator.age st = Some a ->
    weightKg (FitnessCalculator.inputs st) = Some w ->
    heightCm (FitnessCalculator.inputs st) = Some h ->
    FitnessCalculator.activityLevel st = VStr level ->
    In (level, (f, qf)) factorTable ->
    exactValue a = Some qa -> exactValue w = Some qw -> exactValue h = Some qh ->
    (1 <= qa)%Q -> (qa <= 120)%Q -> (20 <= qw)%Q -> (qw <= 1000)%Q ->
    (100 <= qh)%Q -> (qh <= 300)%Q ->
    exists n : Z,
      (1 <= n)%Z /\
      FitnessCalculator.tdee (FitnessCalculator.calculateTDEE nts st) = Some (Z2number n) /\
      FitnessCalculator.showResult (FitnessCalculator.calculateTDEE nts st) = true /\
      Qle_bool
        (Qabs (inject_Z n
               - tdeeExact (is_string (FitnessCalculator.gender st) "male") qa qw qh qf))
        ((1 # 2) + (1 # 1000000000)) = true.
Proof.
  intros nts st a w h f level qa qw qh qf Ha Hw Hh Hl Hf Ea Ew Eh La Ua Lw Uw Lh Uh.
  pose proof (exactValue_value a qa Ea) as Va.
  pose proof (exactValue_value w qw Ew) as Vw.
  pose proof (exactValue_value h qh Eh) as Vh.
  assert (Na : nonneg a) by (apply (exactValue_nonneg a qa Ea); lra).
  assert (Nw : nonneg w) by (apply (exactValue_nonneg w qw Ew); lra).
  assert (Nh : nonneg h) by (apply (exactValue_nonneg h qh Eh); lra).
  pose proof big_900 as B9. pose proof eta_pos as E0. pose proof eta_small as E1.
  destruct (factor_close level f qf Hf) as (Nf & Lq & Uq & F1 & F2).
  destruct (rate_core a w h Na Nw Nh ltac:(lra) ltac:(lra) ltac:(lra) ltac:(lra)
              ltac:(lra) ltac:(lra)) as (Nc & C1 & C2).
  unfold FitnessCalculator.calculateTDEE. rewrite Ha, Hw, Hh, Hl.
  rewrite (activityFactor_listed nts level f (factorTable_listed level f qf Hf)).
  cbn [FitnessCalculator.tdee FitnessCalculator.showResult].
  set (core := 10 * w + 6.25 * h - 5 * a) in *.
  pose proof (nonneg_value core Nc) as Pc.
  unfold tdeeExact.
  destruct (is_string (FitnessCalculator.gender st) "male").
  - assert (N5 : nonneg 5) by (eapply nonneg_constant; vm_compute; reflexivity).
    destruct (add_value core 5 Nc N5) as (Nb & A1 & B1).
    { constant 5. lra. }
    constant 5. unfold eps in A1, B1.
    destruct (rate_times_factor (core + 5) f (10 * qw + (25 # 4) * qh - 5 * qa + 5) qf
                Nb Nf) as (n & Hn & En & D1 & D2); try lra.
    exists n. split; [exact Hn|]. rewrite En. split; [reflexivity|]. split; [reflexivity|].
    apply Qle_bool_iff. apply Qabs_Qle_condition. split; lra.
  - assert (N161 : nonneg 161) by (eapply nonneg_constant; vm_compute; reflexivity).
    destruct (sub_value core 161 Nc N161) as (Nb & A1 & B1).
    { constant 161. lra. }
    { lra. }
    constant 161. unfold eps in A1, B1.
    destruct (rate_times_factor (core - 161) f (10 * qw + (25 # 4) * qh - 5 * qa + - (161)) qf
                Nb Nf) as (n & Hn & En & D1 & D2); try lra.
    exists n. split; [exact Hn|]. rewrite En. split; [reflexivity|]. split; [reflexivity|].
    apply Qle_bool_iff. apply Qabs_Qle_condition. split; lra.
Qed.

(** X11 at the example of the specification: 2759, for an exact value of
    1780 * 1.55 = 2759. *)
Lemma X11_tdee_is_the_rounded_formula_witness :
  In ("moderate"%string, (1.55, 155 # 100)) factorTable /\
  FitnessCalculator.tdee (FitnessCalculator.calculateTDEE noNumeral exampleTDEE)
  = Some (Z2number 2759) /\
  exists n : Z,
    (1 <= n)%Z /\
    FitnessCalculator.tdee (FitnessCalculator.calculateTDEE noNumeral exampleTDEE)
    = Some (Z2number n) /\
    FitnessCalculator.showResult (FitnessCalculator.calculateTDEE noNumeral exampleTDEE)
    = true /\
    Qle_bool
      (Qabs (inject_Z n
             - tdeeExact (is_string (FitnessCalculator.gender exampleTDEE) "male")
                 (8444249301319680 # 281474976710656) (5629499534213120 # 70368744177664)
                 (6333186975989760 # 35184372088832) (155 # 100)))
      ((1 # 2) + (1 # 1000000000)) = true.
Proof.
  assert (Hin : In ("moderate"%string, (1.55, 155 # 100)) factorTable)
    by (cbn; right; right; left; reflexivity).
  split; [exact Hin|]. split; [vm_compute; reflexivity|].
  apply (X11_tdee_is_the_rounded_formula noNumeral exampleTDEE 30 80 180 1.55
           "moderate"%string (8444249301319680 # 281474976710656)
           (5629499534213120 # 70368744177664)
           (6333186975989760 # 35184372088832) (155 # 100)
           eq_refl eq_refl eq_refl eq_refl Hin eq_refl eq_refl eq_refl);
    apply Qle_bool_iff; reflexivity.
Defined.

End TDEEAccuracyClaim.

(* ===================================================================== *)
(** ** The canonical values across a toggle *)
(* ===================================================================== *)

Module Drift.
Import Js Form Binary64 MathFacts Analysis.

(** A weight of at most 10 000 kg, turned into pounds with one decimal and
    read back in kilograms by the canonical value, is within 0.05 kg of what
    it was. *)
Lemma weight_drift (w : number) :
  nonneg w -> (B2Q w <= 10000)%Q ->
  nonneg (Math_round (w * KG_TO_LBS * 10) / 10 * LBS_TO_KG)%float /\
  (B2Q (Math_round (w * KG_TO_LBS * 10) / 10 * LBS_TO_KG)%float - B2Q w <= 1 # 20)%Q /\
  (B2Q w - B2Q (Math_round (w * KG_TO_LBS * 10) / 10 * LBS_TO_KG)%float <= 1 # 20)%Q.
Proof.
  intros Hw Uw.
  pose proof (nonneg_value w Hw) as Pw.
  pose proof big_900 as B9. pose proof eta_pos as E0. pose proof eta_small as E1.
  assert (NK : nonneg KG_TO_LBS) by (eapply nonneg_constant; vm_compute; reflexivity).
  assert (NL : nonneg LBS_TO_KG) by (eapply nonneg_constant; vm_compute; reflexivity).
  assert (N10 : nonneg 10%float) by (eapply nonneg_constant; vm_compute; reflexivity).
  destruct (mul_value w KG_TO_LBS Hw NK) as (N1 & A1 & B1).
  { constant KG_TO_LBS. lra. }
  set (a1 := (w * KG_TO_LBS)%float) in *. pose proof (nonneg_value a1 N1) as P1.
  constant KG_TO_LBS. unfold eps in A1, B1.
  destruct (mul_value a1 10%float N1 N10) as (N2 & A2 & B2).
  { constant 10%float. lra. }
  set (a2 := (a1 * 10)%float) in *. pose proof (nonneg_value a2 N2) as P2.
  constant 10%float. unfold eps in A2, B2.
  destruct (round_tenth a2 N2) as (n1 & Hn1 & L1 & U1 & N3 & A3 & B3 & _).
  { change (bpow 52) with (4503599627370496 # 1). lra. }
  set (a3 := (Math_round a2 / 10)%float) in *. pose proof (nonneg_value a3 N3) as P3.
  unfold eps in A3, B3.
  destruct (mul_value a3 LBS_TO_KG N3 NL) as (N4 & A4 & B4).
  { constant LBS_TO_KG. lra. }
  set (a4 := (a3 * LBS_TO_KG)%float) in *. pose proof (nonneg_value a4 N4) as P4.
  constant LBS_TO_KG. unfold eps in A4, B4.
  split; [exact N4|]. split; lra.
Qed.

(** A height from 0.2 to 1000 cm, turned into feet and inches and read
    back in centimetres by the canonical value, is within 0.13 cm of what it
    was. *)
Lemma height_drift (h : number) :
  nonneg h -> (1 # 5 <= B2Q h)%Q -> (B2Q h <= 1000)%Q ->
  nonneg ((Math_floor (h * CM_TO_IN / FT_TO_IN) * FT_TO_IN
           + Math_round (rem (h * CM_TO_IN) FT_TO_IN * 10) / 10) * IN_TO_CM)%float /\
  (B2Q ((Math_floor (h * CM_TO_IN / FT_TO_IN) * FT_TO_IN
         + Math_round (rem (h * CM_TO_IN) FT_TO_IN * 10) / 10) * IN_TO_CM)%float
   - B2Q h <= 13 # 100)%Q /\
  (B2Q h
   - B2Q ((Math_floor (h * CM_TO_IN / FT_TO_IN) * FT_TO_IN
           + Math_round (rem (h * CM_TO_IN) FT_TO_IN * 10) / 10) * IN_TO_CM)%float
   <= 13 # 100)%Q.
Proof.
  intros Hh Lh Uh.
  pose proof big_900 as B9. pose proof eta_pos as E0. pose proof eta_small as E1.
  pose proof small_400 as S4.
  assert (L4 : (bpow (-1021) <= bpow (-400))%Q) by (apply bpow_le; lia).
  assert (NC : nonneg CM_TO_IN) by (eapply nonneg_constant; vm_compute; reflexivity).
  assert (NI : nonneg IN_TO_CM) by (eapply nonneg_constant; vm_compute; reflexivity).
  assert (NF : nonneg FT_TO_IN) by (eapply nonneg_constant; vm_compute; reflexivity).
  assert (N10 : nonneg 10%float) by (eapply nonneg_constant; vm_compute; reflexivity).
  assert (E12 : Prim2SF FT_TO_IN = S754_finite false 6755399441055744 (-49)) by reflexivity.
  destruct (mul_value h CM_TO_IN Hh NC) as (Nt & At & Bt).
  { constant CM_TO_IN. lra. }
  set (t := (h * CM_TO_IN)%float) in *. pose proof (nonneg_value t Nt) as Pt.
  constant CM_TO_IN. unfold eps in At, Bt.
  destruct (nonneg_normal t Nt ltac:(lra)) as (mt & et & Et & Dt).
  destruct (rem_spec t FT_TO_IN mt _ et _ Et E12) as (k & Hk & Vr & Lr & Ur & Nr).
  { constant FT_TO_IN. lra. }
  set (r := rem t FT_TO_IN) in *. constant FT_TO_IN.
  destruct (quotient_floor t k Nt ltac:(lra) ltac:(lra) Hk ltac:(lra) ltac:(lra))
    as (Nq & Lq & Uq).
  set (q := (t / FT_TO_IN)%float) in *.
  destruct (Math_floor_spec q Nq) as (n & Hn & Ln & Un & Vf & F0 & Fp).
  { change (bpow 52) with (4503599627370496 # 1). lra. }
  assert (n = k).
  { assert (X1 : (inject_Z n < inject_Z (k + 1))%Q)
      by (rewrite inject_Z_plus; change (inject_Z 1) with 1%Q; lra).
    assert (X2 : (inject_Z k < inject_Z (n + 1))%Q)
      by (rewrite inject_Z_plus; change (inject_Z 1) with 1%Q; lra).
    rewrite <- Zlt_Qlt in X1, X2. lia. }
  subst n. set (ft := Math_floor q) in *.
  assert (Nf : nonneg ft).
  { destruct (Z.eq_dec k 0) as [E|E]; [left; apply F0; exact E | apply normal_nonneg, Fp; lia]. }
  destruct (mul_value r 10%float Nr N10) as (Nr10 & Ar & Br).
  { constant 10%float. lra. }
  set (r10 := (r * 10)%float) in *. pose proof (nonneg_value r10 Nr10) as Pr10.
  constant 10%float. unfold eps in Ar, Br.
  destruct (round_tenth r10 Nr10) as (ni & Hni & Li & Ui & Ni & Ai & Bi & Pi).
  { change (bpow 52) with (4503599627370496 # 1). lra. }
  set (inches := (Math_round r10 / 10)%float) in *.
  pose proof (nonneg_value inches Ni) as Pin. unfold eps in Ai, Bi.
  destruct (mul_value ft FT_TO_IN Nf NF) as (Nf12 & Af & Bf).
  { constant FT_TO_IN. lra. }
  set (f12 := (ft * FT_TO_IN)%float) in *. pose proof (nonneg_value f12 Nf12) as Pf12.
  constant FT_TO_IN. unfold eps in Af, Bf.
  destruct (add_value f12 inches Nf12 Ni) as (Ns & As & Bs); [lra|].
  set (s := (f12 + inches)%float) in *. pose proof (nonneg_value s Ns) as Ps.
  unfold eps in As, Bs.
  destruct (mul_value s IN_TO_CM Ns NI) as (Nc & Ac & Bc).
  { constant IN_TO_CM. lra. }
  set (c := (s * IN_TO_CM)%float) in *. pose proof (nonneg_value c Nc) as Pc.
  constant IN_TO_CM. unfold eps in Ac, Bc.
  split; [exact Nc|]. split; lra.
Qed.

End Drift.

Section CanonicalDrift.
Import Js Form Engine Binary64 Analysis Drift.
Local Open Scope float_scope.

(** X12. Switching a form from metric to imperial units, which rewrites
    the weight in pounds with one decimal and the height in feet and tenths
    of an inch, changes the canonical weight the formulas read by at most
    0.05 kg (for a positive weight up to 10 000 kg) and the canonical height
    by at most 0.13 cm (for a height from 0.2 to 1000 cm). *)
Theorem X12_toggle_keeps_canonical_values_close :
  forall (i : Inputs) (w h : number) (qw qh : Q),
    units i = metric -> weightInput i = Some w -> heightCmInput i = Some h ->
    exactValue w = Some qw -> exactValue h = Some qh ->
    (0 < qw)%Q -> (qw <= 10000)%Q -> (1 # 5 <= qh)%Q -> (qh <= 1000)%Q ->
    units (Form.toggleUnits i) = imperial /\
    within (1 # 20) (weightKg i) (weightKg (Form.toggleUnits i)) = true /\
    within (13 # 100) (heightCm i) (heightCm (Form.toggleUnits i)) = true.
Proof.
  intros i w h qw qh Hu Hw Hh Ew Eh Lw Uw Lh Uh.
  pose proof (exactValue_value w qw Ew) as Vw.
  pose proof (exactValue_value h qh Eh) as Vh.
  assert (Nw : nonneg w) by (apply (exactValue_nonneg w qw Ew); lra).
  assert (Nh : nonneg h) by (apply (exactValue_nonneg h qh Eh); lra).
  destruct i as [u w' cm ft inch]. cbn in Hu, Hw, Hh. subst u w' cm.
  split; [reflexivity|]. split.
  - destruct (weight_drift w Nw ltac:(lra)) as (N & D1 & D2).
    apply within_values; [exact Nw | exact N | exact D2 | exact D1].
  - destruct (height_drift h Nh ltac:(lra) ltac:(lra)) as (N & D1 & D2).
    apply within_values; [exact Nh | exact N | exact D2 | exact D1].
Qed.

(** X12 at 70 kg and 175 cm: 154.3 lb and 5 ft 8.9 in. *)
Lemma X12_toggle_keeps_canonical_values_close_witness :
  exactValue 70 = Some (4925812092436480 # 70368744177664) /\
  exactValue 175 = Some (6157265115545600 # 35184372088832) /\
  weightInput (Form.toggleUnits (metricForm (Some 70) (Some 175))) = Some 154.3 /\
  within (1 # 20) (weightKg (metricForm (Some 70) (Some 175)))
    (weightKg (Form.toggleUnits (metricForm (Some 70) (Some 175)))) = true /\
  within (13 # 100) (heightCm (metricForm (Some 70) (Some 175)))
    (heightCm (Form.toggleUnits (metricForm (Some 70) (Some 175)))) = true.
Proof.
  split; [reflexivity|]. split; [reflexivity|]. split; [reflexivity|].
  refine (proj2 (X12_toggle_keeps_canonical_values_close
                   (metricForm (Some 70) (Some 175)) 70 175
                   (4925812092436480 # 70368744177664) (6157265115545600 # 35184372088832)
                   eq_refl eq_refl eq_refl eq_refl eq_refl _ _ _ _));
    first [reflexivity | apply Qle_bool_iff; reflexivity].
Defined.

End CanonicalDrift.

(* ===================================================================== *)
(** ** The strings the input pattern admits *)
(* ===================================================================== *)

Module Pattern.
Import Js Signs.

Fixpoint allDigits (s : string) : bool :=
  match s with
  | String c r => is_digit c && allDigits r
  | EmptyString => true
  end.

(** Nothing, or a character that is no digit, comes first. *)
Definition noDigitFirst (s : string) : Prop :=
  match s with
  | String c _ => is_digit c = false
  | EmptyString => True
  end.

Lemma append_cons (c : ascii) (d r : string) :
  String.append (String c d) r = String c (String.append d r).
Proof. reflexivity. Qed.

Lemma append_empty_l (r : string) : String.append EmptyString r = r.
Proof. reflexivity. Qed.

Lemma append_empty_r (d : string) : String.append d EmptyString = d.
Proof. induction d as [|c d IH]; [reflexivity | rewrite append_cons, IH; reflexivity]. Qed.

(** What [digits] reads is a run of digits, counted, and it stops at the
    end or at a character that is no digit. *)
Lemma digits_reads (s : string) (acc : Z) (n : nat) :
  exists d, s = String.append d (snd (digits s acc n)) /\
            allDigits d = true /\
            snd (fst (digits s acc n)) = (n + String.length d)%nat /\
            noDigitFirst (snd (digits s acc n)).
Proof.
  revert acc n. induction s as [|c r IH]; intros acc n.
  - exists EmptyString. rewrite append_empty_l. cbn. repeat split. lia.
  - cbn [digits]. destruct (is_digit c) eqn:Hc.
    + destruct (IH (10 * acc + digit_value c) (S n)) as (d & E & A & L & F).
      exists (String c d). rewrite append_cons. cbn [allDigits String.length].
      split; [f_equal; exact E|]. split; [rewrite Hc; exact A|].
      split; [rewrite L; lia | exact F].
    + exists EmptyString. rewrite append_empty_l. cbn. repeat split; [lia | exact Hc].
Qed.

(** A run of digits before the end, or before a character that is no
    digit, is read whole. *)
Lemma digits_of_run (d r : string) (acc : Z) (n : nat) :
  allDigits d = true -> noDigitFirst r ->
  snd (digits (String.append d r) acc n) = r /\
  snd (fst (digits (String.append d r) acc n)) = (n + String.length d)%nat.
Proof.
  revert acc n. induction d as [|c d IH]; intros acc n A F.
  - rewrite append_empty_l. cbn [String.length]. destruct r as [|c r]; cbn in *.
    + split; [reflexivity | lia].
    + rewrite F. cbn. split; [reflexivity | lia].
  - cbn in A. apply andb_prop in A as [Hc A].
    rewrite append_cons. cbn [digits String.length]. rewrite Hc.
    destruct (IH (10 * acc + digit_value c) (S n) A F) as [-> ->].
    split; [reflexivity | lia].
Qed.

Lemma point_no_digit : is_digit "."%char = false.
Proof. reflexivity. Qed.

(** The pattern, in terms of what the two scans leave. *)
Lemma numericPattern_test_rest (s : string) :
  numericPattern_test s =
    match snd (digits (match snd (digits s 0 0) with
                       | String "."%char r' => r'
                       | _ => snd (digits s 0 0)
                       end) 0 0) with
    | EmptyString => true
    | _ => false
    end.
Proof.
  unfold numericPattern_test.
  destruct (digits s 0 0) as [[i ni] r]. cbn [snd].
  destruct (digits _ 0 0) as [[f nf] r'']. reflexivity.
Qed.

(** A specification that is no NaN gives a number that is no NaN. *)
Lemma SF2Prim_signed (x : spec_float) :
  signed_as false x -> signed_as false (Prim2SF (SF2Prim x)).
Proof.
  destruct x as [s|s| |s m e]; cbn [signed_as SF2Prim].
  - intros ->. exact eq_refl.
  - intros ->. exact eq_refl.
  - intros [].
  - intros ->. rewrite Z_ldexp_spec, of_uint63_spec.
    pose proof (Uint63.to_Z_bounded (Uint63.of_Z (Zpos m))) as Hb.
    unfold binary_normalize.
    destruct (Uint63.to_Z (Uint63.of_Z (Zpos m))) as [|p|p]; [exact eq_refl | | lia].
    pose proof (binary_round_sign false p 0) as Hr.
    destruct (binary_round prec emax false p 0) as [s'|s'| |s' m' e'];
      cbn [signed_as SFldexp] in *; try exact Hr; try contradiction.
    subst s'. apply binary_round_sign.
Qed.

Lemma decimal_signed (N : Z) (k : nat) : signed_as false (Prim2SF (decimal N k)).
Proof.
  unfold decimal. destruct N as [|p|p]; try reflexivity.
  apply SF2Prim_signed. cbn [SFdiv xorb].
  set (d := Z.to_pos (10 ^ Z.of_nat k)).
  pose proof (div_core_nonneg (Zpos p) 0 (Zpos d) 0 ltac:(lia) ltac:(lia)) as H.
  destruct (SFdiv_core_binary prec emax (Zpos p) 0 (Zpos d) 0) as [[mz ez] lz].
  cbn [fst] in H. apply binary_round_aux_sign. exact H.
Qed.

(** [Number.isNaN], as JavaScript defines it: the number differs from
    itself. *)
Lemma signed_not_nan (x : number) :
  signed_as false (Prim2SF x) -> PrimFloat.is_nan x = false.
Proof.
  intros H. unfold PrimFloat.is_nan. rewrite FloatAxioms.eqb_spec.
  destruct (Prim2SF x) as [s|s| |s m e]; cbn in H; try contradiction; subst;
    try reflexivity.
  unfold SFeqb, SFcompare. rewrite Z.compare_refl, Pos.compare_cont_refl. reflexivity.
Qed.

End Pattern.

Section AdmittedStrings.
Import Js Form Engine Pattern.

(** X13. The pattern of the number inputs admits exactly the strings made
    of decimal digits with at most one point among them: a run of digits
    (possibly empty), or two such runs around one point. *)
Theorem X13_pattern_admits_digits_and_one_point :
  forall s : string,
    numericPattern_test s = true <->
    exists a b : string,
      allDigits a = true /\ allDigits b = true /\
      (s = a \/ s = String.append a (String "."%char b)).
Proof.
  intros s. rewrite numericPattern_test_rest. split.
  - intros H.
    destruct (digits_reads s 0 0) as (a & E & A & _ & F).
    destruct (snd (digits s 0 0)) as [|c r] eqn:R.
    + exists a, EmptyString. repeat split; [exact A|]. left.
      rewrite E. apply append_empty_r.
    + destruct (Ascii.eqb_spec c "."%char) as [->|Hc].
      * destruct (digits_reads r 0 0) as (b & E' & B & _ & _).
        destruct (snd (digits r 0 0)) as [|c' r'']; [|discriminate H].
        exists a, b. repeat split; [exact A | exact B|]. right.
        rewrite E at 1. f_equal. f_equal. rewrite E' at 1.
        apply append_empty_r.
      * assert (X : snd (digits (String c r) 0 0) = String c r)
          by (cbn in F; cbn [digits]; rewrite F; reflexivity).
        assert (Y : match String c r with String "."%char r' => r' | _ => String c r end
                    = String c r).
        { destruct c as [[] [] [] [] [] [] [] []]; try reflexivity. contradiction. }
        rewrite Y, X in H. discriminate H.
  - intros (a & b & A & B & [-> | ->]).
    + destruct (digits_of_run a EmptyString 0 0 A I) as [R _].
      rewrite append_empty_r in R. rewrite R. reflexivity.
    + destruct (digits_of_run a (String "."%char b) 0 0 A point_no_digit) as [-> _].
      destruct (digits_of_run b EmptyString 0 0 B I) as [R _].
      rewrite append_empty_r in R. rewrite R. reflexivity.
Qed.

(** X13 at ["12.5"]. *)
Lemma X13_pattern_admits_digits_and_one_point_witness :
  numericPattern_test "12.5" = true.
Proof.
  apply (proj2 (X13_pattern_admits_digits_and_one_point "12.5")).
  exists "12"%string, "5"%string.
  split; [reflexivity|]. split; [reflexivity|]. right. reflexivity.
Defined.

(** X14. Of the strings the pattern admits, the lone point is the only one
    that [Number] reads as NaN: every other one gives a number that is
    zero, positive or infinite. *)
Theorem X14_only_the_lone_point_reads_as_NaN :
  forall s : string,
    numericPattern_test s = true ->
    (PrimFloat.is_nan (Number s) = true <-> s = "."%string).
Proof.
  intros s H. split; [|intros ->; reflexivity].
  intros N. rewrite numericPattern_test_rest in H.
  destruct (digits_reads s 0 0) as (a & E & A & La & F).
  revert N. unfold Number.
  destruct (digits s 0 0) as [[i ni] r]. cbn [snd fst] in *.
  destruct r as [|c r].
  - destruct ni; intros N.
    + discriminate N.
    + rewrite (signed_not_nan _ (decimal_signed i 0)) in N. discriminate N.
  - destruct (Ascii.eqb_spec c "."%char) as [->|Hc].
    + destruct (digits_reads r 0 0) as (b & E' & B & Lb & _).
      destruct (digits r 0 0) as [[f nf] r'']. cbn [snd fst] in *.
      destruct r'' as [|c' r'']; [|discriminate H].
      destruct (ni + nf)%nat eqn:S0; intros N.
      * assert (String.length a = 0%nat) by lia.
        assert (String.length b = 0%nat) by lia.
        destruct a; [|discriminate]. destruct b; [|discriminate].
        rewrite E, E'. reflexivity.
      * rewrite (signed_not_nan _ (decimal_signed _ nf)) in N. discriminate N.
    + exfalso.
      assert (X : snd (digits (String c r) 0 0) = String c r)
        by (cbn in F; cbn [digits]; rewrite F; reflexivity).
      assert (Y : match String c r with String "."%char r' => r' | _ => String c r end
                  = String c r).
      { destruct c as [[] [] [] [] [] [] [] []]; try reflexivity. contradiction. }
      rewrite Y, X in H. discriminate H.
Qed.

(** X14 at ["."] and at [".5"]. *)
Lemma X14_only_the_lone_point_reads_as_NaN_witness :
  (PrimFloat.is_nan (Number ".") = true <-> "."%string = "."%string) /\
  (PrimFloat.is_nan (Number ".5") = true <-> ".5"%string = "."%string).
Proof.
  split; apply X14_only_the_lone_point_reads_as_NaN; reflexivity.
Defined.

End AdmittedStrings.
